(** * Expense-management backend: approval engine, chain builder,
      currency normaliser and approver configuration.

    A shallow embedding of the request handlers of the Express/PostgreSQL
    backend (controllers/approvalController.js, controllers/expenseController.js,
    controllers/configController.js, utils/currencyConverter.js) together with
    the properties that the design document states about them.

    Conventions of the embedding.
    - JavaScript numbers are IEEE-754 binary64 values: Rocq's primitive
      [float], with [PrimFloat.mul], [PrimFloat.div], [PrimFloat.leb].
    - JavaScript strings are [string]: the bytes of the text in UTF-8.
      Currency codes, statuses and rule types are ASCII, and so is the
      text on which [toUpperCase] is modelled; the white space that [trim]
      strips and the texts that a column of the database holds are modelled
      on the UTF-8 text.
    - UUID primary keys are natural numbers drawn from a per-database
      counter that stands for [uuid_generate_v4()].
    - A table is the list of its rows, in insertion order.  A handler that
      runs [BEGIN ... COMMIT] is a function from the database to a response
      and the database it leaves behind; [ROLLBACK] leaves the one it found.
    - SQL statements are modelled by their effect on the tables.  Where a
      statement writes a value that comes from the request, the column
      types and the constraints of schema.sql are modelled with it: the
      statement raises when the database refuses the value, and the
      handler answers 500.  A lost connection is outside the model.
    - The parts of the JavaScript runtime and of the database that convert
      between text and numbers ([parseFloat], [Number.prototype.toFixed],
      string-to-number coercion, [Date] parsing, the storage of a number
      in a [DECIMAL] column and of a [Date] in a [DATE] column), and the
      messages of the errors that the database raises, are parameters of
      the development. *)

From Stdlib Require Import ZArith List String Ascii Bool Lia PrimFloat Uint63 FloatOps SpecFloat Sorted Permutation.
From stdpp Require Import base option list strings gmap pretty.

Local Open Scope string_scope.
Local Open Scope Z_scope.

(** ** JavaScript values *)

Definition uuid := N.
Bind Scope N_scope with uuid.

(** [x === 0 || isNaN(x)]: the numbers that are falsy. *)
Definition falsy_num (x : float) : bool := PrimFloat.eqb x 0%float || is_nan x.

(** The number that an integer denotes. *)
Definition float_of_Z (z : Z) : float :=
  if z <? 0 then (- PrimFloat.of_uint63 (Uint63.of_Z (- z)))%float
  else PrimFloat.of_uint63 (Uint63.of_Z z).

(** JSON as the handlers read it from JSONB columns and write it with
    [res.json].  Integers, identifiers and timestamps are kept apart from
    floating-point numbers so that they can be compared exactly. *)
#[local] Unset Elimination Schemes.
Inductive json : Type :=
| JNull
| JBool (b : bool)
| JInt (z : Z)
| JNum (x : float)
| JStr (s : string)
| JUuid (u : uuid)
| JTime (t : Z)
| JArr (l : list json)
| JObj (fields : list (string * json)).
#[local] Set Elimination Schemes.

(** [obj.key]; [None] is [undefined]. *)
Fixpoint get_field (key : string) (fields : list (string * json)) : option json :=
  match fields with
  | [] => None
  | (k, v) :: rest => if String.eqb k key then Some v else get_field key rest
  end.

Definition field (key : string) (j : json) : option json :=
  match j with
  | JObj fields => get_field key fields
  | _ => None
  end.

Definition opt_json {A} (f : A -> json) (o : option A) : json :=
  match o with Some a => f a | None => JNull end.

(** What [res.status(code).json(body)] sends. *)
Record response := { http_status : Z; body : json }.

(** [String.prototype.toUpperCase] on ASCII text. *)
Definition upper_ascii (c : ascii) : ascii :=
  let n := nat_of_ascii c in
  if (97 <=? n)%nat && (n <=? 122)%nat then ascii_of_nat (n - 32) else c.

Fixpoint toUpperCase (s : string) : string :=
  match s with
  | EmptyString => EmptyString
  | String c rest => String (upper_ascii c) (toUpperCase rest)
  end.

(** The white space and line terminators that [String.prototype.trim]
    strips.  In one byte: TAB, LF, VT, FF, CR and SPACE. *)
Definition is_white (c : ascii) : bool :=
  let n := nat_of_ascii c in
  ((9 <=? n)%nat && (n <=? 13)%nat) || (n =? 32)%nat.

(** In two bytes: U+00A0, which is C2 A0. *)
Definition is_white2 (c1 c2 : ascii) : bool :=
  (nat_of_ascii c1 =? 194)%nat && (nat_of_ascii c2 =? 160)%nat.

(** In three bytes: U+1680 (E1 9A 80); U+2000 to U+200A, U+2028, U+2029
    and U+202F (E2 80 80 to 8A, A8, A9 and AF); U+205F (E2 81 9F);
    U+3000 (E3 80 80); U+FEFF (EF BB BF). *)
Definition is_white3 (c1 c2 c3 : ascii) : bool :=
  let n1 := nat_of_ascii c1 in
  let n2 := nat_of_ascii c2 in
  let n3 := nat_of_ascii c3 in
  ((n1 =? 225) && (n2 =? 154) && (n3 =? 128))%nat
  || ((n1 =? 226) && (n2 =? 128)
      && (((128 <=? n3) && (n3 <=? 138)) || (n3 =? 168) || (n3 =? 169) || (n3 =? 175)))%nat
  || ((n1 =? 226) && (n2 =? 129) && (n3 =? 159))%nat
  || ((n1 =? 227) && (n2 =? 128) && (n3 =? 128))%nat
  || ((n1 =? 239) && (n2 =? 187) && (n3 =? 191))%nat.

(** [s.trim().length === 0]: the text is made of such characters only. *)
Fixpoint blank (s : string) : bool :=
  match s with
  | EmptyString => true
  | String c1 s1 =>
      if is_white c1 then blank s1
      else
        match s1 with
        | EmptyString => false
        | String c2 s2 =>
            if is_white2 c1 c2 then blank s2
            else
              match s2 with
              | EmptyString => false
              | String c3 s3 => is_white3 c1 c2 c3 && blank s3
              end
        end
  end.

(** ** Text and numbers in the database *)

(** The double quote, which the messages of the database put around a
    name. *)
Definition dquote : string := String "034" "".

(** A text with the character U+0000, which no column holds: the
    statement that is given one raises. *)
Fixpoint has_nul (s : string) : bool :=
  match s with
  | EmptyString => false
  | String c rest => (nat_of_ascii c =? 0)%nat || has_nul rest
  end.

Definition invalid_byte_sequence : string :=
  "invalid byte sequence for encoding " +:+ dquote +:+ "UTF8" +:+ dquote +:+ ": 0x00".

(** A byte that continues a character of more than one byte. *)
Definition continuation (c : ascii) : bool :=
  let n := nat_of_ascii c in (128 <=? n)%nat && (n <? 192)%nat.

(** The first [n] characters of a text, and what follows them. *)
Fixpoint split_characters (n : nat) (s : string) : string * string :=
  match s with
  | EmptyString => (EmptyString, EmptyString)
  | String c rest =>
      if continuation c then
        let (taken, left) := split_characters n rest in (String c taken, left)
      else
        match n with
        | O => (EmptyString, s)
        | S n' => let (taken, left) := split_characters n' rest in (String c taken, left)
        end
  end.

Fixpoint spaces (s : string) : bool :=
  match s with
  | EmptyString => true
  | String c rest => (nat_of_ascii c =? 32)%nat && spaces rest
  end.

(** What a column of type [TEXT] holds for a text, [None] when the
    statement raises. *)
Definition text (s : string) : option string :=
  if has_nul s then None else Some s.

(** What a column of type [VARCHAR(n)] holds for a text: the text, if it
    has at most [n] characters; its first [n] characters, if those that
    follow are all spaces.  [None] when the statement raises. *)
Definition varchar (n : nat) (s : string) : option string :=
  if has_nul s then None
  else
    let (taken, left) := split_characters n s in
    if spaces left then Some taken else None.

(** The message for a text that is too long for its column. *)
Definition value_too_long (n : nat) : string :=
  "value too long for type character varying(" +:+ pretty (Z.of_nat n) +:+ ")".

(** The largest value of a column of type [INTEGER]. *)
Definition integer_max : Z := 2147483647.

(** ** utils/currencyConverter.js *)

Record cache_entry := { rate : float; timestamp : Z }.

(** [rateCache]: a [Map] from the key [FROM_TO] to the rate and the time
    it was fetched. *)
Abbreviation rate_cache := (gmap string cache_entry).

Definition CACHE_DURATION : Z := 60 * 60 * 1000.

Definition cacheKey (fromCurrency toCurrency : string) : string :=
  fromCurrency +:+ "_" +:+ toCurrency.

(** The error an [axios.get] rejects with: the HTTP response, when the
    server answered, as status and status text; and the error code. *)
Record axios_error := {
  err_response : option (Z * string);
  err_code : option string
}.

(** The outcome of [axios.get(url, { timeout: 5000 })]: a response whose
    [data] and [data.rates] may be missing, or a rejection. *)
Inductive axios_result :=
| AxiosResponse (data : option (option (gmap string float)))
| AxiosReject (e : axios_error).

(** What the conversion sees of the world: the clock when the cache is
    consulted, the clock when a fetched rate is stored, and the exchange
    rate service, by base currency. *)
Record world := {
  now_lookup : Z;
  now_store : Z;
  oracle : string -> axios_result
}.

(** What the conversion does besides computing. *)
Inductive effect :=
| CacheGet (key : string)
| OracleGet (base : string)
| CacheSet (key : string).

(** An exception inside the [try] block: an [Error] made by the function
    itself, or the rejection of the HTTP call. *)
Inductive thrown :=
| ThrownError (message : string)
| ThrownAxios (e : axios_error).

(** How the [try] block ends.  A [throw] is recorded with the values that
    the variables [fromCurrency] and [toCurrency] hold at that point: the
    [catch] block reads them, and the block reassigns them on the way. *)
Inductive try_outcome :=
| Returned (value : float) (cache : rate_cache) (log : list effect)
| Threw (error : thrown) (fromCurrency toCurrency : string) (log : list effect).

Inductive result (A : Type) :=
| Ok (value : A)
| Throw (message : string).
Arguments Ok {A} value.
Arguments Throw {A} message.

Section CurrencyConverter.

(** [x => parseFloat(x.toFixed(2))] *)
Variable toFixed2 : float -> float.

Definition convert_try (w : world) (cache : rate_cache)
    (amount : float) (fromCurrency toCurrency : string) : try_outcome :=
  if String.eqb fromCurrency toCurrency then
    Returned (toFixed2 amount) cache []
  else if falsy_num amount || PrimFloat.leb amount 0%float then
    Threw (ThrownError "Invalid amount for conversion") fromCurrency toCurrency []
  else if String.eqb fromCurrency "" || String.eqb toCurrency "" then
    Threw (ThrownError "Currency codes are required") fromCurrency toCurrency []
  else
    let fromCurrency := toUpperCase fromCurrency in
    let toCurrency := toUpperCase toCurrency in
    let key := cacheKey fromCurrency toCurrency in
    let fresh :=
      match cache !! key with
      | Some cachedData =>
          if now_lookup w - timestamp cachedData <? CACHE_DURATION
          then Some cachedData else None
      | None => None
      end in
    match fresh with
    | Some cachedData =>
        Returned (toFixed2 (amount * rate cachedData)%float) cache [CacheGet key]
    | None =>
        let log := [CacheGet key; OracleGet fromCurrency] in
        match oracle w fromCurrency with
        | AxiosReject e => Threw (ThrownAxios e) fromCurrency toCurrency log
        | AxiosResponse (Some (Some rates)) =>
            match rates !! toCurrency with
            | Some exchangeRate =>
                if falsy_num exchangeRate then
                  Threw (ThrownError ("Exchange rate not found for " +:+ toCurrency))
                        fromCurrency toCurrency log
                else
                  Returned (toFixed2 (amount * exchangeRate)%float)
                    (<[key := {| rate := exchangeRate; timestamp := now_store w |}]> cache)
                    (log ++ [CacheSet key])%list
            | None =>
                Threw (ThrownError ("Exchange rate not found for " +:+ toCurrency))
                      fromCurrency toCurrency log
            end
        | AxiosResponse _ =>
            Threw (ThrownError "Invalid response from exchange rate API")
                  fromCurrency toCurrency log
        end
    end.

(** The message of the error that the [catch] block throws when it has
    no cached rate to fall back on. *)
Definition rethrown (error : thrown) (fromCurrency : string) : string :=
  let response :=
    match error with ThrownAxios e => err_response e | ThrownError _ => None end in
  let code :=
    match error with ThrownAxios e => err_code e | ThrownError _ => None end in
  if match response with Some (status, _) => status =? 404 | None => false end then
    "Currency " +:+ fromCurrency +:+ " not supported"
  else if match code with
          | Some c => String.eqb c "ECONNABORTED" || String.eqb c "ETIMEDOUT"
          | None => false
          end then
    "Currency conversion service timeout. Please try again."
  else match response with
       | Some (_, statusText) => "Currency conversion failed: " +:+ statusText
       | None => "Currency conversion service unavailable. Please try again later."
       end.

Definition convertCurrency (w : world) (cache : rate_cache)
    (amount : float) (fromCurrency toCurrency : string)
    : result float * rate_cache * list effect :=
  match convert_try w cache amount fromCurrency toCurrency with
  | Returned value cache' log => (Ok value, cache', log)
  | Threw error fromCurrency toCurrency log =>
      let key := cacheKey fromCurrency toCurrency in
      match cache !! key with
      | Some cachedData =>
          (Ok (toFixed2 (amount * rate cachedData)%float), cache, (log ++ [CacheGet key])%list)
      | None => (Throw (rethrown error fromCurrency), cache, (log ++ [CacheGet key])%list)
      end
  end.

End CurrencyConverter.

(** ** The database (schema.sql) *)

(** The values of the [status] columns.  [approvals.status] is one of the
    first three; [expenses.status] may also be [draft]. *)
Inductive status := pending | approved | rejected | draft.

Definition status_eqb (a b : status) : bool :=
  match a, b with
  | pending, pending | approved, approved | rejected, rejected | draft, draft => true
  | _, _ => false
  end.

Definition status_name (s : status) : string :=
  match s with
  | pending => "pending"
  | approved => "approved"
  | rejected => "rejected"
  | draft => "draft"
  end.

Record company := {
  c_id : uuid;
  c_name : string;
  c_currency : string
}.

Record user := {
  u_id : uuid;
  u_company_id : uuid;
  u_name : string;
  u_email : string;
  u_role : string;
  u_manager_id : option uuid;
  u_is_active : bool
}.

Record expense := {
  e_id : uuid;
  e_user_id : uuid;
  e_company_id : uuid;
  e_amount : float;
  e_original_amount : float;
  e_original_currency : string;
  e_category : string;
  e_description : option string;
  e_date : Z;
  e_status : status;
  e_receipt_url : option string;
  e_created_at : Z;
  e_updated_at : Z
}.

Record approver := {
  ap_id : uuid;
  ap_company_id : uuid;
  ap_user_id : uuid;
  ap_role_name : string;
  ap_sequence : Z;
  ap_is_active : bool
}.

Record approval := {
  a_id : uuid;
  a_expense_id : uuid;
  a_approver_id : uuid;
  a_sequence : Z;
  a_status : status;
  a_comments : option string;
  a_approved_at : option Z;
  a_created_at : Z
}.

Record approval_rule := {
  r_id : uuid;
  r_company_id : uuid;
  r_rule_type : string;
  r_rule_config : json;
  r_is_active : bool
}.

Record db := {
  companies : list company;
  users : list user;
  expenses : list expense;
  approvers : list approver;
  approvals : list approval;
  approval_rules : list approval_rule;
  next_uuid : uuid
}.

(** [req.user], as the authentication middleware leaves it. *)
Record principal := {
  p_id : uuid;
  p_company_id : uuid;
  p_role : string
}.

(** [SELECT ... WHERE id = $1] on each table. *)
Definition find_company (d : db) (id : uuid) : option company :=
  find (fun c => N.eqb (c_id c) id) (companies d).
Definition find_user (d : db) (id : uuid) : option user :=
  find (fun u => N.eqb (u_id u) id) (users d).
Definition find_expense (d : db) (id : uuid) : option expense :=
  find (fun e => N.eqb (e_id e) id) (expenses d).
Definition find_approval (d : db) (id : uuid) : option approval :=
  find (fun a => N.eqb (a_id a) id) (approvals d).

(** [ORDER BY key ASC], as a stable insertion sort. *)
Section OrderBy.
Context {A : Type} (key : A -> Z).

Fixpoint insert_by (x : A) (l : list A) : list A :=
  match l with
  | [] => [x]
  | y :: rest => if key x <? key y then x :: y :: rest else y :: insert_by x rest
  end.

Fixpoint order_by (l : list A) : list A :=
  match l with
  | [] => []
  | x :: rest => insert_by x (order_by rest)
  end.
End OrderBy.

(** [UPDATE expenses SET status = $s, updated_at = CURRENT_TIMESTAMP
     WHERE id = $id] on one row.  Where the statement does not set
    [updated_at], the trigger of the table does. *)
Definition set_expense_status (id : uuid) (s : status) (now : Z) (e : expense) : expense :=
  if N.eqb (e_id e) id then
    {| e_id := e_id e; e_user_id := e_user_id e; e_company_id := e_company_id e;
       e_amount := e_amount e; e_original_amount := e_original_amount e;
       e_original_currency := e_original_currency e; e_category := e_category e;
       e_description := e_description e; e_date := e_date e; e_status := s;
       e_receipt_url := e_receipt_url e; e_created_at := e_created_at e;
       e_updated_at := now |}
  else e.

(** The message of the [TypeError] that reading [rows[0].name] raises when
    the query returned no row. *)
Definition type_error_name : string :=
  "Cannot read properties of undefined (reading 'name')".

(** ** controllers/expenseController.js: submitExpense *)

(** The fields of the multipart body, and the name multer gave the
    uploaded receipt, if there is one. *)
Record submit_request := {
  sr_user : principal;
  sr_amount : option string;
  sr_currency : option string;
  sr_category : option string;
  sr_description : option string;
  sr_date : option string;
  sr_file : option string
}.

(** [!field] for a body field: absent or the empty string. *)
Definition missing (o : option string) : bool :=
  match o with
  | None => true
  | Some s => String.eqb s ""
  end.

(** [x || null] for a string. *)
Definition or_null (o : option string) : option string :=
  match o with
  | Some s => if String.eqb s "" then None else Some s
  | None => None
  end.

(** One element of [approvalChain]: the inserted row and the approver's
    name, email and role. *)
Definition chain_entry : Type := approval * (string * string * string).

Definition json_chain_entry (entry : chain_entry) : json :=
  let '(a, (name, email, role)) := entry in
  JObj [("id", JUuid (a_id a));
        ("approver_id", JUuid (a_approver_id a));
        ("sequence", JInt (a_sequence a));
        ("status", JStr (status_name (a_status a)));
        ("created_at", JTime (a_created_at a));
        ("approver_name", JStr name);
        ("approver_email", JStr email);
        ("approver_role", JStr role)].

(** [INSERT INTO approvals (expense_id, approver_id, sequence, status)]. *)
Definition new_approval (id expense_id approver_id : uuid) (sequence now : Z) : approval :=
  {| a_id := id; a_expense_id := expense_id; a_approver_id := approver_id;
     a_sequence := sequence; a_status := pending; a_comments := None;
     a_approved_at := None; a_created_at := now |}.

(** The rows of
    [SELECT a.user_id, a.sequence, u.name, u.email, u.role
     FROM approvers a JOIN users u ON a.user_id = u.id
     WHERE a.company_id = $1 AND a.is_active = true ORDER BY a.sequence ASC]. *)
Definition additionalApprovers (d : db) (companyId : uuid) : list (approver * user) :=
  order_by (fun row => ap_sequence (fst row))
    (flat_map
       (fun a =>
          if N.eqb (ap_company_id a) companyId && ap_is_active a then
            match find_user d (ap_user_id a) with
            | Some u => [(a, u)]
            | None => []
            end
          else [])
       (approvers d)).

(** The loop over the additional approvers: one slot for each row whose
    user is not the manager, numbered from [sequence] on, with identifiers
    from [next] on. *)
Fixpoint add_approvers (expense_id : uuid) (managerId : option uuid) (now : Z)
    (rows : list (approver * user)) (sequence : Z) (next : uuid) : list chain_entry :=
  match rows with
  | [] => []
  | (a, u) :: rest =>
      if match managerId with Some m => N.eqb (ap_user_id a) m | None => false end then
        add_approvers expense_id managerId now rest sequence next
      else
        (new_approval next expense_id (ap_user_id a) sequence now,
         (u_name u, u_email u, u_role u))
        :: add_approvers expense_id managerId now rest (sequence + 1) (N.succ next)
  end.

Definition error_response (code : Z) (error : string) (details : option string) : response :=
  {| http_status := code;
     body := JObj (("error", JStr error) ::
                   match details with Some m => [("details", JStr m)] | None => [] end) |}.

Section ExpenseController.

Variable toFixed2 : float -> float.
(** [parseFloat] on the text of a body field. *)
Variable parseFloat : string -> float.
(** [new Date(text).getTime()], [None] when it is [NaN]. *)
Variable parseDate : string -> option Z.
(** What a column of type [DECIMAL(10,2)] holds for a number, and what a
    column of type [DATE] holds for a [Date], given as its time value;
    [None] when the statement raises: the number, rounded to two
    decimals, has more than eight digits before the point or is infinite,
    the date is outside the range of the type. *)
Variable decimal_10_2 : float -> option float.
Variable date_column : Z -> option Z.
(** The message of the error that the database raises for a row of
    [expenses] that it refuses. *)
Variable expense_error : expense -> string.

(** What a column that may be [NULL] holds. *)
Definition nullable (column : string -> option string) (value : option string)
    : option (option string) :=
  match value with
  | Some s => Some <$> column s
  | None => Some None
  end.

(** [INSERT INTO expenses (user_id, company_id, amount, original_amount,
     original_currency, category, description, date, status, receipt_url)
     VALUES (...) RETURNING *], for a company that has been read: the row
    that the table holds for the values of the statement, [None] when
    the statement raises.  It raises for a user that is not in [users]
    and for a value that its column does not hold: [amount] and
    [original_amount] are [DECIMAL(10,2)], [original_currency] is
    [VARCHAR(3)], [category] is [VARCHAR(100)], [description] is [TEXT],
    [date] is [DATE] and [receipt_url] is [VARCHAR(500)]. *)
Definition insert_expense (d : db) (values : expense) : option expense :=
  match find_user d (e_user_id values),
        decimal_10_2 (e_amount values), decimal_10_2 (e_original_amount values),
        varchar 3 (e_original_currency values), varchar 100 (e_category values),
        nullable text (e_description values), date_column (e_date values),
        nullable (varchar 500) (e_receipt_url values) with
  | Some _, Some amount, Some original_amount, Some original_currency, Some category,
    Some description, Some date, Some receipt_url =>
      Some {| e_id := e_id values; e_user_id := e_user_id values;
              e_company_id := e_company_id values;
              e_amount := amount; e_original_amount := original_amount;
              e_original_currency := original_currency; e_category := category;
              e_description := description; e_date := date;
              e_status := e_status values; e_receipt_url := receipt_url;
              e_created_at := e_created_at values; e_updated_at := e_updated_at values |}
  | _, _, _, _, _, _, _, _ => None
  end.

(** The approval chain of a new expense: the manager's slot, if the
    submitter has a manager, then the slots of the additional approvers.
    [None] when the manager's user row cannot be read, which raises. *)
Definition build_chain (d : db) (companyId expense_id : uuid)
    (managerId : option uuid) (now : Z) : option (list chain_entry) :=
  let first := N.succ expense_id in
  match managerId with
  | Some m =>
      match find_user d m with
      | Some mu =>
          Some ((new_approval first expense_id m 1 now, (u_name mu, u_email mu, u_role mu))
                :: add_approvers expense_id managerId now
                     (additionalApprovers d companyId) 2 (N.succ first))
      | None => None
      end
  | None =>
      Some (add_approvers expense_id managerId now (additionalApprovers d companyId) 1 first)
  end.

Definition json_submitted (e : expense) (companyCurrency : string)
    (submitter : user) (approvalChain : list chain_entry) : json :=
  JObj [("message", JStr "Expense submitted successfully");
        ("expense",
         JObj [("id", JUuid (e_id e));
               ("amount", JNum (e_amount e));
               ("original_amount", JNum (e_original_amount e));
               ("original_currency", JStr (e_original_currency e));
               ("company_currency", JStr companyCurrency);
               ("category", JStr (e_category e));
               ("description", opt_json JStr (e_description e));
               ("date", JTime (e_date e));
               ("status", JStr (status_name (e_status e)));
               ("receipt_url", opt_json JStr (e_receipt_url e));
               ("created_at", JTime (e_created_at e));
               ("submitter",
                JObj [("id", JUuid (e_user_id e));
                      ("name", JStr (u_name submitter));
                      ("email", JStr (u_email submitter))])]);
        ("approval_chain", JArr (map json_chain_entry approvalChain));
        ("next_approver",
         match approvalChain with
         | first :: _ => json_chain_entry first
         | [] => JNull
         end)].

(** The handler.  The catch-all path also deletes the uploaded receipt
    from the disk, which is not part of the state kept here.  The rate
    cache is not part of the transaction: what the conversion has stored
    stays when the transaction is rolled back. *)
Definition submitExpense (w : world) (now : Z) (req : submit_request)
    (d : db) (cache : rate_cache) : response * db * rate_cache * list effect :=
  let userId := p_id (sr_user req) in
  let companyId := p_company_id (sr_user req) in
  if missing (sr_amount req) || missing (sr_currency req)
     || missing (sr_category req) || missing (sr_date req) then
    (error_response 400 "Missing required fields"
       (Some "amount, currency, category, and date are required"), d, cache, [])
  else
    let amount := default "" (sr_amount req) in
    let currency := default "" (sr_currency req) in
    let category := default "" (sr_category req) in
    let date := default "" (sr_date req) in
    let expenseAmount := parseFloat amount in
    if is_nan expenseAmount || PrimFloat.leb expenseAmount 0%float then
      (error_response 400 "Invalid amount" (Some "Amount must be a positive number"),
       d, cache, [])
    else
      match parseDate date with
      | None => (error_response 400 "Invalid date format" None, d, cache, [])
      | Some expenseDate =>
          match find_company d companyId with
          | None => (error_response 404 "Company not found" None, d, cache, [])
          | Some c =>
              let companyCurrency := c_currency c in
              match convertCurrency toFixed2 w cache expenseAmount
                      (toUpperCase currency) (toUpperCase companyCurrency) with
              | (Throw message, cache, log) =>
                  (error_response 400 "Currency conversion failed" (Some message),
                   d, cache, log)
              | (Ok convertedAmount, cache, log) =>
                  let receiptUrl := (fun name => "/uploads/" +:+ name) <$> sr_file req in
                  let values :=
                    {| e_id := next_uuid d; e_user_id := userId; e_company_id := companyId;
                       e_amount := convertedAmount; e_original_amount := expenseAmount;
                       e_original_currency := toUpperCase currency;
                       e_category := category;
                       e_description := or_null (sr_description req);
                       e_date := expenseDate; e_status := pending;
                       e_receipt_url := receiptUrl;
                       e_created_at := now; e_updated_at := now |} in
                  match insert_expense d values with
                  | None =>
                      (error_response 500 "Failed to submit expense"
                         (Some (expense_error values)), d, cache, log)
                  | Some expense =>
                  let managerId := find_user d userId ≫= u_manager_id in
                  match build_chain d companyId (e_id expense) managerId now with
                  | None =>
                      (error_response 500 "Failed to submit expense" (Some type_error_name),
                       d, cache, log)
                  | Some approvalChain =>
                      let expense :=
                        if match approvalChain with [] => true | _ => false end
                           && String.eqb (p_role (sr_user req)) "admin"
                        then set_expense_status (e_id expense) approved now expense
                        else expense in
                      let committed :=
                        {| companies := companies d; users := users d;
                           expenses := (expenses d ++ [expense])%list;
                           approvers := approvers d;
                           approvals := (approvals d ++ map fst approvalChain)%list;
                           approval_rules := approval_rules d;
                           next_uuid :=
                             (next_uuid d + 1 + N.of_nat (length approvalChain))%N |} in
                      match find_user committed userId with
                      | None =>
                          (error_response 500 "Failed to submit expense"
                             (Some type_error_name), committed, cache, log)
                      | Some submitter =>
                          ({| http_status := 201;
                              body := json_submitted expense companyCurrency
                                        submitter approvalChain |},
                           committed, cache, log)
                      end
                  end
                  end
              end
          end
      end.

End ExpenseController.

(** ** controllers/approvalController.js *)

(** [POST /api/approvals/:id/approve] and [.../reject]: the caller, the
    identifier of the approval row and the [comments] of the body. *)
Record decide_request := {
  dr_user : principal;
  dr_id : uuid;
  dr_comments : option string
}.

(** A count, as the number that [parseInt] makes of a [COUNT(...)]. *)
Definition count_number (n : nat) : float :=
  float_of_Z (Z.of_nat n).

(** The rows of [approvals] that belong to one expense. *)
Definition approvals_of (d : db) (expense_id : uuid) : list approval :=
  List.filter (fun a => N.eqb (a_expense_id a) expense_id) (approvals d).

Definition is_approved (a : approval) : bool := status_eqb (a_status a) approved.
Definition is_pending (a : approval) : bool := status_eqb (a_status a) pending.

(** The statement below raises when it is given a comment that the column
    [comments], of type [TEXT], does not hold. *)
Definition unstorable (comments : option string) : bool :=
  match comments with
  | Some c => has_nul c
  | None => false
  end.

(** [UPDATE approvals SET status = $s, comments = $c,
     approved_at = CURRENT_TIMESTAMP WHERE id = $id] on one row. *)
Definition decide_row (id : uuid) (s : status) (comments : option string) (now : Z)
    (a : approval) : approval :=
  if N.eqb (a_id a) id then
    {| a_id := a_id a; a_expense_id := a_expense_id a; a_approver_id := a_approver_id a;
       a_sequence := a_sequence a; a_status := s; a_comments := comments;
       a_approved_at := Some now; a_created_at := a_created_at a |}
  else a.

Definition with_approvals (d : db) (rows : list approval) : db :=
  {| companies := companies d; users := users d; expenses := expenses d;
     approvers := approvers d; approvals := rows;
     approval_rules := approval_rules d; next_uuid := next_uuid d |}.

Definition with_expenses (d : db) (rows : list expense) : db :=
  {| companies := companies d; users := users d; expenses := rows;
     approvers := approvers d; approvals := approvals d;
     approval_rules := approval_rules d; next_uuid := next_uuid d |}.

(** JavaScript truthiness of a JSON value; [None] is [undefined]. *)
Definition truthy (v : option json) : bool :=
  match v with
  | None | Some JNull => false
  | Some (JBool b) => b
  | Some (JNum x) => negb (falsy_num x)
  | Some (JInt z) => negb (z =? 0)
  | Some (JStr s) => negb (String.eqb s "")
  | Some _ => true
  end.

Definition json_approval (a : approval) (approver : user) : json :=
  JObj [("id", JUuid (a_id a));
        ("expense_id", JUuid (a_expense_id a));
        ("sequence", JInt (a_sequence a));
        ("status", JStr (status_name (a_status a)));
        ("comments", opt_json JStr (a_comments a));
        ("approved_at", opt_json JTime (a_approved_at a));
        ("approver", JObj [("name", JStr (u_name approver));
                           ("email", JStr (u_email approver))])].

Section ApprovalController.

(** [ToNumber] on a JSON value that is neither a number, a boolean nor
    [null]: a string, or an array or object through [ToPrimitive]. *)
Variable coerce : json -> float.

Definition to_number (v : json) : float :=
  match v with
  | JNum x => x
  | JInt z => float_of_Z z
  | JBool b => if b then 1%float else 0%float
  | JNull => 0%float
  | other => coerce other
  end.

(** [config.required_percentage || 100] *)
Definition requiredPercentage (config : json) : float :=
  match field "required_percentage" config with
  | Some v => if truthy (Some v) then to_number v else 100%float
  | None => 100%float
  end.

(** [(parseInt(stats.approved) / parseInt(stats.total)) * 100] over the
    approvals of the expense. *)
Definition approvedPercentage (rows : list approval) : float :=
  (count_number (length (List.filter is_approved rows))
   / count_number (length rows) * 100)%float.

(** The rows of
    [SELECT rule_type, rule_config FROM approval_rules
     WHERE company_id = $1 AND is_active = true]. *)
Definition active_rules (d : db) (companyId : uuid) : list approval_rule :=
  List.filter (fun r => N.eqb (r_company_id r) companyId && r_is_active r)
              (approval_rules d).

(** One turn of the loop over the rules: whether the rule makes the
    expense fully approved.  Only rules of type [percentage] are looked
    at.  [None] when reading the configuration raises, which it does for
    a [null] configuration. *)
Definition rule_approves (rows : list approval) (rule : approval_rule) : option bool :=
  if String.eqb (r_rule_type rule) "percentage" then
    match r_rule_config rule with
    | JNull => None
    | config => Some (PrimFloat.leb (requiredPercentage config) (approvedPercentage rows))
    end
  else Some false.

(** The whole loop, started with the value that [isFullyApproved] holds
    before it. *)
Fixpoint apply_rules (rows : list approval) (rules : list approval_rule)
    (isFullyApproved : bool) : option bool :=
  match rules with
  | [] => Some isFullyApproved
  | rule :: rest =>
      match rule_approves rows rule with
      | Some hit => apply_rules rows rest (hit || isFullyApproved)
      | None => None
      end
  end.

Definition lower_sequence (approval a : approval) : bool :=
  N.eqb (a_expense_id a) (a_expense_id approval) && (a_sequence a <? a_sequence approval).

Definition higher_sequence (approval a : approval) : bool :=
  N.eqb (a_expense_id a) (a_expense_id approval) && (a_sequence approval <? a_sequence a).

(** The rows of [previousApprovals] that are not approved, in ascending
    sequence. *)
Definition unapprovedPrevious (d : db) (approval : approval) :=
  List.filter (fun a => negb (is_approved a))
    (order_by a_sequence (List.filter (lower_sequence approval) (approvals d))).

Definition approveExpense (now : Z) (req : decide_request) (d : db) : response * db :=
  let id := dr_id req in
  let userId := p_id (dr_user req) in
  match find_approval d id with
  | None => (error_response 404 "Approval not found" None, d)
  | Some approval =>
  match find_expense d (a_expense_id approval) with
  | None => (error_response 404 "Approval not found" None, d)
  | Some expense =>
  if negb (N.eqb (a_approver_id approval) userId) then
    (error_response 403 "Access denied"
       (Some "You are not the assigned approver for this expense"), d)
  else if negb (is_pending approval) then
    (error_response 400 "Invalid approval status"
       (Some ("This approval is already " +:+ status_name (a_status approval))), d)
  else if negb (status_eqb (e_status expense) pending) then
    (error_response 400 "Invalid expense status"
       (Some ("This expense is already " +:+ status_name (e_status expense))), d)
  else
    match unapprovedPrevious d approval with
    | blocking :: _ =>
        (error_response 400 "Sequential approval violation"
           (Some ("Approval sequence " +:+ pretty (a_sequence blocking)
                  +:+ " must be approved first")), d)
    | [] =>
        if unstorable (or_null (dr_comments req)) then
          (error_response 500 "Failed to approve expense" (Some invalid_byte_sequence), d)
        else
        let d1 := with_approvals d
                    (map (decide_row id approved (or_null (dr_comments req)) now)
                         (approvals d)) in
        let updatedApproval :=
          decide_row id approved (or_null (dr_comments req)) now approval in
        let remainingApprovals :=
          order_by a_sequence
            (List.filter (higher_sequence approval) (approvals d1)) in
        let rows := approvals_of d1 (a_expense_id approval) in
        let allDone :=
          match remainingApprovals with
          | [] => true
          | _ => forallb is_approved rows
          end in
        match apply_rules rows (active_rules d1 (e_company_id expense)) allDone with
        | None =>
            (error_response 500 "Failed to approve expense"
               (Some "Cannot read properties of null (reading 'required_percentage')"), d)
        | Some isFullyApproved =>
            let committed :=
              if isFullyApproved then
                with_expenses d1
                  (map (set_expense_status (a_expense_id approval) approved now) (expenses d1))
              else d1 in
            let updatedExpense :=
              if isFullyApproved
              then set_expense_status (a_expense_id approval) approved now expense
              else expense in
            match find_user committed userId with
            | None =>
                (error_response 500 "Failed to approve expense" (Some type_error_name),
                 committed)
            | Some approverDetails =>
                let nextApprover :=
                  match remainingApprovals with
                  | next :: _ =>
                      if isFullyApproved then Some JNull
                      else
                        (fun u => JObj [("name", JStr (u_name u));
                                        ("email", JStr (u_email u));
                                        ("sequence", JInt (a_sequence next))])
                        <$> find_user committed (a_approver_id next)
                  | [] => Some JNull
                  end in
                ({| http_status := 200;
                    body :=
                      JObj ([("message", JStr "Expense approved successfully");
                             ("approval", json_approval updatedApproval approverDetails);
                             ("expense",
                              JObj [("id", JUuid (e_id updatedExpense));
                                    ("status", JStr (status_name (e_status updatedExpense)));
                                    ("fully_approved", JBool isFullyApproved)])]
                            ++ match nextApprover with
                               | Some v => [("next_approver", v)]
                               | None => []
                               end)%list |},
                 committed)
            end
        end
    end
  end
  end.

(** The comment that the other pending slots of a rejected expense get. *)
Definition cascade_comment : string :=
  "Rejected due to prior rejection in approval chain".

(** [UPDATE approvals SET status = 'rejected', comments = '...',
     approved_at = CURRENT_TIMESTAMP
     WHERE expense_id = $1 AND status = 'pending' AND id != $2] on one row. *)
Definition cascade_row (expense_id id : uuid) (now : Z) (a : approval) : approval :=
  if N.eqb (a_expense_id a) expense_id && is_pending a && negb (N.eqb (a_id a) id) then
    {| a_id := a_id a; a_expense_id := a_expense_id a; a_approver_id := a_approver_id a;
       a_sequence := a_sequence a; a_status := rejected;
       a_comments := Some cascade_comment;
       a_approved_at := Some now; a_created_at := a_created_at a |}
  else a.

Definition rejectExpense (now : Z) (req : decide_request) (d : db) : response * db :=
  let id := dr_id req in
  let userId := p_id (dr_user req) in
  match or_null (dr_comments req) with
  | None => (error_response 400 "Comments are required when rejecting an expense" None, d)
  | Some comments =>
  if blank comments then
    (error_response 400 "Comments are required when rejecting an expense" None, d)
  else
  match find_approval d id with
  | None => (error_response 404 "Approval not found" None, d)
  | Some approval =>
  match find_expense d (a_expense_id approval) with
  | None => (error_response 404 "Approval not found" None, d)
  | Some expense =>
  if negb (N.eqb (a_approver_id approval) userId) then
    (error_response 403 "Access denied"
       (Some "You are not the assigned approver for this expense"), d)
  else if negb (is_pending approval) then
    (error_response 400 "Invalid approval status"
       (Some ("This approval is already " +:+ status_name (a_status approval))), d)
  else if negb (status_eqb (e_status expense) pending) then
    (error_response 400 "Invalid expense status"
       (Some ("This expense is already " +:+ status_name (e_status expense))), d)
  else if unstorable (Some comments) then
    (error_response 500 "Failed to reject expense" (Some invalid_byte_sequence), d)
  else
    let d1 := with_approvals d
                (map (decide_row id rejected (Some comments) now) (approvals d)) in
    let updatedApproval := decide_row id rejected (Some comments) now approval in
    let d2 := with_expenses d1
                (map (set_expense_status (a_expense_id approval) rejected now) (expenses d1)) in
    let updatedExpense :=
      set_expense_status (a_expense_id approval) rejected now expense in
    let committed :=
      with_approvals d2
        (map (cascade_row (a_expense_id approval) id now) (approvals d2)) in
    match find_user committed userId, find_user committed (e_user_id updatedExpense) with
    | Some approverDetails, Some submitterDetails =>
        ({| http_status := 200;
            body :=
              JObj [("message", JStr "Expense rejected successfully");
                    ("approval", json_approval updatedApproval approverDetails);
                    ("expense",
                     JObj [("id", JUuid (e_id updatedExpense));
                           ("status", JStr (status_name (e_status updatedExpense)));
                           ("submitter",
                            JObj [("name", JStr (u_name submitterDetails));
                                  ("email", JStr (u_email submitterDetails))])])] |},
         committed)
    | _, _ =>
        (error_response 500 "Failed to reject expense" (Some type_error_name), committed)
    end
  end
  end
  end.

End ApprovalController.

(** ** controllers/configController.js *)

(** [PUT /api/config/approvers/:id]: the caller, the identifier of the
    approver row, and the [newSequence] of the body: absent, or what
    [parseInt] makes of it, [None] standing for [NaN]. *)
Record sequence_request := {
  sq_user : principal;
  sq_id : uuid;
  sq_newSequence : option (option Z)
}.

Definition with_sequence (a : approver) (sequence : Z) : approver :=
  {| ap_id := ap_id a; ap_company_id := ap_company_id a; ap_user_id := ap_user_id a;
     ap_role_name := ap_role_name a; ap_sequence := sequence;
     ap_is_active := ap_is_active a |}.

(** [UPDATE approvers SET sequence = $1 WHERE id = $2] on one row. *)
Definition set_sequence (sequence : Z) (id : uuid) (a : approver) : approver :=
  if N.eqb (ap_id a) id then with_sequence a sequence else a.

Definition with_approvers (d : db) (rows : list approver) : db :=
  {| companies := companies d; users := users d; expenses := expenses d;
     approvers := rows; approvals := approvals d;
     approval_rules := approval_rules d; next_uuid := next_uuid d |}.

(** The rows of
    [SELECT id, user_id, role_name, sequence FROM approvers
     WHERE company_id = $1 AND sequence = $2 AND id != $3 AND is_active = true]. *)
Definition conflictResult (d : db) (companyId : uuid) (sequenceNum : Z) (id : uuid)
    : list approver :=
  List.filter
    (fun a => N.eqb (ap_company_id a) companyId && (ap_sequence a =? sequenceNum)
              && negb (N.eqb (ap_id a) id) && ap_is_active a)
    (approvers d).

(** The row of
    [SELECT a.*, u.name as user_name FROM approvers a JOIN users u
     ON a.user_id = u.id WHERE a.id = $1 AND a.company_id = $2], if any. *)
Definition approverResult (d : db) (id companyId : uuid) : option (approver * user) :=
  match find (fun a => N.eqb (ap_id a) id && N.eqb (ap_company_id a) companyId)
             (approvers d) with
  | Some a =>
      match find_user d (ap_user_id a) with
      | Some u => Some (a, u)
      | None => None
      end
  | None => None
  end.

(** The constraint [UNIQUE(company_id, role_name, sequence)] of the table
    [approvers] refuses [UPDATE approvers SET sequence = $1 WHERE id = $2]
    on a row: another row of the table, active or not, has the company
    and the role name of the row at that sequence. *)
Definition sequence_taken (d : db) (row : approver) (sequence : Z) : bool :=
  existsb
    (fun a => negb (N.eqb (ap_id a) (ap_id row))
              && N.eqb (ap_company_id a) (ap_company_id row)
              && String.eqb (ap_role_name a) (ap_role_name row)
              && (ap_sequence a =? sequence))
    (approvers d).

Definition approvers_key_name : string := "approvers_company_id_role_name_sequence_key".

Section ApproverSequences.

(** The message of the error that the database raises for a row that
    violates the named constraint, and for a number that a column of type
    [INTEGER] does not hold. *)
Variable violation : string -> string.
Variable out_of_range : Z -> string.

(** [PUT /api/config/approvers/:id].  The statements that compare the new
    sequence with the column or write it raise when it is above
    [integer_max]; each of the two updates raises when the constraint of
    the table refuses it, the first being that of the conflicting row. *)
Definition updateApproverSequence (req : sequence_request) (d : db) : response * db :=
  let id := sq_id req in
  let companyId := p_company_id (sq_user req) in
  match sq_newSequence req with
  | None =>
      (error_response 400 "Missing required field" (Some "newSequence is required"), d)
  | Some parsed =>
  match parsed with
  | None =>
      (error_response 400 "Invalid sequence"
         (Some "Sequence must be a positive integer starting from 1"), d)
  | Some sequenceNum =>
  if sequenceNum <? 1 then
    (error_response 400 "Invalid sequence"
       (Some "Sequence must be a positive integer starting from 1"), d)
  else
  match approverResult d id companyId with
  | None =>
      (error_response 404 "Approver not found"
         (Some "Approver does not exist or does not belong to your company"), d)
  | Some (approver, approverUser) =>
      let oldSequence := ap_sequence approver in
      if oldSequence =? sequenceNum then
        ({| http_status := 200;
            body := JObj [("message", JStr "Sequence unchanged");
                          ("approver",
                           JObj [("id", JUuid (ap_id approver));
                                 ("user_name", JStr (u_name approverUser));
                                 ("role_name", JStr (ap_role_name approver));
                                 ("sequence", JInt (ap_sequence approver))])] |}, d)
      else if integer_max <? sequenceNum then
        (error_response 500 "Failed to update approver sequence"
           (Some (out_of_range sequenceNum)), d)
      else
        let swap : result (db * json) :=
          match conflictResult d companyId sequenceNum id with
          | conflictingApprover :: _ =>
              if sequence_taken d conflictingApprover oldSequence then
                Throw (violation approvers_key_name)
              else
              let d1 := with_approvers d
                          (map (set_sequence oldSequence (ap_id conflictingApprover))
                               (approvers d)) in
              match find_user d1 (ap_user_id conflictingApprover) with
              | Some conflictUser =>
                  Ok (d1,
                      JObj [("id", JUuid (ap_id conflictingApprover));
                            ("user_name", JStr (u_name conflictUser));
                            ("role_name", JStr (ap_role_name conflictingApprover));
                            ("old_sequence", JInt (ap_sequence conflictingApprover));
                            ("new_sequence", JInt oldSequence)])
              | None => Throw type_error_name
              end
          | [] => Ok (d, JNull)
          end in
        match swap with
        | Throw message =>
            (error_response 500 "Failed to update approver sequence" (Some message), d)
        | Ok (d1, swappedWith) =>
            if sequence_taken d1 approver sequenceNum then
              (error_response 500 "Failed to update approver sequence"
                 (Some (violation approvers_key_name)), d)
            else
            let committed :=
              with_approvers d1 (map (set_sequence sequenceNum id) (approvers d1)) in
            ({| http_status := 200;
                body := JObj [("message", JStr "Approver sequence updated successfully");
                              ("approver",
                               JObj [("id", JUuid (ap_id approver));
                                     ("user_name", JStr (u_name approverUser));
                                     ("role_name", JStr (ap_role_name approver));
                                     ("old_sequence", JInt oldSequence);
                                     ("new_sequence", JInt sequenceNum)]);
                              ("swapped_with", swappedWith)] |},
             committed)
        end
  end
  end
  end.

End ApproverSequences.

Section ConfigController.

Variable coerce : json -> float.

(** [a < b] on JSON values that are compared as numbers. *)
Definition num_lt (a b : float) : bool := PrimFloat.ltb a b.

(** The checks that [setApprovalRule] makes on the configuration of a
    rule of type [percentage]; [None] when it passes them. *)
Definition check_percentage_rule (ruleConfig : json) : option response :=
  match field "percentage" ruleConfig, field "total_approvers" ruleConfig with
  | Some percentage, Some total_approvers =>
      if num_lt (to_number coerce percentage) 1%float
         || num_lt 100%float (to_number coerce percentage) then
        Some (error_response 400 "Invalid percentage value"
                (Some "Percentage must be between 1 and 100"))
      else if num_lt (to_number coerce total_approvers) 1%float then
        Some (error_response 400 "Invalid total_approvers"
                (Some "total_approvers must be at least 1"))
      else None
  | _, _ =>
      Some (error_response 400 "Invalid percentage rule"
              (Some "Percentage rule requires: percentage and total_approvers"))
  end.

End ConfigController.

(** * The other handlers *)

(** ** utils/currencyConverter.js: the cache *)

(** [clearCache]: [rateCache.clear()]. *)
Definition clearCache (cache : rate_cache) : rate_cache := ∅.

(** One element of [stats.entries]. *)
Record cache_stat := {
  cs_pair : string;
  cs_rate : float;
  cs_age : Z;
  cs_expired : bool
}.

(** One turn of the [forEach] of [getCacheStats], [now] being what
    [Date.now()] returns in it.  The age is a whole number of
    milliseconds, on which [Math.floor(age / 1000)] is the floor of the
    exact quotient for every pair of times that a [Date] can hold. *)
Definition cache_stat_of (now : Z) (key : string) (value : cache_entry) : cache_stat :=
  let age := now - timestamp value in
  {| cs_pair := key; cs_rate := rate value;
     cs_age := age / 1000; cs_expired := CACHE_DURATION <? age |}.

(** [getCacheStats]: the size of the cache and one entry for each key.
    [clock] is the reading of the clock when the key is visited.  A [Map]
    is visited in the order of insertion, which the finite map does not
    record: the order of the entries is that of the keys. *)
Definition getCacheStats (clock : string -> Z) (cache : rate_cache) : nat * list cache_stat :=
  (size cache,
   map (fun entry => cache_stat_of (clock entry.1) entry.1 entry.2) (map_to_list cache)).

(** ** controllers/approvalController.js: the listings *)

(** The subquery [blocking_approvals]:
    [SELECT COUNT( * ) FROM approvals a2 WHERE a2.expense_id = e.id
     AND a2.sequence < a.sequence AND a2.status != 'approved']. *)
Definition blocking_approvals (d : db) (a : approval) : nat :=
  length (List.filter (fun a2 => lower_sequence a a2 && negb (is_approved a2)) (approvals d)).

(** The rows of the query of [getPendingApprovals]: the pending slots of
    the caller on pending expenses of the caller's company, joined with
    the expense, its submitter and its company, [ORDER BY a.created_at]. *)
Definition pendingRows (d : db) (p : principal) : list (approval * expense * user * company) :=
  order_by (fun row : approval * expense * user * company => a_created_at row.1.1.1)
    (flat_map
       (fun a =>
          match find_expense d (a_expense_id a) with
          | Some e =>
              match find_user d (e_user_id e), find_company d (e_company_id e) with
              | Some u, Some c =>
                  if N.eqb (a_approver_id a) (p_id p) && is_pending a
                     && status_eqb (e_status e) pending
                     && N.eqb (e_company_id e) (p_company_id p)
                  then [(a, e, u, c)] else []
              | _, _ => []
              end
          | None => []
          end)
       (approvals d)).

(** [result.rows.filter(approval => approval.blocking_approvals === '0')] *)
Definition availableApprovals (d : db) (p : principal)
    : list (approval * expense * user * company) :=
  List.filter (fun row => Nat.eqb (blocking_approvals d row.1.1.1) 0) (pendingRows d p).

(** The rows of
    [SELECT u.name, a.status, a.approved_at, a.comments
     FROM approvals a JOIN users u ON a.approver_id = u.id
     WHERE a.expense_id = $1 AND a.sequence < $2 ORDER BY a.sequence ASC]. *)
Definition previousApprovers (d : db) (a : approval) : list (approval * user) :=
  order_by (fun row : approval * user => a_sequence row.1)
    (flat_map
       (fun a2 =>
          if lower_sequence a a2 then
            match find_user d (a_approver_id a2) with
            | Some u => [(a2, u)]
            | None => []
            end
          else [])
       (approvals d)).

Definition json_previous (row : approval * user) : json :=
  JObj [("name", JStr (u_name row.2));
        ("status", JStr (status_name (a_status row.1)));
        ("approved_at", opt_json JTime (a_approved_at row.1));
        ("comments", opt_json JStr (a_comments row.1))].

(** One element of [approvalsWithContext]. *)
Definition json_pending (d : db) (row : approval * expense * user * company) : json :=
  let '(a, e, u, c) := row in
  let rows := approvals_of d (e_id e) in
  JObj [("approval_id", JUuid (a_id a));
        ("sequence", JInt (a_sequence a));
        ("expense",
         JObj [("id", JUuid (e_id e));
               ("amount", JNum (e_amount e));
               ("original_amount", JNum (e_original_amount e));
               ("original_currency", JStr (e_original_currency e));
               ("company_currency", JStr (c_currency c));
               ("category", JStr (e_category e));
               ("description", opt_json JStr (e_description e));
               ("date", JTime (e_date e));
               ("receipt_url", opt_json JStr (e_receipt_url e));
               ("created_at", JTime (e_created_at e))]);
        ("submitter",
         JObj [("id", JUuid (u_id u)); ("name", JStr (u_name u));
               ("email", JStr (u_email u))]);
        ("company",
         JObj [("name", JStr (c_name c)); ("currency", JStr (c_currency c))]);
        ("approval_context",
         JObj [("total_approvals", JInt (Z.of_nat (length rows)));
               ("approved_count", JInt (Z.of_nat (length (List.filter is_approved rows))));
               ("current_sequence", JInt (a_sequence a));
               ("previous_approvers", JArr (map json_previous (previousApprovers d a)))]);
        ("created_at", JTime (a_created_at a))].

(** [GET /api/approvals/pending] *)
Definition getPendingApprovals (p : principal) (d : db) : response :=
  let approvalsWithContext := map (json_pending d) (availableApprovals d p) in
  {| http_status := 200;
     body := JObj [("pending_approvals", JArr approvalsWithContext);
                   ("count", JInt (Z.of_nat (length approvalsWithContext)))] |}.

(** [SELECT id FROM users WHERE manager_id = $1 AND id = $2] returns a
    row. *)
Definition teamCheck (d : db) (managerId userId : uuid) : bool :=
  existsb
    (fun u =>
       match u_manager_id u with Some m => N.eqb m managerId | None => false end
       && N.eqb (u_id u) userId)
    (users d).

(** [SELECT id FROM approvals WHERE expense_id = $1 AND approver_id = $2]
    returns a row. *)
Definition approverCheck (d : db) (expenseId userId : uuid) : bool :=
  existsb
    (fun a => N.eqb (a_expense_id a) expenseId && N.eqb (a_approver_id a) userId)
    (approvals d).

(** The rows of
    [SELECT ... FROM approvals a JOIN users u ON a.approver_id = u.id
     WHERE a.expense_id = $1 ORDER BY a.sequence ASC],
    the query of [getApprovalHistory] and of [getExpenseById]. *)
Definition approvalsResult (d : db) (expenseId : uuid) : list (approval * user) :=
  order_by (fun row : approval * user => a_sequence row.1)
    (flat_map
       (fun a =>
          if N.eqb (a_expense_id a) expenseId then
            match find_user d (a_approver_id a) with
            | Some u => [(a, u)]
            | None => []
            end
          else [])
       (approvals d)).

(** [Math.round], as [JSON.stringify] writes its result: the integer
    nearest to the exact value of the number, a tie going up; [null] for
    [NaN] and the infinities. *)
Definition Math_round (x : float) : json :=
  match Prim2SF x with
  | S754_zero _ => JInt 0
  | S754_finite negative m e =>
      let mantissa := if negative then - Zpos m else Zpos m in
      JInt (if 0 <=? e then mantissa * 2 ^ e
            else (2 * mantissa + 2 ^ (- e)) / (2 * 2 ^ (- e)))
  | _ => JNull
  end.

(** A query parameter and a path parameter of a listing. *)
Record read_request := {
  rd_user : principal;
  rd_id : uuid
}.

(** [hasAccess] in [getApprovalHistory]. *)
Definition history_access (d : db) (p : principal) (expenseId : uuid) (e : expense) : bool :=
  if String.eqb (p_role p) "admin" && N.eqb (e_company_id e) (p_company_id p) then true
  else if String.eqb (p_role p) "manager" then
    teamCheck d (p_id p) (e_user_id e) || approverCheck d expenseId (p_id p)
    || N.eqb (e_user_id e) (p_id p)
  else N.eqb (e_user_id e) (p_id p).

Definition json_history_row (row : approval * user) : json :=
  let '(a, u) := row in
  JObj [("id", JUuid (a_id a));
        ("sequence", JInt (a_sequence a));
        ("status", JStr (status_name (a_status a)));
        ("comments", opt_json JStr (a_comments a));
        ("approved_at", opt_json JTime (a_approved_at a));
        ("created_at", JTime (a_created_at a));
        ("approver_id", JUuid (u_id u));
        ("approver_name", JStr (u_name u));
        ("approver_email", JStr (u_email u));
        ("approver_role", JStr (u_role u))].

(** The number of rows of the history with a given status. *)
Definition count_status (s : status) (rows : list (approval * user)) : nat :=
  length (List.filter (fun row : approval * user => status_eqb (a_status row.1) s) rows).

(** [statistics] in the answer of [getApprovalHistory]. *)
Definition json_statistics (rows : list (approval * user)) : json :=
  let totalApprovals := length rows in
  let approvedCount := count_status approved rows in
  JObj [("total", JInt (Z.of_nat totalApprovals));
        ("approved", JInt (Z.of_nat approvedCount));
        ("rejected", JInt (Z.of_nat (count_status rejected rows)));
        ("pending", JInt (Z.of_nat (count_status pending rows)));
        ("completion_percentage",
         if (0 <? totalApprovals)%nat
         then Math_round (count_number approvedCount / count_number totalApprovals * 100)%float
         else JInt 0)].

(** [GET /api/approvals/expense/:expenseId] *)
Definition getApprovalHistory (req : read_request) (d : db) : response :=
  let expenseId := rd_id req in
  match find_expense d expenseId with
  | None => error_response 404 "Expense not found" None
  | Some expense =>
  match find_user d (e_user_id expense) with
  | None => error_response 404 "Expense not found" None
  | Some submitter =>
      if negb (history_access d (rd_user req) expenseId expense) then
        error_response 403 "Access denied"
          (Some "You do not have permission to view this approval history")
      else
        let rows := approvalsResult d expenseId in
        {| http_status := 200;
           body :=
             JObj [("expense",
                    JObj [("id", JUuid (e_id expense));
                          ("amount", JNum (e_amount expense));
                          ("category", JStr (e_category expense));
                          ("status", JStr (status_name (e_status expense)));
                          ("submitter_name", JStr (u_name submitter));
                          ("created_at", JTime (e_created_at expense))]);
                   ("approvals", JArr (map json_history_row rows));
                   ("statistics", json_statistics rows)] |}
  end
  end.

(** ** controllers/expenseController.js: getExpenseById *)

(** [hasAccess] in [getExpenseById]. *)
Definition expense_access (d : db) (p : principal) (e : expense) : bool :=
  if String.eqb (p_role p) "admin" && N.eqb (e_company_id e) (p_company_id p) then true
  else if String.eqb (p_role p) "manager" then
    teamCheck d (p_id p) (e_user_id e) || N.eqb (e_user_id e) (p_id p)
  else N.eqb (e_user_id e) (p_id p).

Definition json_chain_row (row : approval * user) : json :=
  let '(a, u) := row in
  JObj [("id", JUuid (a_id a));
        ("approver_id", JUuid (a_approver_id a));
        ("sequence", JInt (a_sequence a));
        ("status", JStr (status_name (a_status a)));
        ("comments", opt_json JStr (a_comments a));
        ("approved_at", opt_json JTime (a_approved_at a));
        ("created_at", JTime (a_created_at a));
        ("approver_name", JStr (u_name u));
        ("approver_email", JStr (u_email u));
        ("approver_role", JStr (u_role u))].

(** [approvalsResult.rows.find(a => a.status === 'pending')] *)
Definition current_approver (rows : list (approval * user)) : option (approval * user) :=
  find (fun row : approval * user => is_pending row.1) rows.

(** [GET /api/expenses/:id].  A field whose value is [undefined] is left
    out of the answer. *)
Definition getExpenseById (req : read_request) (d : db) : response :=
  let id := rd_id req in
  match find_expense d id with
  | None => error_response 404 "Expense not found" None
  | Some expense =>
  match find_user d (e_user_id expense), find_company d (e_company_id expense) with
  | Some submitter, Some c =>
      if negb (expense_access d (rd_user req) expense) then
        error_response 403 "Access denied"
          (Some "You do not have permission to view this expense")
      else
        let rows := approvalsResult d id in
        {| http_status := 200;
           body :=
             JObj ([("expense",
                     JObj [("id", JUuid (e_id expense));
                           ("amount", JNum (e_amount expense));
                           ("original_amount", JNum (e_original_amount expense));
                           ("original_currency", JStr (e_original_currency expense));
                           ("company_currency", JStr (c_currency c));
                           ("category", JStr (e_category expense));
                           ("description", opt_json JStr (e_description expense));
                           ("date", JTime (e_date expense));
                           ("status", JStr (status_name (e_status expense)));
                           ("receipt_url", opt_json JStr (e_receipt_url expense));
                           ("created_at", JTime (e_created_at expense));
                           ("updated_at", JTime (e_updated_at expense));
                           ("submitter",
                            JObj [("id", JUuid (e_user_id expense));
                                  ("name", JStr (u_name submitter));
                                  ("email", JStr (u_email submitter))]);
                           ("company",
                            JObj [("name", JStr (c_name c));
                                  ("currency", JStr (c_currency c))])]);
                    ("approvals", JArr (map json_chain_row rows))]
                   ++ match current_approver rows with
                      | Some row => [("current_approver", json_chain_row row)]
                      | None => []
                      end)%list |}
  | _, _ => error_response 404 "Expense not found" None
  end
  end.

(** ** controllers/configController.js: approvers and rules *)

(** [POST /api/config/approvers]: the caller and the fields [userId],
    [roleName] and [sequence] of the body; the sequence is absent, or what
    [parseInt] makes of it, [None] standing for [NaN]. *)
Record approver_request := {
  ar_user : principal;
  ar_userId : option uuid;
  ar_roleName : option string;
  ar_sequence : option (option Z)
}.

(** [DELETE /api/config/approvers/:id] *)
Record remove_request := {
  rm_user : principal;
  rm_id : uuid
}.

(** [POST /api/config/rules]: the caller and the fields [ruleType] and
    [ruleConfig] of the body, [None] when the body has no such field. *)
Record rule_request := {
  rr_user : principal;
  rr_ruleType : option json;
  rr_ruleConfig : option json
}.

(** The answer of the catch-all of a handler. *)
Definition failure (error message : string) : response :=
  error_response 500 error (Some message).

(** [SELECT id FROM approvers WHERE company_id = $1 AND user_id = $2
     AND role_name = $3 AND is_active = true] returns a row. *)
Definition existingApprover (d : db) (companyId userId : uuid) (roleName : string) : bool :=
  existsb
    (fun a => N.eqb (ap_company_id a) companyId && N.eqb (ap_user_id a) userId
              && String.eqb (ap_role_name a) roleName && ap_is_active a)
    (approvers d).

(** [SELECT id, user_id, role_name FROM approvers WHERE company_id = $1
     AND sequence = $2 AND is_active = true] returns a row. *)
Definition sequenceConflict (d : db) (companyId : uuid) (sequenceNum : Z) : bool :=
  existsb
    (fun a => N.eqb (ap_company_id a) companyId && (ap_sequence a =? sequenceNum)
              && ap_is_active a)
    (approvers d).

(** The constraint [UNIQUE(company_id, role_name, sequence)] of the table
    [approvers] refuses a new row: some row, active or not, has the three
    values. *)
Definition approvers_unique_violated (d : db) (companyId : uuid) (roleName : string)
    (sequenceNum : Z) : bool :=
  existsb
    (fun a => N.eqb (ap_company_id a) companyId && String.eqb (ap_role_name a) roleName
              && (ap_sequence a =? sequenceNum))
    (approvers d).

(** [UPDATE approvers SET is_active = false WHERE id = $1] on one row. *)
Definition deactivate (id : uuid) (a : approver) : approver :=
  if N.eqb (ap_id a) id then
    {| ap_id := ap_id a; ap_company_id := ap_company_id a; ap_user_id := ap_user_id a;
       ap_role_name := ap_role_name a; ap_sequence := ap_sequence a;
       ap_is_active := false |}
  else a.

(** [SELECT COUNT( * ) FROM approvals WHERE approver_id = $1
     AND status = 'pending'] *)
Definition pendingCount (d : db) (userId : uuid) : nat :=
  length (List.filter (fun a => N.eqb (a_approver_id a) userId && is_pending a) (approvals d)).

(** [DELETE /api/config/approvers/:id]: a soft delete. *)
Definition removeApprover (req : remove_request) (d : db) : response * db :=
  let id := rm_id req in
  let companyId := p_company_id (rm_user req) in
  match approverResult d id companyId with
  | None =>
      (error_response 404 "Approver not found"
         (Some "Approver does not exist or does not belong to your company"), d)
  | Some (approver, approverUser) =>
      let count := pendingCount d (ap_user_id approver) in
      if (0 <? count)%nat then
        (error_response 400 "Cannot remove approver"
           (Some ("Approver has " +:+ pretty (Z.of_nat count)
                  +:+ " pending approval(s). Please reassign or complete them first.")), d)
      else
        ({| http_status := 200;
            body := JObj [("message", JStr "Approver removed successfully");
                          ("approver",
                           JObj [("id", JUuid (ap_id approver));
                                 ("user_name", JStr (u_name approverUser));
                                 ("user_email", JStr (u_email approverUser));
                                 ("role_name", JStr (ap_role_name approver));
                                 ("sequence", JInt (ap_sequence approver))])] |},
         with_approvers d (map (deactivate id) (approvers d)))
  end.

(** The rule types that [setApprovalRule] accepts, and those that the
    [CHECK] constraint of [approval_rules.rule_type] accepts. *)
Definition validRuleTypes : list string :=
  ["percentage"; "specific_approver"; "hybrid"; "amount_threshold"; "category_based";
   "role_based"].

Definition rule_type_check (rule_type : string) : bool :=
  existsb (String.eqb rule_type) ["amount_threshold"; "category_based"; "role_based"].

(** [UPDATE approval_rules SET is_active = false WHERE id = $1] on one
    row. *)
Definition deactivate_rule (id : uuid) (r : approval_rule) : approval_rule :=
  if N.eqb (r_id r) id then
    {| r_id := r_id r; r_company_id := r_company_id r; r_rule_type := r_rule_type r;
       r_rule_config := r_rule_config r; r_is_active := false |}
  else r.

Definition with_rules (d : db) (rows : list approval_rule) (next : uuid) : db :=
  {| companies := companies d; users := users d; expenses := expenses d;
     approvers := approvers d; approvals := approvals d;
     approval_rules := rows; next_uuid := next |}.

(** The rows of
    [SELECT id FROM approval_rules
     WHERE company_id = $1 AND rule_type = $2 AND is_active = true]. *)
Definition existingRule (d : db) (companyId : uuid) (ruleType : string) : list approval_rule :=
  List.filter
    (fun r => N.eqb (r_company_id r) companyId && String.eqb (r_rule_type r) ruleType
              && r_is_active r)
    (approval_rules d).

(** Whether [SELECT id FROM users WHERE id = $1 AND company_id = $2]
    returns a row. *)
Definition approverCheck_user (d : db) (id companyId : uuid) : bool :=
  existsb (fun u => N.eqb (u_id u) id && N.eqb (u_company_id u) companyId) (users d).

(** The two handlers that insert configuration rows are modelled with the
    constraint of the table that their own checks do not cover: the
    [UNIQUE] constraint of [approvers], which counts the rows that are not
    active, and the [CHECK] constraint of [approval_rules.rule_type].
    Neither handler runs in a transaction: what was written before a
    statement fails stays written. *)
Section ConfigurationRows.

Variable coerce : json -> float.
(** The message of the error that the database raises for a row that
    violates the named constraint, for a parameter that is not the text
    of a UUID, and for a number that a column of type [INTEGER] does not
    hold. *)
Variable violation : string -> string.
Variable invalid_uuid : json -> string.
Variable out_of_range : Z -> string.

(** [POST /api/config/approvers].  The role name is compared with the
    column in the first query that uses it, which raises for a text that
    no column holds; the sequence is compared in the next, which raises
    for a number above [integer_max]; the [INSERT] stores the role name
    in a column of type [VARCHAR(50)]. *)
Definition addApprover (now : Z) (req : approver_request) (d : db) : response * db :=
  let companyId := p_company_id (ar_user req) in
  match ar_userId req, or_null (ar_roleName req), ar_sequence req with
  | Some userId, Some roleName, Some parsed =>
  match parsed with
  | None =>
      (error_response 400 "Invalid sequence"
         (Some "Sequence must be a positive integer starting from 1"), d)
  | Some sequenceNum =>
  if sequenceNum <? 1 then
    (error_response 400 "Invalid sequence"
       (Some "Sequence must be a positive integer starting from 1"), d)
  else
  match find (fun u => N.eqb (u_id u) userId && N.eqb (u_company_id u) companyId)
             (users d) with
  | None =>
      (error_response 404 "User not found"
         (Some "User does not exist or does not belong to your company"), d)
  | Some user =>
  if negb (u_is_active user) then
    (error_response 400 "User is inactive" (Some "Cannot add inactive user as approver"), d)
  else if negb (String.eqb (u_role user) "manager")
          && negb (String.eqb (u_role user) "admin") then
    (error_response 400 "Invalid user role"
       (Some "Only managers and admins can be approvers"), d)
  else if has_nul roleName then
    (failure "Failed to add approver" invalid_byte_sequence, d)
  else if existingApprover d companyId userId roleName then
    (error_response 400 "Approver already exists"
       (Some ("User is already an approver with role " +:+ dquote +:+ roleName +:+ dquote)),
     d)
  else if integer_max <? sequenceNum then
    (failure "Failed to add approver" (out_of_range sequenceNum), d)
  else if sequenceConflict d companyId sequenceNum then
    (error_response 400 "Sequence conflict"
       (Some ("Sequence " +:+ pretty sequenceNum
              +:+ " is already assigned. Please use a different sequence or update existing approver.")),
     d)
  else
  match varchar 50 roleName with
  | None => (failure "Failed to add approver" (value_too_long 50), d)
  | Some storedName =>
  if approvers_unique_violated d companyId storedName sequenceNum then
    (failure "Failed to add approver" (violation approvers_key_name), d)
  else
    let approver :=
      {| ap_id := next_uuid d; ap_company_id := companyId; ap_user_id := userId;
         ap_role_name := storedName; ap_sequence := sequenceNum; ap_is_active := true |} in
    ({| http_status := 201;
        body := JObj [("message", JStr "Approver added successfully");
                      ("approver",
                       JObj [("id", JUuid (ap_id approver));
                             ("user_id", JUuid (ap_user_id approver));
                             ("user_name", JStr (u_name user));
                             ("user_email", JStr (u_email user));
                             ("role_name", JStr (ap_role_name approver));
                             ("sequence", JInt (ap_sequence approver));
                             ("is_active", JBool (ap_is_active approver));
                             ("created_at", JTime now)])] |},
     {| companies := companies d; users := users d; expenses := expenses d;
        approvers := (approvers d ++ [approver])%list; approvals := approvals d;
        approval_rules := approval_rules d; next_uuid := N.succ (next_uuid d) |})
  end
  end
  end
  | _, _, _ =>
      (error_response 400 "Missing required fields"
         (Some "userId, roleName, and sequence are required"), d)
  end.

(** The check of a rule of type [specific_approver] or [hybrid] on the
    user that it names: [None] when the user is found in the company. *)
Definition check_rule_approver (d : db) (companyId : uuid) (approver_id : json)
    (error details : string) : option response :=
  match approver_id with
  | JUuid id =>
      if approverCheck_user d id companyId then None
      else Some (error_response 404 error (Some details))
  | other => Some (failure "Failed to set approval rule" (invalid_uuid other))
  end.

(** The checks of [setApprovalRule] on the configuration, by rule type;
    [None] when the configuration passes them. *)
Definition check_rule_config (d : db) (companyId : uuid) (ruleType : string)
    (ruleConfig : json) : option response :=
  if String.eqb ruleType "percentage" then check_percentage_rule coerce ruleConfig
  else if String.eqb ruleType "specific_approver" then
    match field "approver_id" ruleConfig with
    | Some approver_id =>
        if truthy (Some approver_id) then
          check_rule_approver d companyId approver_id "Approver not found"
            "Specified approver does not exist in your company"
        else
          Some (error_response 400 "Invalid specific_approver rule"
                  (Some "specific_approver rule requires: approver_id"))
    | None =>
        Some (error_response 400 "Invalid specific_approver rule"
                (Some "specific_approver rule requires: approver_id"))
    end
  else if String.eqb ruleType "hybrid" then
    if truthy (field "percentage" ruleConfig) && truthy (field "total_approvers" ruleConfig)
       && truthy (field "special_approver_id" ruleConfig) then
      check_rule_approver d companyId (default JNull (field "special_approver_id" ruleConfig))
        "Special approver not found"
        "Specified special approver does not exist in your company"
    else
      Some (error_response 400 "Invalid hybrid rule"
              (Some "Hybrid rule requires: percentage, total_approvers, and special_approver_id"))
  else None.

(** [POST /api/config/rules] *)
Definition setApprovalRule (now : Z) (req : rule_request) (d : db) : response * db :=
  let companyId := p_company_id (rr_user req) in
  if negb (truthy (rr_ruleType req)) || negb (truthy (rr_ruleConfig req)) then
    (error_response 400 "Missing required fields"
       (Some "ruleType and ruleConfig are required"), d)
  else
    match rr_ruleType req, rr_ruleConfig req with
    | Some (JStr ruleType), Some ruleConfig =>
        if negb (existsb (String.eqb ruleType) validRuleTypes) then
          (error_response 400 "Invalid rule type"
             (Some ("Rule type must be one of: " +:+ String.concat ", " validRuleTypes)), d)
        else
          match ruleConfig with
          | JObj _ =>
              match check_rule_config d companyId ruleType ruleConfig with
              | Some refusal => (refusal, d)
              | None =>
                  let d1 :=
                    match existingRule d companyId ruleType with
                    | old :: _ =>
                        with_rules d (map (deactivate_rule (r_id old)) (approval_rules d))
                          (next_uuid d)
                    | [] => d
                    end in
                  if negb (rule_type_check ruleType) then
                    (failure "Failed to set approval rule"
                       (violation "approval_rules_rule_type_check"), d1)
                  else
                    let rule :=
                      {| r_id := next_uuid d1; r_company_id := companyId;
                         r_rule_type := ruleType; r_rule_config := ruleConfig;
                         r_is_active := true |} in
                    ({| http_status := 201;
                        body := JObj [("message", JStr "Approval rule created successfully");
                                      ("rule",
                                       JObj [("id", JUuid (r_id rule));
                                             ("rule_type", JStr (r_rule_type rule));
                                             ("rule_config", r_rule_config rule);
                                             ("is_active", JBool (r_is_active rule));
                                             ("created_at", JTime now)])] |},
                     with_rules d1 (approval_rules d1 ++ [rule])%list (N.succ (next_uuid d1)))
              end
          | _ =>
              (error_response 400 "Invalid rule configuration"
                 (Some "ruleConfig must be a JSON object"), d)
          end
    | _, _ =>
        (error_response 400 "Invalid rule type"
           (Some ("Rule type must be one of: " +:+ String.concat ", " validRuleTypes)), d)
    end.

End ConfigurationRows.

(** ** A reference runtime

    Executable instances of the runtime parameters, for running the
    handlers on concrete requests. *)
Module Runtime.

(** [parseFloat(x.toFixed(2))].  [toFixed] rounds the exact value of [x]
    to the nearest multiple of 1/100, a tie going to the larger
    magnitude, and [parseFloat] reads the resulting decimal back.  When
    the rounded count of hundredths does not fit 53 bits, [x] is its own
    nearest number. *)
Definition toFixed2 (x : float) : float :=
  match Prim2SF x with
  | S754_finite negative m e =>
      let n :=
        if 0 <=? e then Zpos m * 2 ^ e * 100
        else (2 * Zpos m * 100 + 2 ^ (- e)) / (2 * 2 ^ (- e)) in
      if n <? 2 ^ 53 then
        let r := (float_of_Z n / 100)%float in
        if negative then (- r)%float else r
      else x
  | S754_zero _ => 0%float
  | _ => x
  end.

Definition digit (c : ascii) : option Z :=
  let n := Z.of_nat (nat_of_ascii c) in
  if (48 <=? n) && (n <=? 57) then Some (n - 48) else None.

(** The digits at the head of [s] as a number, how many there are, and
    the rest of [s]. *)
Fixpoint digits (s : string) (acc : Z) (count : nat) : Z * nat * string :=
  match s with
  | String c rest =>
      match digit c with
      | Some v => digits rest (10 * acc + v) (S count)
      | None => (acc, count, s)
      end
  | EmptyString => (acc, count, s)
  end.

(** [parseFloat] on a plain decimal literal: an optional sign, digits,
    and an optional fraction; [NaN] when no digit is found. *)
Definition parseFloat (s : string) : float :=
  let '(negative, s) :=
    match s with
    | String "-" rest => (true, rest)
    | String "+" rest => (false, rest)
    | _ => (false, s)
    end in
  let '(whole, n, rest) := digits s 0 O in
  let '(all, k) :=
    match rest with
    | String "." fraction =>
        let '(all, k, _) := digits fraction whole O in (all, k)
    | _ => (whole, O)
    end in
  if (n + k =? 0)%nat then nan
  else
    let r := (float_of_Z all / float_of_Z (10 ^ Z.of_nat k))%float in
    if negative then (- r)%float else r.

(** Days from 1970-01-01 to a date of the proleptic Gregorian calendar. *)
Definition days_from_civil (y m d : Z) : Z :=
  let y := if m <=? 2 then y - 1 else y in
  let era := y / 400 in
  let yoe := y - era * 400 in
  let doy := (153 * (if 2 <? m then m - 3 else m + 9) + 2) / 5 + d - 1 in
  let doe := yoe * 365 + yoe / 4 - yoe / 100 + doy in
  era * 146097 + doe - 719468.

(** [new Date(text).getTime()] for a date written [YYYY-MM-DD]. *)
Definition parseDate (s : string) : option Z :=
  let '(y, ny, rest) := digits s 0 O in
  match rest with
  | String "-" rest =>
      let '(m, nm, rest) := digits rest 0 O in
      match rest with
      | String "-" rest =>
          let '(d, nd, rest) := digits rest 0 O in
          if (ny =? 4)%nat && (nm =? 2)%nat && (nd =? 2)%nat && String.eqb rest ""
             && (1 <=? m) && (m <=? 12) && (1 <=? d) && (d <=? 31)
          then Some (days_from_civil y m d * 86400000) else None
      | _ => None
      end
  | _ => None
  end.

(** A column of type [DECIMAL(10,2)]: the value of the number rounded to
    the nearest hundredth, a tie going to the larger magnitude, and
    refused from 10^8 on.  The driver sends the shortest decimal that
    reads back as the number and the column rounds that decimal; the two
    agree unless the number is within a rounding error of the middle
    between two hundredths. *)
Definition decimal_10_2 (x : float) : option float :=
  match Prim2SF x with
  | S754_finite negative m e =>
      let n :=
        if 0 <=? e then Zpos m * 2 ^ e * 100
        else (2 * Zpos m * 100 + 2 ^ (- e)) / (2 * 2 ^ (- e)) in
      if n <? 10 ^ 10 then
        let r := (float_of_Z n / 100)%float in
        Some (if negative then (- r)%float else r)
      else None
  | S754_zero _ => Some 0%float
  | S754_nan => Some nan
  | S754_infinity _ => None
  end.

(** A column of type [DATE], for a process that runs in UTC: the day of
    the time value, as the time value of its midnight.  The type starts
    on 24 November 4714 BC. *)
Definition date_column (t : Z) : option Z :=
  let day := t / 86400000 in
  if days_from_civil (-4713) 11 24 <=? day then Some (day * 86400000) else None.

Definition raises {A : Type} (o : option A) : bool :=
  match o with None => true | Some _ => false end.

(** The message for a row of [expenses] that the database refuses. *)
Definition expense_error (values : expense) : string :=
  if has_nul (e_original_currency values) || has_nul (e_category values)
     || unstorable (e_description values) || unstorable (e_receipt_url values)
  then invalid_byte_sequence
  else if raises (decimal_10_2 (e_amount values))
          || raises (decimal_10_2 (e_original_amount values))
  then "numeric field overflow"
  else if raises (varchar 3 (e_original_currency values))
  then "value too long for type character varying(3)"
  else if raises (varchar 100 (e_category values))
  then "value too long for type character varying(100)"
  else if raises (date_column (e_date values))
  then "date out of range"
  else if raises (nullable (varchar 500) (e_receipt_url values))
  then "value too long for type character varying(500)"
  else "insert or update on table " +:+ dquote +:+ "expenses" +:+ dquote
       +:+ " violates foreign key constraint " +:+ dquote +:+ "expenses_user_id_fkey"
       +:+ dquote.

(** [ToNumber] on text, arrays and objects, for values that do not
    denote a number. *)
Definition coerce (v : json) : float :=
  match v with
  | JStr s => if blank s then 0%float else parseFloat s
  | _ => nan
  end.

End Runtime.

(** ** Sample data

    The company, users and approver roster of the end-to-end scenarios. *)
Module Scenario.

Definition techCorp : company :=
  {| c_id := 100; c_name := "Tech Corp"; c_currency := "USD" |}.
Definition globalSolutions : company :=
  {| c_id := 200; c_name := "Global Solutions Ltd"; c_currency := "CAD" |}.

Definition member (id company : uuid) (name role : string) (manager : option uuid) : user :=
  {| u_id := id; u_company_id := company; u_name := name;
     u_email := name +:+ "@example.com"; u_role := role;
     u_manager_id := manager; u_is_active := true |}.

Definition admin := member 1 100 "admin" "admin" None.
Definition M := member 2 100 "manager" "manager" None.
Definition Finance := member 3 100 "finance" "manager" None.
Definition CEO := member 4 100 "ceo" "admin" None.
Definition E := member 5 100 "employee" "employee" (Some 2%N).
Definition Director := member 6 100 "director" "manager" None.
Definition Solo := member 7 200 "solo" "employee" None.
Definition Root := member 8 200 "root" "admin" None.

Definition seat (id user : uuid) (role_name : string) (sequence : Z) : approver :=
  {| ap_id := id; ap_company_id := 100; ap_user_id := user;
     ap_role_name := role_name; ap_sequence := sequence; ap_is_active := true |}.

(** The database before any expense: the given roster and rules. *)
Definition start (roster : list approver) (rules : list approval_rule) : db :=
  {| companies := [techCorp; globalSolutions];
     users := [admin; M; Finance; CEO; E; Director; Solo; Root];
     expenses := []; approvers := roster; approvals := [];
     approval_rules := rules; next_uuid := 1000 |}.

(** A roster in which the employee's manager has a seat of his own. *)
Definition managerSeated : list approver :=
  [seat 11 3 "Finance" 2; seat 10 2 "Manager" 1].

Definition threeSlots : list approver :=
  [seat 11 3 "Finance" 1; seat 12 4 "CEO" 2].
Definition fourSlots : list approver :=
  [seat 11 3 "Finance" 1; seat 12 4 "CEO" 2; seat 13 6 "Director" 3].

Definition as_principal (u : user) : principal :=
  {| p_id := u_id u; p_company_id := u_company_id u; p_role := u_role u |}.

(** A submission of 100.00 in the given currency, dated 2025-10-04. *)
Definition travel (u : user) (currency : string) : submit_request :=
  {| sr_user := as_principal u; sr_amount := Some "100.00";
     sr_currency := Some currency; sr_category := Some "Travel";
     sr_description := None; sr_date := Some "2025-10-04"; sr_file := None |}.

Definition decision (u : user) (id : uuid) (comments : option string) : decide_request :=
  {| dr_user := as_principal u; dr_id := id; dr_comments := comments |}.

(** The no-break space U+00A0 and the character U+0000, as texts. *)
Definition nbsp : string := String "194" (String "160" "").
Definition nul : string := String "000" "".

Definition timeout : axios_error :=
  {| err_response := None; err_code := Some "ECONNABORTED" |}.

(** Two hours after the epoch, with the exchange-rate service timing out. *)
Definition offline : world :=
  {| now_lookup := 7200000; now_store := 7200001;
     oracle := fun _ => AxiosReject timeout |}.

(** One minute after the epoch, with the service quoting EUR to USD at
    1.10. *)
Definition online : world :=
  {| now_lookup := 60000; now_store := 60001;
     oracle := fun _ => AxiosResponse (Some (Some {[ "USD" := (11 / 10)%float ]})) |}.

(** Half an hour after the epoch, with the service timing out. *)
Definition halfAnHourLater : world :=
  {| now_lookup := 1800000; now_store := 1800001;
     oracle := fun _ => AxiosReject timeout |}.

(** A rate for EUR to USD fetched at the epoch. *)
Definition staleCache : rate_cache :=
  {[ "EUR_USD" := {| rate := 1.25; timestamp := 0 |} ]}.

Definition submit :=
  submitExpense Runtime.toFixed2 Runtime.parseFloat Runtime.parseDate
    Runtime.decimal_10_2 Runtime.date_column Runtime.expense_error.
Definition approve := approveExpense Runtime.coerce.
Definition reject := rejectExpense.

(** The database after the employee's submission in the company
    currency. *)
Definition submitted (roster : list approver) (rules : list approval_rule) : db :=
  (submit offline 1 (travel E "USD") (start roster rules) ∅).1.1.2.

(** Alice, Bob and Carol at sequences 1, 2 and 3. *)
Definition Alice := member 21 100 "alice" "manager" None.
Definition Bob := member 22 100 "bob" "manager" None.
Definition Carol := member 23 100 "carol" "admin" None.

Definition abc : db :=
  {| companies := [techCorp]; users := [admin; Alice; Bob; Carol];
     expenses := []; approvers := [seat 31 21 "A" 1; seat 32 22 "B" 2; seat 33 23 "C" 3];
     approvals := []; approval_rules := []; next_uuid := 1000 |}.

(** The configuration that the approval engine documents for a rule of
    type [percentage].  The [CHECK] constraint of [approval_rules] admits
    no row of this type: the rule shows the loop of [approveExpense] on a
    table that the handlers do not produce. *)
Definition halfRule : approval_rule :=
  {| r_id := 53; r_company_id := 100; r_rule_type := "percentage";
     r_rule_config := JObj [("required_percentage", JNum 50)];
     r_is_active := true |}.

(** The slot and the expense with a given identifier. *)
Definition slot (d : db) (id : uuid) : approval :=
  default (new_approval 0 0 0 0 0) (find_approval d id).
Definition expenseRow (d : db) (id : uuid) : expense :=
  default {| e_id := 0; e_user_id := 0; e_company_id := 0; e_amount := 0;
             e_original_amount := 0; e_original_currency := ""; e_category := "";
             e_description := None; e_date := 0; e_status := draft;
             e_receipt_url := None; e_created_at := 0; e_updated_at := 0 |}
          (find_expense d id).

(** The three-slot chain (manager, Finance, CEO): as submitted, after the
    manager has approved, and after Finance has then rejected. *)
Definition pendingChain : db := submitted threeSlots [].
Definition afterManager : db :=
  (approve 9 (decision M 1001 None) pendingChain).2.
Definition afterRejection : db :=
  (reject 10 (decision Finance 1002 (Some "missing receipt")) afterManager).2.

(** The approvals of the slots 1001, 1002, ... in turn, each by its
    approver. *)
Fixpoint approvals_by (approvers : list user) (id : uuid) (now : Z) (d : db) : db :=
  match approvers with
  | [] => d
  | u :: rest => approvals_by rest (N.succ id) (now + 1) (approve now (decision u id None) d).2
  end.

(** The four-slot chain under [{required_percentage: 50}], after the
    first two approvals. *)
Definition halfApproved : db :=
  approvals_by [M; Finance] 1001 10 (submitted fourSlots [halfRule]).

End Scenario.

(** ** More sample data

    The requests and the states on which the properties are run. *)
Module Sample.

(** The first conversion of 250.50 EUR to USD, with the service
    answering. *)
Definition fetched :=
  convertCurrency Runtime.toFixed2 Scenario.online ∅ 250.5%float "EUR" "USD".

(** A conversion of GBP to USD while the service times out. *)
Definition timedOut :=
  convertCurrency Runtime.toFixed2 Scenario.offline ∅ 250.5%float "GBP" "USD".

(** The chain of the manager and one configured approver, as submitted
    and after the manager's approval. *)
Definition twoSlots : db := Scenario.submitted [Scenario.seat 11 1 "Admin" 1] [].
Definition afterFirst : db :=
  (Scenario.approve 10 (Scenario.decision Scenario.M 1001 (Some "ok")) twoSlots).2.

(** The employee's submission of 100.00 in the company's currency, code
    in lower case. *)
Definition lowerCase := Scenario.travel Scenario.E "usd".

(** The submission behind [Scenario.submitted]. *)
Definition submission :=
  Scenario.submit Scenario.offline 1 (Scenario.travel Scenario.E "USD")
    (Scenario.start Scenario.threeSlots []) ∅.

(** A submission of the given amount, dated 2025-10-04. *)
Definition spends (u : user) (currency amount : string) : submit_request :=
  {| sr_user := Scenario.as_principal u; sr_amount := Some amount;
     sr_currency := Some currency; sr_category := Some "Travel";
     sr_description := None; sr_date := Some "2025-10-04"; sr_file := None |}.

Definition reads (u : user) (id : uuid) : read_request :=
  {| rd_user := Scenario.as_principal u; rd_id := id |}.

(** Requests of the administrator on the roster of Alice, Bob and
    Carol. *)
Definition duplicate_key (constraint : string) : string :=
  "duplicate key value violates unique constraint " +:+ dquote +:+ constraint +:+ dquote.

Definition adds (user : uuid) (roleName : string) (sequence : Z) : approver_request :=
  {| ar_user := Scenario.as_principal Scenario.admin; ar_userId := Some user;
     ar_roleName := Some roleName; ar_sequence := Some (Some sequence) |}.

Definition removes (id : uuid) : remove_request :=
  {| rm_user := Scenario.as_principal Scenario.admin; rm_id := id |}.

Definition moves (id : uuid) (sequence : Z) : sequence_request :=
  {| sq_user := Scenario.as_principal Scenario.admin; sq_id := id;
     sq_newSequence := Some (Some sequence) |}.

Definition out_of_range (z : Z) : string :=
  "value " +:+ dquote +:+ pretty z +:+ dquote +:+ " is out of range for type integer".

Definition add := addApprover duplicate_key out_of_range.
Definition move := updateApproverSequence duplicate_key out_of_range.

(** The company before it has a roster, and the roster that three
    requests give it, each approver with the role name Approver. *)
Definition noRoster : db :=
  {| companies := [Scenario.techCorp];
     users := [Scenario.admin; Scenario.Alice; Scenario.Bob; Scenario.Carol];
     expenses := []; approvers := []; approvals := []; approval_rules := [];
     next_uuid := 31 |}.

Definition sameRole : db :=
  (add 3 (adds 23 "Approver" 3)
     (add 2 (adds 22 "Approver" 2)
        (add 1 (adds 21 "Approver" 1) noRoster).2).2).2.

(** The first rule of the sample data of the schema, and requests for a
    rule of a given type. *)
Definition thresholdRule : approval_rule :=
  {| r_id := 60; r_company_id := 100; r_rule_type := "amount_threshold";
     r_rule_config := JObj [("min_amount", JNum 100); ("max_amount", JNum 1000);
                            ("required_approvals", JNum 1)];
     r_is_active := true |}.

Definition ruled : db := Scenario.start Scenario.threeSlots [thresholdRule].

Definition asks (ruleType : string) (ruleConfig : json) : rule_request :=
  {| rr_user := Scenario.as_principal Scenario.admin;
     rr_ruleType := Some (JStr ruleType); rr_ruleConfig := Some ruleConfig |}.

Definition check_violation (constraint : string) : string :=
  "new row for relation " +:+ dquote +:+ "approval_rules" +:+ dquote
  +:+ " violates check constraint " +:+ dquote +:+ constraint +:+ dquote.

Definition not_a_uuid (v : json) : string := "invalid input syntax for type uuid".

Definition setRule := setApprovalRule Runtime.coerce check_violation not_a_uuid.

(** The configurations of the rules of the fourth scenario and of its
    kin: 75% of four approvers; the manager as specific approver; 50% of
    four approvers with the manager as special approver. *)
Definition percentageConfig : json :=
  JObj [("percentage", JNum 75); ("total_approvers", JNum 4)].
Definition specificConfig : json := JObj [("approver_id", JUuid 2)].
Definition hybridConfig : json :=
  JObj [("percentage", JNum 50); ("total_approvers", JNum 4);
        ("special_approver_id", JUuid 2)].

(** The administrator posts a rule to the company that has the given
    roster and no rule yet. *)
Definition configured (roster : list approver) (ruleType : string) (ruleConfig : json)
    : response * db :=
  setRule 1 (asks ruleType ruleConfig) (Scenario.start roster []).

(** After that request, the employee submits 100.00 USD and the given
    approvers approve the slots 1001, 1002, ... in turn. *)
Definition chainUnder (roster : list approver) (ruleType : string) (ruleConfig : json)
    (approvers : list user) : db :=
  Scenario.approvals_by approvers 1001 10
    (Scenario.submit Scenario.offline 2 (Scenario.travel Scenario.E "USD")
       (configured roster ruleType ruleConfig).2 ∅).1.1.2.

End Sample.

(** * Vocabulary of the properties *)

(** Rows in ascending order of a key. *)
Definition ascending {A : Type} (key : A -> Z) (x y : A) : Prop := key x <= key y.

Section SubmissionVocabulary.

Variable toFixed2 : float -> float.
Variable parseFloat : string -> float.
Variable parseDate : string -> option Z.

(** The conversion that a submission asks for, once its fields have
    passed validation and the company has been read. *)
Definition requested_conversion (w : world) (req : submit_request)
    (c : company) (cache : rate_cache) :=
  convertCurrency toFixed2 w cache (parseFloat (default "" (sr_amount req)))
    (toUpperCase (default "" (sr_currency req))) (toUpperCase (c_currency c)).

(** A submission that got as far as the conversion. *)
Definition converting (req : submit_request) (d : db) (c : company) : Prop :=
  (missing (sr_amount req) || missing (sr_currency req)
   || missing (sr_category req) || missing (sr_date req)) = false
  /\ (is_nan (parseFloat (default "" (sr_amount req)))
      || PrimFloat.leb (parseFloat (default "" (sr_amount req))) 0) = false
  /\ is_Some (parseDate (default "" (sr_date req)))
  /\ find_company d (p_company_id (sr_user req)) = Some c.

End SubmissionVocabulary.

(** The answers of a decision that is refused. *)
Definition already_decided (slot : approval) : response :=
  error_response 400 "Invalid approval status"
    (Some ("This approval is already " +:+ status_name (a_status slot))).

Definition already_terminated (expense : expense) : response :=
  error_response 400 "Invalid expense status"
    (Some ("This expense is already " +:+ status_name (e_status expense))).

Definition not_assigned : response :=
  error_response 403 "Access denied"
    (Some "You are not the assigned approver for this expense").

Definition comments_required : response :=
  error_response 400 "Comments are required when rejecting an expense" None.

Definition out_of_order (sequence : Z) : response :=
  error_response 400 "Sequential approval violation"
    (Some ("Approval sequence " +:+ pretty sequence +:+ " must be approved first")).

(** A row of [approvers] that is active, belongs to the company, holds
    the sequence and is not the row [id]. *)
Definition occupies (companyId : uuid) (sequence : Z) (id : uuid) (r : approver) : Prop :=
  ap_company_id r = companyId /\ ap_sequence r = sequence
  /\ ap_id r <> id /\ ap_is_active r = true.

(** No row of the company other than the two named holds the role name
    at the sequence, whether it is active or not. *)
Definition seat_free (d : db) (companyId : uuid) (a b : uuid) (role : string)
    (sequence : Z) : Prop :=
  forall r, In r (approvers d) -> ap_id r <> a -> ap_id r <> b ->
            ap_company_id r = companyId -> ap_role_name r = role ->
            ap_sequence r <> sequence.

(** What the exchange of sequences makes of a row of [approvers]: the row
    [id] takes [sequence], the row [occupant] takes [vacated], every other
    row stays. *)
Definition exchanged (id occupant : uuid) (sequence vacated : Z)
    (before after : approver) : Prop :=
  (ap_id before = id -> after = with_sequence before sequence)
  /\ (ap_id before = occupant -> after = with_sequence before vacated)
  /\ (ap_id before <> id -> ap_id before <> occupant -> after = before).

(** An active approver row of a company. *)
Definition active_in (companyId : uuid) (a : approver) : bool :=
  N.eqb (ap_company_id a) companyId && ap_is_active a.

(** The active approver rows of a company, in ascending sequence. *)
Definition roster (d : db) (companyId : uuid) : list approver :=
  order_by ap_sequence (List.filter (active_in companyId) (approvers d)).

(** The direct manager of a user, if the user has one. *)
Definition manager_of (d : db) (userId : uuid) : option uuid :=
  find_user d userId ≫= u_manager_id.

(** The approvers of a new expense, in the order of its chain: the
    manager, if there is one, then the users of the sorted approver rows
    other than the manager. *)
Definition chain_approvers (manager : option uuid) (sorted : list approver) : list uuid :=
  match manager with
  | Some m =>
      m :: map ap_user_id (List.filter (fun a => negb (N.eqb (ap_user_id a) m)) sorted)
  | None => map ap_user_id sorted
  end.

(** The foreign key of [approvers.user_id]. *)
Definition approvers_have_users (d : db) : Prop :=
  forall r, In r (approvers d) -> is_Some (find_user d (ap_user_id r)).

(** A slot of the same expense as [slot], earlier in the sequence, that is
    not approved. *)
Definition blocks (d : db) (slot s : approval) : Prop :=
  In s (approvals d) /\ a_expense_id s = a_expense_id slot
  /\ a_sequence s < a_sequence slot /\ a_status s <> approved.

(** What a rejection makes of a row of [approvals]: [after] is the row
    that [before] has become when the slot [id] of the expense
    [expense_id] was rejected at [now] with [comments]. *)
Definition rejection (id expense_id : uuid) (comments : string) (now : Z)
    (before after : approval) : Prop :=
  a_id after = a_id before
  /\ a_expense_id after = a_expense_id before
  /\ a_approver_id after = a_approver_id before
  /\ a_sequence after = a_sequence before
  /\ a_created_at after = a_created_at before
  /\ (a_id before = id ->
      a_status after = rejected /\ a_comments after = Some comments
      /\ a_approved_at after = Some now)
  /\ (a_id before <> id -> a_expense_id before = expense_id -> a_status before = pending ->
      a_status after = rejected
      /\ a_comments after = Some "Rejected due to prior rejection in approval chain"
      /\ a_approved_at after = Some now)
  /\ (a_id before <> id -> a_status before <> pending -> after = before)
  /\ (a_id before <> id -> a_expense_id before <> expense_id -> after = before).

(** Goals about the sample data are settled by running the handlers. *)
Ltac by_running :=
  vm_compute; first [reflexivity | discriminate | intuition congruence].

(** An amount that passes the check of the conversion: a number above
    zero. *)
Definition convertible (amount : float) : Prop :=
  (falsy_num amount || PrimFloat.leb amount 0) = false.

(** The key under which the cache holds the rate of a pair of codes. *)
Definition rate_key (fromCurrency toCurrency : string) : string :=
  cacheKey (toUpperCase fromCurrency) (toUpperCase toCurrency).

(** The message for a service that cannot be reached. *)
Definition service_unavailable : string :=
  "Currency conversion service unavailable. Please try again later.".

(** The branches of a conversion that store no rate. *)
Ltac no_store :=
  try match goal with |- context [?cache !! ?key] => destruct (cache !! key) end;
  intros [= <- <- <-] Hin; simpl in Hin; intuition discriminate.

Ltac kept :=
  try match goal with |- context [?cache !! ?key] => destruct (cache !! key) end;
  intros [= <- <- <-]; left; (split; [reflexivity|]);
  intros k Hin; simpl in Hin; intuition discriminate.

(** The primary keys of the tables. *)
Definition approvals_key (d : db) : Prop := List.NoDup (map a_id (approvals d)).
Definition expenses_key (d : db) : Prop := List.NoDup (map e_id (expenses d)).
Definition approvers_key (d : db) : Prop := List.NoDup (map ap_id (approvers d)).

(** A decision that an approver posts, with the time at which it is
    handled. *)
Inductive verdict :=
| Approve (now : Z) (req : decide_request)
| Reject (now : Z) (req : decide_request).

Definition apply_verdict (coerce : json -> float) (v : verdict) (d : db) : response * db :=
  match v with
  | Approve now req => approveExpense coerce now req d
  | Reject now req => rejectExpense now req d
  end.

(** The database after a series of decisions, handled one after the
    other. *)
Fixpoint apply_verdicts (coerce : json -> float) (vs : list verdict) (d : db) : db :=
  match vs with
  | [] => d
  | v :: rest => apply_verdicts coerce rest (apply_verdict coerce v d).2
  end.

(** What a decision on a slot of the expense [target] may do to the
    database: it rewrites rows of [approvals] and of [expenses] in place,
    keeping their identity, and only rows of [target] that are pending. *)
Definition row_update (target : uuid) (d d' : db) : Prop :=
  exists (f : approval -> approval) (g : expense -> expense),
    approvals d' = map f (approvals d) /\ expenses d' = map g (expenses d)
    /\ users d' = users d /\ companies d' = companies d
    /\ approvers d' = approvers d /\ approval_rules d' = approval_rules d
    /\ next_uuid d' = next_uuid d
    /\ (forall r, a_id (f r) = a_id r /\ a_expense_id (f r) = a_expense_id r
                  /\ a_approver_id (f r) = a_approver_id r
                  /\ a_sequence (f r) = a_sequence r
                  /\ a_created_at (f r) = a_created_at r)
    /\ (forall e, e_id (g e) = e_id e /\ e_user_id (g e) = e_user_id e
                  /\ e_company_id (g e) = e_company_id e
                  /\ e_amount (g e) = e_amount e)
    /\ (approvals_key d -> forall r, In r (approvals d) ->
          a_status r <> pending \/ a_expense_id r <> target -> f r = r)
    /\ (forall e, e_id e <> target -> g e = e)
    /\ ((forall r, f r = r) /\ (forall e, g e = e)
        \/ exists expense,
             find_expense d target = Some expense /\ e_status expense = pending).

(** The slots of an expense are approved from the lowest sequence up:
    below an approved slot, every slot is approved. *)
Definition in_order (d : db) : Prop :=
  forall s t, In s (approvals d) -> In t (approvals d) ->
    a_expense_id t = a_expense_id s -> a_sequence t < a_sequence s ->
    a_status s = approved -> a_status t = approved.

(** An answer that refuses the request. *)
Definition refused (r : response) : Prop :=
  http_status r = 400 \/ http_status r = 403 \/ http_status r = 404.

(** The user is on the team of the manager. *)
Definition on_team (d : db) (managerId userId : uuid) : Prop :=
  exists u, In u (users d) /\ u_id u = userId /\ u_manager_id u = Some managerId.

(** The user is the approver of a slot of the expense. *)
Definition has_slot (d : db) (expenseId userId : uuid) : Prop :=
  exists a, In a (approvals d) /\ a_expense_id a = expenseId /\ a_approver_id a = userId.

(** Who may read an expense: an administrator of its company, its
    submitter, and a manager of its submitter. *)
Definition may_read_expense (d : db) (p : principal) (e : expense) : Prop :=
  (p_role p = "admin" /\ e_company_id e = p_company_id p)
  \/ e_user_id e = p_id p
  \/ (p_role p = "manager" /\ on_team d (p_id p) (e_user_id e)).

(** Who may read the approval history of an expense: who may read the
    expense, and a manager who is the approver of one of its slots. *)
Definition may_read_history (d : db) (p : principal) (e : expense) : Prop :=
  may_read_expense d p e \/ (p_role p = "manager" /\ has_slot d (e_id e) (p_id p)).

(** The values of the row of [expenses] that a submission inserts. *)
Definition submitted_row (parseFloat : string -> float) (now : Z) (req : submit_request)
    (d : db) (expenseDate : Z) (convertedAmount : float) : expense :=
  {| e_id := next_uuid d; e_user_id := p_id (sr_user req);
     e_company_id := p_company_id (sr_user req);
     e_amount := convertedAmount;
     e_original_amount := parseFloat (default "" (sr_amount req));
     e_original_currency := toUpperCase (default "" (sr_currency req));
     e_category := default "" (sr_category req);
     e_description := or_null (sr_description req);
     e_date := expenseDate; e_status := pending;
     e_receipt_url := (fun name => "/uploads/" +:+ name) <$> sr_file req;
     e_created_at := now; e_updated_at := now |}.

(** An identifier that no expense and no slot of the database refers to:
    what [uuid_generate_v4()] returns for a new expense. *)
Definition fresh_expense_id (d : db) : Prop :=
  (forall e, In e (expenses d) -> e_id e <> next_uuid d)
  /\ (forall a, In a (approvals d) -> a_expense_id a <> next_uuid d).

(** No two active approver rows of a company hold the same sequence. *)
Definition distinct_sequences (d : db) : Prop :=
  forall a b, In a (approvers d) -> In b (approvers d) ->
    ap_is_active a = true -> ap_is_active b = true ->
    ap_company_id a = ap_company_id b -> ap_sequence a = ap_sequence b -> a = b.

(** A company has at most one active rule of each type. *)
Definition single_active_rules (d : db) : Prop :=
  forall r r', In r (approval_rules d) -> In r' (approval_rules d) ->
    r_is_active r = true -> r_is_active r' = true ->
    r_company_id r = r_company_id r' -> r_rule_type r = r_rule_type r' -> r = r'.

(** The primary key of [approval_rules]. *)
Definition rules_key (d : db) : Prop := List.NoDup (map r_id (approval_rules d)).

(** The rows of [approval_rules] satisfy the [CHECK] constraint of the
    column [rule_type]. *)
Definition rules_checked (d : db) : Prop :=
  Forall (fun r => rule_type_check (r_rule_type r) = true) (approval_rules d).

(** Goals about the sample data: a computation, the distinctness of a
    column of identifiers, and a case analysis on the rows of a table. *)
Ltac by_computing := vm_compute; first [reflexivity | discriminate | eauto].
Ltac distinct_keys := vm_compute; repeat constructor; simpl; intuition discriminate.
Ltac table_rows H :=
  vm_compute in H;
  repeat match type of H with
         | _ \/ _ => destruct H as [H|H]
         | False => destruct H
         end; subst.

(** Every pending slot belongs to a pending expense. *)
Definition slots_follow_expenses (d : db) : Prop :=
  forall s, In s (approvals d) -> a_status s = pending ->
    exists e, find_expense d (a_expense_id s) = Some e /\ e_status e = pending.

(** No two slots of an expense have the same sequence. *)
Definition chain_sequences (d : db) : Prop :=
  forall s t, In s (approvals d) -> In t (approvals d) ->
    a_expense_id s = a_expense_id t -> a_sequence s = a_sequence t -> s = t.

(** The identifiers of the expenses that the tables refer to have been
    drawn from the counter. *)
Definition identifiers_drawn (d : db) : Prop :=
  (forall e, In e (expenses d) -> (e_id e < next_uuid d)%N)
  /\ (forall a, In a (approvals d) -> (a_expense_id a < next_uuid d)%N).

(** A request that writes to the expenses or to their slots. *)
Inductive request :=
| Submit (w : world) (now : Z) (req : submit_request)
| Decide (v : verdict).

Section Requests.

Variable toFixed2 : float -> float.
Variable parseFloat : string -> float.
Variable parseDate : string -> option Z.
Variable decimal_10_2 : float -> option float.
Variable date_column : Z -> option Z.
Variable expense_error : expense -> string.
Variable coerce : json -> float.

(** The database and the rate cache after a request, and after a series
    of requests handled one after the other. *)
Definition serve (state : db * rate_cache) (r : request) : db * rate_cache :=
  match r with
  | Submit w now req =>
      let run := submitExpense toFixed2 parseFloat parseDate decimal_10_2 date_column
                   expense_error w now req state.1 state.2 in
      (run.1.1.2, run.1.2)
  | Decide v => ((apply_verdict coerce v state.1).2, state.2)
  end.

Definition serve_all (rs : list request) (state : db * rate_cache) : db * rate_cache :=
  fold_left serve rs state.

End Requests.

(** The conditions that the requests keep together. *)
Definition settled (d : db) : Prop :=
  rules_checked d /\ identifiers_drawn d /\ chain_sequences d /\ slots_follow_expenses d.

(** * Properties *)

(** ** The currency converter *)

Lemma toUpperCase_idempotent (s : string) : toUpperCase (toUpperCase s) = toUpperCase s.
Proof.
  induction s as [|c s IH]; simpl; [reflexivity|].
  rewrite IH. f_equal.
  unfold upper_ascii.
  destruct ((97 <=? nat_of_ascii c)%nat && (nat_of_ascii c <=? 122)%nat) eqn:Hc.
  - apply andb_prop in Hc as [Hlo Hhi].
    apply Nat.leb_le in Hlo. apply Nat.leb_le in Hhi.
    rewrite nat_ascii_embedding by lia.
    replace ((97 <=? nat_of_ascii c - 32)%nat) with false; [reflexivity|].
    symmetry. apply Nat.leb_gt. lia.
  - rewrite Hc. reflexivity.
Qed.

Section ConverterFacts.

Variable toFixed2 : float -> float.

(** Equal codes: the rounded amount, and nothing else happens. *)
Lemma convertCurrency_same w cache amount code :
  convertCurrency toFixed2 w cache amount code code = (Ok (toFixed2 amount), cache, []).
Proof.
  unfold convertCurrency, convert_try. rewrite String.eqb_refl. reflexivity.
Qed.

(** The [try] block throws the amount error only after the comparison of
    the codes has failed. *)
Lemma invalid_amount_differs w cache amount fromCurrency toCurrency f t log :
  convert_try toFixed2 w cache amount fromCurrency toCurrency
    = Threw (ThrownError "Invalid amount for conversion") f t log ->
  fromCurrency <> toCurrency.
Proof.
  unfold convert_try. intros H Heq. subst toCurrency.
  rewrite String.eqb_refl in H. discriminate.
Qed.

(** When the service is asked, it is asked for the upper-cased source
    code, and the [try] block got past the cache. *)
Lemma convert_try_oracle w cache amount fromCurrency toCurrency base :
  let key := cacheKey (toUpperCase fromCurrency) (toUpperCase toCurrency) in
  match convert_try toFixed2 w cache amount fromCurrency toCurrency with
  | Returned _ _ log => In (OracleGet base) log ->
      base = toUpperCase fromCurrency /\ exists data, oracle w base = AxiosResponse data
  | Threw error f t log => In (OracleGet base) log ->
      base = toUpperCase fromCurrency /\ f = toUpperCase fromCurrency
      /\ t = toUpperCase toCurrency
      /\ (forall e, oracle w base = AxiosReject e -> error = ThrownAxios e)
  end.
Proof.
  intros key. unfold convert_try. fold key.
  destruct (String.eqb fromCurrency toCurrency); [simpl; tauto|].
  destruct (falsy_num amount || PrimFloat.leb amount 0); [simpl; tauto|].
  destruct (String.eqb fromCurrency "" || String.eqb toCurrency ""); [simpl; tauto|].
  destruct (match cache !! key with
            | Some cachedData =>
                if now_lookup w - timestamp cachedData <? CACHE_DURATION
                then Some cachedData else None
            | None => None
            end) as [c|].
  { simpl. intros [H|[]]. discriminate. }
  destruct (oracle w (toUpperCase fromCurrency)) as [data|e] eqn:Ho.
  - assert (Hbase : forall log' : list effect,
               In (OracleGet base) ([CacheGet key; OracleGet (toUpperCase fromCurrency)] ++ log')%list ->
               (forall x, In x log' -> x <> OracleGet base) ->
               base = toUpperCase fromCurrency).
    { intros log' Hin Hno. simpl in Hin.
      destruct Hin as [H|[H|H]]; [discriminate|congruence|].
      exfalso. eapply Hno; eauto. }
    assert (Hplain : In (OracleGet base) [CacheGet key; OracleGet (toUpperCase fromCurrency)] ->
                     base = toUpperCase fromCurrency).
    { intros [H|[H|[]]]; [discriminate|congruence]. }
    destruct data as [[rates|]|].
    + destruct (rates !! toUpperCase toCurrency) as [exchangeRate|].
      * destruct (falsy_num exchangeRate).
        -- intros Hin. pose proof (Hplain Hin) as ->.
           repeat split; try reflexivity. intros e He. congruence.
        -- intros Hin. assert (base = toUpperCase fromCurrency) as ->.
           { apply (Hbase [CacheSet key]); [exact Hin|].
             intros x [<-|[]]. discriminate. }
           split; [reflexivity|]. eauto.
      * intros Hin. pose proof (Hplain Hin) as ->.
        repeat split; try reflexivity. intros e He. congruence.
    + intros Hin. pose proof (Hplain Hin) as ->.
      repeat split; try reflexivity. intros e He. congruence.
    + intros Hin. pose proof (Hplain Hin) as ->.
      repeat split; try reflexivity. intros e He. congruence.
  - intros [H|[H|[]]]; [discriminate|].
    injection H as <-. repeat split; try reflexivity.
    intros e' He'. congruence.
Qed.

(** The service is asked only when the cache holds no fresh rate. *)
Lemma convert_try_oracle_stale w cache amount fromCurrency toCurrency base c :
  let key := cacheKey (toUpperCase fromCurrency) (toUpperCase toCurrency) in
  In (OracleGet base)
     (match convert_try toFixed2 w cache amount fromCurrency toCurrency with
      | Returned _ _ log => log
      | Threw _ _ _ log => log
      end) ->
  cache !! key = Some c ->
  CACHE_DURATION <= now_lookup w - timestamp c.
Proof.
  intros key. unfold convert_try. fold key.
  destruct (String.eqb fromCurrency toCurrency); [simpl; tauto|].
  destruct (falsy_num amount || PrimFloat.leb amount 0); [simpl; tauto|].
  destruct (String.eqb fromCurrency "" || String.eqb toCurrency ""); [simpl; tauto|].
  intros Hin Hc. rewrite Hc in Hin.
  destruct (now_lookup w - timestamp c <? CACHE_DURATION) eqn:Hfresh.
  - simpl in Hin. destruct Hin as [H|[]]. discriminate.
  - apply Z.ltb_ge in Hfresh. exact Hfresh.
Qed.

(** The outcome of a conversion whose call to the service is rejected. *)
Lemma convertCurrency_rejected w cache amount fromCurrency toCurrency r cache' log base e :
  convertCurrency toFixed2 w cache amount fromCurrency toCurrency = (r, cache', log) ->
  In (OracleGet base) log ->
  oracle w base = AxiosReject e ->
  cache' = cache /\
  match cache !! cacheKey (toUpperCase fromCurrency) (toUpperCase toCurrency) with
  | Some cachedData =>
      r = Ok (toFixed2 (amount * rate cachedData)%float)
      /\ CACHE_DURATION <= now_lookup w - timestamp cachedData
  | None => r = Throw (rethrown (ThrownAxios e) (toUpperCase fromCurrency))
  end.
Proof.
  intros Hrun Hin Hrej.
  pose proof (convert_try_oracle w cache amount fromCurrency toCurrency base) as Htry.
  pose proof (convert_try_oracle_stale w cache amount fromCurrency toCurrency base) as Hstale.
  unfold convertCurrency in Hrun. simpl in Htry, Hstale.
  destruct (convert_try toFixed2 w cache amount fromCurrency toCurrency)
    as [value c1 log1|error f t log1].
  - injection Hrun as <- <- <-.
    destruct (Htry Hin) as [_ [data Hdata]]. congruence.
  - assert (Hin1 : In (OracleGet base) log1).
    { destruct (cache !! cacheKey f t); injection Hrun as <- <- <-;
        apply in_app_or in Hin as [H|[H|[]]]; try exact H; discriminate. }
    destruct (Htry Hin1) as (-> & -> & -> & Herr).
    rewrite (Herr e Hrej) in Hrun.
    destruct (cache !! cacheKey (toUpperCase fromCurrency) (toUpperCase toCurrency))
      as [c|] eqn:Hc; injection Hrun as <- <- <-; split; try reflexivity.
    split; [reflexivity|]. apply (Hstale c Hin1 eq_refl).
Qed.

End ConverterFacts.

(** ** Submission and the converter *)

Section SubmissionFacts.

Variable toFixed2 : float -> float.
Variable parseFloat : string -> float.
Variable parseDate : string -> option Z.
Variable decimal_10_2 : float -> option float.
Variable date_column : Z -> option Z.
Variable expense_error : expense -> string.

Local Abbreviation submit := (submitExpense toFixed2 parseFloat parseDate decimal_10_2 date_column
     expense_error).
Local Abbreviation requested := (requested_conversion toFixed2 parseFloat).
Local Abbreviation reaches := (converting parseFloat parseDate).

(** The effects of a submission are those of its conversion. *)
Lemma submitExpense_log w now req d cache :
  (submit w now req d cache).2 = []
  \/ exists c, reaches req d c
       /\ (submit w now req d cache).2 = (requested w req c cache).2.
Proof.
  unfold submitExpense, converting, requested_conversion.
  destruct (missing (sr_amount req) || missing (sr_currency req)
            || missing (sr_category req) || missing (sr_date req)); [left; reflexivity|].
  destruct (is_nan _ || PrimFloat.leb _ 0); [left; reflexivity|].
  destruct (parseDate _) as [expenseDate|] eqn:Hdate; [|left; reflexivity].
  destruct (find_company d _) as [c|]; [|left; reflexivity].
  right. exists c. split; [repeat split; eauto|].
  destruct (convertCurrency _ _ _ _ _ _) as [[[value|message] cache'] log]; [|reflexivity].
  simpl. destruct (insert_expense _ _ _ _); [|reflexivity].
  destruct (build_chain _ _ _ _ _); [|reflexivity].
  destruct (find_user _ _); reflexivity.
Qed.

(** A conversion that throws ends the submission with status 400 and
    the database as it was. *)
Lemma submitExpense_conversion_throws w now req d cache c message cache' log :
  reaches req d c ->
  requested w req c cache = (Throw message, cache', log) ->
  submit w now req d cache
  = (error_response 400 "Currency conversion failed" (Some message), d, cache', log).
Proof.
  unfold converting, requested_conversion, submitExpense.
  intros (-> & -> & [expenseDate ->] & ->) ->. reflexivity.
Qed.

(** A submission whose exchange-rate call is rejected while the cache
    holds no rate for the pair writes nothing. *)
Lemma submitExpense_rejected_oracle w now req d cache base e :
  In (OracleGet base) (submit w now req d cache).2 ->
  oracle w base = AxiosReject e ->
  (forall c, find_company d (p_company_id (sr_user req)) = Some c ->
             cache !! cacheKey (toUpperCase (default "" (sr_currency req)))
                               (toUpperCase (c_currency c)) = None) ->
  exists message,
    submit w now req d cache
    = (error_response 400 "Currency conversion failed" (Some message), d, cache,
       (submit w now req d cache).2).
Proof.
  intros Hin Hrej Hnone.
  destruct (submitExpense_log w now req d cache) as [Hnil|(c & Hconv & Hlog)].
  { rewrite Hnil in Hin. destruct Hin. }
  rewrite Hlog in Hin |- *.
  destruct (requested w req c cache) as [[r cache'] log] eqn:Hrun.
  simpl in Hin |- *.
  pose proof Hrun as Hrun'. unfold requested_conversion in Hrun'.
  destruct (convertCurrency_rejected _ _ _ _ _ _ _ _ _ _ _ Hrun' Hin Hrej) as [-> Hr].
  rewrite !toUpperCase_idempotent in Hr.
  rewrite (Hnone c) in Hr by apply Hconv. subst r.
  eexists. apply submitExpense_conversion_throws with (c := c); eauto.
Qed.

End SubmissionFacts.

(** C8.  A conversion whose call to the exchange-rate service is rejected
    returns the amount times the cached rate, rounded to two decimals,
    when the cache holds a rate for the pair, which is then at least an
    hour old; it throws when the cache holds none.  A submission whose
    conversion fails in this way answers 400 and leaves the database as it
    was: the expense is not persisted. *)
Theorem oracle_failure_falls_back_to_cache :
  (forall toFixed2 w cache amount fromCurrency toCurrency r cache' log base e,
     convertCurrency toFixed2 w cache amount fromCurrency toCurrency = (r, cache', log) ->
     In (OracleGet base) log ->
     oracle w base = AxiosReject e ->
     match cache !! cacheKey (toUpperCase fromCurrency) (toUpperCase toCurrency) with
     | Some cachedData =>
         r = Ok (toFixed2 (amount * rate cachedData)%float)
         /\ CACHE_DURATION <= now_lookup w - timestamp cachedData
     | None => exists message, r = Throw message
     end)
  /\
  (forall toFixed2 parseFloat parseDate decimal_10_2 date_column expense_error
          w now req d cache resp d' cache' log base e,
     submitExpense toFixed2 parseFloat parseDate decimal_10_2 date_column expense_error
       w now req d cache = (resp, d', cache', log) ->
     In (OracleGet base) log ->
     oracle w base = AxiosReject e ->
     (forall c, find_company d (p_company_id (sr_user req)) = Some c ->
                cache !! cacheKey (toUpperCase (default "" (sr_currency req)))
                                  (toUpperCase (c_currency c)) = None) ->
     d' = d /\ http_status resp = 400
     /\ field "error" (body resp) = Some (JStr "Currency conversion failed")).
Proof.
  split.
  - intros toFixed2 w cache amount fromCurrency toCurrency r cache' log base e Hrun Hin Hrej.
    destruct (convertCurrency_rejected _ _ _ _ _ _ _ _ _ _ _ Hrun Hin Hrej) as [_ H].
    destruct (cache !! _); [exact H|eauto].
  - intros toFixed2 parseFloat parseDate decimal_10_2 date_column expense_error
           w now req d cache resp d' cache' log base e Hrun Hin Hrej Hnone.
    assert (Hin' : In (OracleGet base)
                      (submitExpense toFixed2 parseFloat parseDate decimal_10_2 date_column
                         expense_error w now req d cache).2)
      by (rewrite Hrun; exact Hin).
    destruct (submitExpense_rejected_oracle _ _ _ _ _ _ _ _ _ _ _ _ _ Hin' Hrej Hnone)
      as [message Heq].
    rewrite Hrun in Heq. injection Heq as -> -> _. auto.
Qed.

(** C10.  When the two codes are the same text, the conversion returns the
    rounded amount without reading the cache or calling the service, and
    without looking at the amount: it does so for an amount below zero.
    The amount error is thrown only when the codes differ, and then it is
    thrown for every amount that is not above zero. *)
Theorem same_code_skips_validation :
  (forall toFixed2 w cache amount code,
     convertCurrency toFixed2 w cache amount code code = (Ok (toFixed2 amount), cache, []))
  /\
  (exists amount,
     PrimFloat.leb amount 0 = true
     /\ forall toFixed2 w cache code,
          convertCurrency toFixed2 w cache amount code code
          = (Ok (toFixed2 amount), cache, []))
  /\
  (forall toFixed2 w cache amount fromCurrency toCurrency f t log,
     convert_try toFixed2 w cache amount fromCurrency toCurrency
     = Threw (ThrownError "Invalid amount for conversion") f t log ->
     fromCurrency <> toCurrency)
  /\
  (forall toFixed2 w cache amount fromCurrency toCurrency,
     fromCurrency <> toCurrency ->
     PrimFloat.leb amount 0 = true ->
     convert_try toFixed2 w cache amount fromCurrency toCurrency
     = Threw (ThrownError "Invalid amount for conversion") fromCurrency toCurrency []).
Proof.
  split; [|split; [|split]].
  - intros. apply convertCurrency_same.
  - exists (-5)%float. split; [reflexivity|]. intros. apply convertCurrency_same.
  - intros. eapply invalid_amount_differs; eauto.
  - intros toFixed2 w cache amount fromCurrency toCurrency Hne Hle.
    unfold convert_try. apply String.eqb_neq in Hne. rewrite Hne, Hle.
    rewrite orb_true_r. reflexivity.
Qed.

(** ** Queries *)

Section OrderByFacts.

Context {A : Type} (key : A -> Z).

Local Abbreviation ascending := (ascending key).

Lemma insert_by_perm x l : Permutation (insert_by key x l) (x :: l).
Proof.
  induction l as [|y l IH]; simpl; [reflexivity|].
  destruct (key x <? key y); [reflexivity|].
  rewrite IH. apply perm_swap.
Qed.

Lemma order_by_perm l : Permutation (order_by key l) l.
Proof.
  induction l as [|x l IH]; simpl; [reflexivity|].
  rewrite insert_by_perm. apply perm_skip, IH.
Qed.

Lemma order_by_In x l : In x (order_by key l) <-> In x l.
Proof.
  split; apply Permutation_in; [|symmetry]; apply order_by_perm.
Qed.

Lemma insert_by_sorted x l :
  StronglySorted ascending l -> StronglySorted ascending (insert_by key x l).
Proof.
  induction 1 as [|y l Hsorted IH Hall]; simpl.
  - constructor; constructor.
  - destruct (key x <? key y) eqn:Hlt.
    + apply Z.ltb_lt in Hlt. constructor.
      * constructor; assumption.
      * constructor; [unfold ascending; lia|].
        rewrite List.Forall_forall in Hall |- *. intros z Hz.
        specialize (Hall z Hz). unfold ascending in *. lia.
    + apply Z.ltb_ge in Hlt. constructor; [exact IH|].
      apply List.Forall_forall. intros z Hz.
      apply (Permutation_in _ (insert_by_perm x l)) in Hz.
      destruct Hz as [<-|Hz]; [exact Hlt|].
      rewrite List.Forall_forall in Hall. apply Hall, Hz.
Qed.

Lemma order_by_sorted l : StronglySorted ascending (order_by key l).
Proof.
  induction l as [|x l IH]; simpl; [constructor|].
  apply insert_by_sorted, IH.
Qed.

(** The first row that a filter keeps of a sorted list has the least key
    among the rows it keeps. *)
Lemma sorted_filter_head (f : A -> bool) l first rest :
  StronglySorted ascending l ->
  List.filter f l = first :: rest ->
  forall x, In x l -> f x = true -> key first <= key x.
Proof.
  induction 1 as [|y l Hsorted IH Hall]; simpl; [discriminate|].
  intros Hf x Hx Hfx.
  destruct (f y) eqn:Hfy.
  - injection Hf as -> _.
    destruct Hx as [<-|Hx]; [lia|].
    rewrite List.Forall_forall in Hall. apply Hall, Hx.
  - destruct Hx as [<-|Hx]; [congruence|].
    apply IH; assumption.
Qed.

(** Sorting commutes with a map that keeps the keys. *)
Lemma order_by_map {B : Type} (keyB : B -> Z) (g : A -> B) l :
  (forall x, keyB (g x) = key x) ->
  order_by keyB (map g l) = map g (order_by key l).
Proof.
  intros Hkey.
  assert (Hins : forall x l', insert_by keyB (g x) (map g l') = map g (insert_by key x l')).
  { intros x l'. induction l' as [|y l' IH]; simpl; [reflexivity|].
    rewrite !Hkey. destruct (key x <? key y); simpl; [reflexivity|].
    rewrite IH. reflexivity. }
  induction l as [|x l IH]; simpl; [reflexivity|].
  rewrite IH. apply Hins.
Qed.

End OrderByFacts.

Lemma find_by_id {A : Type} (id_of : A -> uuid) (id : uuid) (rows : list A) (row : A) :
  find (fun r => N.eqb (id_of r) id) rows = Some row -> In row rows /\ id_of row = id.
Proof.
  intros H. apply find_some in H as [Hin Heq].
  apply N.eqb_eq in Heq. auto.
Qed.

(** Reading a row after an update of the rows with a given identifier. *)
Lemma find_after_update {A : Type} (id_of : A -> uuid) (change : A -> A)
    (id : uuid) (rows : list A) :
  (forall r, id_of (change r) = id_of r) ->
  find (fun r => N.eqb (id_of r) id) (map change rows)
  = change <$> find (fun r => N.eqb (id_of r) id) rows.
Proof.
  intros Hid. induction rows as [|r rows IH]; simpl; [reflexivity|].
  rewrite Hid. destruct (N.eqb (id_of r) id); [reflexivity|exact IH].
Qed.

Lemma status_eqb_eq (a b : status) : status_eqb a b = true <-> a = b.
Proof. destruct a, b; simpl; split; intros H; congruence. Qed.

Lemma status_eqb_neq (a b : status) : status_eqb a b = false <-> a <> b.
Proof. destruct a, b; simpl; split; intros H; congruence. Qed.

(** ** Decisions that are refused *)

Section RefusedDecisions.

Variable coerce : json -> float.
Variables (now : Z) (req : decide_request) (d : db).
Variables (slot : approval) (expense : expense).

(** The slot that the request names, and the expense that it belongs to. *)
Hypothesis slot_found : find_approval d (dr_id req) = Some slot.
Hypothesis expense_found : find_expense d (a_expense_id slot) = Some expense.

Lemma approve_not_assigned :
  a_approver_id slot <> p_id (dr_user req) ->
  approveExpense coerce now req d = (not_assigned, d).
Proof.
  intros Hne. unfold approveExpense. rewrite slot_found, expense_found.
  apply N.eqb_neq in Hne. rewrite Hne. reflexivity.
Qed.

Lemma approve_already_decided :
  a_approver_id slot = p_id (dr_user req) ->
  a_status slot <> pending ->
  approveExpense coerce now req d = (already_decided slot, d).
Proof.
  intros Hme Hst. unfold approveExpense. rewrite slot_found, expense_found.
  apply N.eqb_eq in Hme. rewrite Hme. simpl.
  apply status_eqb_neq in Hst. unfold is_pending. rewrite Hst. reflexivity.
Qed.

Lemma approve_already_terminated :
  a_approver_id slot = p_id (dr_user req) ->
  a_status slot = pending ->
  e_status expense <> pending ->
  approveExpense coerce now req d = (already_terminated expense, d).
Proof.
  intros Hme Hst Hex. unfold approveExpense. rewrite slot_found, expense_found.
  apply N.eqb_eq in Hme. rewrite Hme. simpl.
  unfold is_pending. rewrite Hst. simpl.
  apply status_eqb_neq in Hex. rewrite Hex. reflexivity.
Qed.

Lemma reject_without_comment :
  match dr_comments req with Some c => blank c = true | None => True end ->
  rejectExpense now req d = (comments_required, d).
Proof.
  unfold rejectExpense, or_null. destruct (dr_comments req) as [c|]; [|reflexivity].
  intros Hblank. destruct (String.eqb c ""); [reflexivity|]. rewrite Hblank. reflexivity.
Qed.

Lemma reject_with_comment comments :
  dr_comments req = Some comments -> blank comments = false ->
  or_null (dr_comments req) = Some comments.
Proof.
  intros -> Hblank. simpl. destruct (String.eqb_spec comments ""); [|reflexivity].
  subst. discriminate.
Qed.

Lemma reject_already_decided comments :
  dr_comments req = Some comments -> blank comments = false ->
  a_approver_id slot = p_id (dr_user req) ->
  a_status slot <> pending ->
  rejectExpense now req d = (already_decided slot, d).
Proof.
  intros Hc Hblank Hme Hst. unfold rejectExpense.
  rewrite (reject_with_comment _ Hc Hblank), Hblank, slot_found, expense_found.
  apply N.eqb_eq in Hme. rewrite Hme. simpl.
  apply status_eqb_neq in Hst. unfold is_pending. rewrite Hst. reflexivity.
Qed.

Lemma reject_already_terminated comments :
  dr_comments req = Some comments -> blank comments = false ->
  a_approver_id slot = p_id (dr_user req) ->
  a_status slot = pending ->
  e_status expense <> pending ->
  rejectExpense now req d = (already_terminated expense, d).
Proof.
  intros Hc Hblank Hme Hst Hex. unfold rejectExpense.
  rewrite (reject_with_comment _ Hc Hblank), Hblank, slot_found, expense_found.
  apply N.eqb_eq in Hme. rewrite Hme. simpl.
  unfold is_pending. rewrite Hst. simpl.
  apply status_eqb_neq in Hex. rewrite Hex. reflexivity.
Qed.

Lemma blocks_iff s :
  blocks d slot s <-> In s (approvals d) /\ lower_sequence slot s = true
               /\ negb (is_approved s) = true.
Proof.
  unfold blocks, lower_sequence, is_approved.
  rewrite andb_true_iff, N.eqb_eq, Z.ltb_lt, negb_true_iff, status_eqb_neq. tauto.
Qed.

Lemma unapprovedPrevious_In s :
  In s (unapprovedPrevious d slot) <-> blocks d slot s.
Proof.
  unfold unapprovedPrevious.
  rewrite filter_In, order_by_In, filter_In, blocks_iff. tauto.
Qed.

Lemma unapprovedPrevious_lowest first rest :
  unapprovedPrevious d slot = first :: rest ->
  blocks d slot first /\ forall s, blocks d slot s -> a_sequence first <= a_sequence s.
Proof.
  intros Hq. split.
  - apply unapprovedPrevious_In. rewrite Hq. left. reflexivity.
  - intros s Hs. apply blocks_iff in Hs as (Hin & Hlow & Hna).
    unfold unapprovedPrevious in Hq.
    eapply sorted_filter_head; [apply order_by_sorted|exact Hq| |exact Hna].
    apply order_by_In, filter_In. auto.
Qed.

Lemma approve_out_of_order s :
  a_approver_id slot = p_id (dr_user req) ->
  a_status slot = pending ->
  e_status expense = pending ->
  blocks d slot s ->
  exists lowest,
    blocks d slot lowest
    /\ (forall s', blocks d slot s' -> a_sequence lowest <= a_sequence s')
    /\ approveExpense coerce now req d = (out_of_order (a_sequence lowest), d).
Proof.
  intros Hme Hst Hex Hs.
  destruct (unapprovedPrevious d slot) as [|first rest] eqn:Hq.
  { apply unapprovedPrevious_In in Hs. rewrite Hq in Hs. destruct Hs. }
  destruct (unapprovedPrevious_lowest _ _ Hq) as [Hfirst Hleast].
  exists first. repeat split; try apply Hfirst; [exact Hleast|].
  unfold approveExpense. rewrite slot_found, expense_found.
  apply N.eqb_eq in Hme. rewrite Hme. simpl.
  unfold is_pending. rewrite Hst, Hex. simpl. rewrite Hq. reflexivity.
Qed.

End RefusedDecisions.

(** ** Decisions that are applied *)

Lemma Forall2_map_self {A B : Type} (R : A -> B -> Prop) (f : A -> B) (l : list A) :
  (forall x, In x l -> R x (f x)) -> Forall2 R l (map f l).
Proof.
  induction l as [|x l IH]; simpl; intros H; constructor; auto.
Qed.

Lemma rejection_rows id expense_id comments now (s : approval) :
  rejection id expense_id comments now s
    (cascade_row expense_id id now (decide_row id rejected (Some comments) now s)).
Proof.
  unfold rejection, cascade_row, decide_row, is_pending.
  destruct (N.eqb_spec (a_id s) id) as [Hid|Hid]; simpl.
  - rewrite Hid, N.eqb_refl, andb_false_r. simpl.
    repeat split; auto; intros; congruence.
  - apply N.eqb_neq in Hid as Hid'. rewrite Hid'. simpl. rewrite andb_true_r.
    destruct (N.eqb_spec (a_expense_id s) expense_id) as [He|He]; simpl.
    + destruct (status_eqb (a_status s) pending) eqn:Hst; simpl.
      * apply status_eqb_eq in Hst.
        repeat split; auto; intros; congruence.
      * apply status_eqb_neq in Hst.
        repeat split; auto; intros; congruence.
    + repeat split; auto; intros; congruence.
Qed.

Section AppliedDecisions.

Variable coerce : json -> float.
Variables (now : Z) (req : decide_request) (d : db).
Variables (slot : approval) (expense : expense).

Hypothesis slot_found : find_approval d (dr_id req) = Some slot.
Hypothesis expense_found : find_expense d (a_expense_id slot) = Some expense.
Hypothesis assigned : a_approver_id slot = p_id (dr_user req).
Hypothesis slot_pending : a_status slot = pending.
Hypothesis expense_pending : e_status expense = pending.

(** The tables that a rejection with a comment leaves behind. *)
Lemma reject_tables comments :
  dr_comments req = Some comments -> blank comments = false ->
  has_nul comments = false ->
  let d' := (rejectExpense now req d).2 in
  approvals d'
  = map (fun s => cascade_row (a_expense_id slot) (dr_id req) now
                    (decide_row (dr_id req) rejected (Some comments) now s))
        (approvals d)
  /\ expenses d' = map (set_expense_status (a_expense_id slot) rejected now) (expenses d)
  /\ companies d' = companies d /\ users d' = users d
  /\ approvers d' = approvers d /\ approval_rules d' = approval_rules d.
Proof.
  intros Hc Hblank Hnul. unfold rejectExpense.
  rewrite (reject_with_comment _ _ Hc Hblank), Hblank, slot_found, expense_found.
  apply N.eqb_eq in assigned. rewrite assigned. simpl.
  unfold is_pending. rewrite slot_pending, expense_pending. simpl. rewrite Hnul.
  match goal with |- context [find_user ?c ?u] => destruct (find_user c u) end;
    [match goal with |- context [find_user ?c ?u] => destruct (find_user c u) end|];
    simpl; rewrite map_map; repeat split; reflexivity.
Qed.

Lemma reject_applied comments :
  dr_comments req = Some comments -> blank comments = false ->
  has_nul comments = false ->
  let d' := (rejectExpense now req d).2 in
  Forall2 (rejection (dr_id req) (a_expense_id slot) comments now)
          (approvals d) (approvals d')
  /\ (exists e', find_expense d' (a_expense_id slot) = Some e'
                 /\ e_status e' = rejected /\ e_id e' = e_id expense)
  /\ Forall2 (fun e e' => e_id e <> a_expense_id slot -> e' = e)
             (expenses d) (expenses d').
Proof.
  intros Hc Hblank Hnul.
  destruct (reject_tables comments Hc Hblank Hnul) as (Ha & He & _).
  cbv zeta in *. unfold find_expense in *. rewrite Ha, !He. split; [|split].
  - apply Forall2_map_self. intros s _. apply rejection_rows.
  - rewrite (find_after_update e_id) by
      (intros r; unfold set_expense_status; destruct (N.eqb (e_id r) _); reflexivity).
    rewrite expense_found. simpl. eexists. split; [reflexivity|].
    apply find_by_id in expense_found as [_ Hid].
    unfold set_expense_status. rewrite Hid, N.eqb_refl. auto.
  - apply Forall2_map_self. intros e _ Hne.
    unfold set_expense_status. apply N.eqb_neq in Hne. rewrite Hne. reflexivity.
Qed.

(** The outcome of an approval that passes the checks: the slot is
    written, and the expense becomes approved when the rule loop ends
    with [isFullyApproved] set. *)
Lemma approve_applied :
  unapprovedPrevious d slot = [] ->
  unstorable (or_null (dr_comments req)) = false ->
  let d1 := with_approvals d
              (map (decide_row (dr_id req) approved (or_null (dr_comments req)) now)
                   (approvals d)) in
  let rows := approvals_of d1 (a_expense_id slot) in
  let allDone :=
    match order_by a_sequence (List.filter (higher_sequence slot) (approvals d1)) with
    | [] => true
    | _ => forallb is_approved rows
    end in
  (approveExpense coerce now req d).2
  = match apply_rules coerce rows (active_rules d1 (e_company_id expense)) allDone with
    | Some true =>
        with_expenses d1
          (map (set_expense_status (a_expense_id slot) approved now) (expenses d1))
    | Some false => d1
    | None => d
    end.
Proof.
  intros Hq Hnul. unfold approveExpense. rewrite slot_found, expense_found.
  apply N.eqb_eq in assigned. rewrite assigned. simpl.
  unfold is_pending. rewrite slot_pending, expense_pending. simpl. rewrite Hq, Hnul.
  match goal with |- context [apply_rules ?c ?r ?l ?b] => destruct (apply_rules c r l b) as [[|]|] end;
    [| |reflexivity];
    match goal with |- context [find_user ?c ?u] => destruct (find_user c u) end;
    reflexivity.
Qed.

End AppliedDecisions.

(** The rule loop sets [isFullyApproved] exactly when it was set before or
    some rule of the list sets it. *)
Lemma apply_rules_true coerce rows rules start :
  apply_rules coerce rows rules start = Some true ->
  start = true \/ exists rule, In rule rules /\ rule_approves coerce rows rule = Some true.
Proof.
  revert start. induction rules as [|rule rules IH]; simpl; intros start H.
  - left. congruence.
  - destruct (rule_approves coerce rows rule) as [hit|] eqn:Hrule; [|discriminate].
    apply IH in H as [H|(r & Hin & Hr)].
    + apply orb_true_iff in H as [->|H]; eauto.
    + eauto.
Qed.

(** A rule whose type is not [percentage] never sets it. *)
Lemma rule_approves_other coerce rows rule :
  r_rule_type rule <> "percentage" -> rule_approves coerce rows rule = Some false.
Proof.
  intros H. unfold rule_approves. apply String.eqb_neq in H. rewrite H. reflexivity.
Qed.

(** A rule of type [percentage] sets it when the share of approved slots
    reaches [required_percentage], or 100 when the configuration has no
    such field. *)
Lemma rule_approves_percentage coerce rows rule :
  r_rule_type rule = "percentage" -> r_rule_config rule <> JNull ->
  rule_approves coerce rows rule
  = Some (PrimFloat.leb (requiredPercentage coerce (r_rule_config rule))
                        (approvedPercentage rows)).
Proof.
  intros Ht Hc. unfold rule_approves. rewrite Ht. simpl.
  destruct (r_rule_config rule); congruence.
Qed.

Lemma requiredPercentage_default coerce config :
  field "required_percentage" config = None -> requiredPercentage coerce config = 100%float.
Proof. unfold requiredPercentage. intros ->. reflexivity. Qed.

(** ** The approval state machine *)

(** C3.  A rejection by the assigned approver of a pending slot of a
    pending expense, with a comment that is not blank and that the column
    can hold (a text without the character U+0000), makes the slot
    rejected with that comment and the time of the decision; makes every
    other slot of the expense that was pending rejected with the comment
    "Rejected due to prior rejection in approval chain"; leaves the slots
    that were not pending, the approved ones among them, as they were; and
    makes the expense rejected. *)
Theorem reject_cascades :
  forall now req d slot expense comments,
    find_approval d (dr_id req) = Some slot ->
    find_expense d (a_expense_id slot) = Some expense ->
    a_approver_id slot = p_id (dr_user req) ->
    a_status slot = pending ->
    e_status expense = pending ->
    dr_comments req = Some comments ->
    blank comments = false ->
    has_nul comments = false ->
    Forall2 (rejection (dr_id req) (a_expense_id slot) comments now)
            (approvals d) (approvals (rejectExpense now req d).2)
    /\ exists e', find_expense (rejectExpense now req d).2 (a_expense_id slot) = Some e'
                  /\ e_status e' = rejected.
Proof.
  intros now req d slot expense comments Hs He Hme Hsp Hep Hc Hb Hn.
  destruct (reject_applied now req d slot expense Hs He Hme Hsp Hep comments Hc Hb Hn)
    as (Hrows & (e' & Hfind & Hst & _) & _).
  split; [exact Hrows|]. exists e'. auto.
Qed.

(** C4.  An approval by the assigned approver of a pending slot of a
    pending expense, while some slot of the expense with a lower sequence
    is not approved, is refused with the sequence of the lowest such slot
    in the message, and the database stays as it was. *)
Theorem approve_out_of_order_refused :
  forall coerce now req d slot expense s,
    find_approval d (dr_id req) = Some slot ->
    find_expense d (a_expense_id slot) = Some expense ->
    a_approver_id slot = p_id (dr_user req) ->
    a_status slot = pending ->
    e_status expense = pending ->
    blocks d slot s ->
    exists lowest,
      blocks d slot lowest
      /\ (forall s', blocks d slot s' -> a_sequence lowest <= a_sequence s')
      /\ approveExpense coerce now req d = (out_of_order (a_sequence lowest), d).
Proof.
  intros. eapply approve_out_of_order; eauto.
Qed.

(** C5.  A decision by the assigned approver on a slot that is no longer
    pending is refused as already decided, and one on a pending slot of an
    expense that is no longer pending as already terminated: for an
    approval always, for a rejection when it carries a comment that is not
    blank.  A rejection without such a comment is refused for the missing
    comment before the slot is looked at.  The database stays as it was in
    each case. *)
Theorem decided_slot_refused :
  forall coerce now req d slot expense,
    find_approval d (dr_id req) = Some slot ->
    find_expense d (a_expense_id slot) = Some expense ->
    a_approver_id slot = p_id (dr_user req) ->
    (a_status slot <> pending ->
       approveExpense coerce now req d = (already_decided slot, d)
       /\ forall comments, dr_comments req = Some comments -> blank comments = false ->
            rejectExpense now req d = (already_decided slot, d))
    /\ (a_status slot = pending -> e_status expense <> pending ->
          approveExpense coerce now req d = (already_terminated expense, d)
          /\ forall comments, dr_comments req = Some comments -> blank comments = false ->
               rejectExpense now req d = (already_terminated expense, d))
    /\ (match dr_comments req with Some c => blank c = true | None => True end ->
          rejectExpense now req d = (comments_required, d)).
Proof.
  intros coerce now req d slot expense Hs He Hme. split; [|split].
  - intros Hst. split.
    + eapply approve_already_decided; eauto.
    + intros. eapply reject_already_decided; eauto.
  - intros Hst Hex. split.
    + eapply approve_already_terminated; eauto.
    + intros. eapply reject_already_terminated; eauto.
  - apply reject_without_comment.
Qed.

(** The second scenario: after the manager's approval, Finance rejects with
    the comment "missing receipt". *)
Lemma reject_cascades_witness :
  Forall2 (rejection 1002 1000 "missing receipt" 10)
          (approvals Scenario.afterManager)
          (approvals (rejectExpense 10
                        (Scenario.decision Scenario.Finance 1002 (Some "missing receipt"))
                        Scenario.afterManager).2)
  /\ exists e',
       find_expense (rejectExpense 10
                       (Scenario.decision Scenario.Finance 1002 (Some "missing receipt"))
                       Scenario.afterManager).2 1000 = Some e'
       /\ e_status e' = rejected.
Proof.
  apply (reject_cascades 10
           (Scenario.decision Scenario.Finance 1002 (Some "missing receipt"))
           Scenario.afterManager
           (Scenario.slot Scenario.afterManager 1002)
           (Scenario.expenseRow Scenario.afterManager 1000)
           "missing receipt");
    vm_compute; reflexivity.
Defined.

(** The same rejection with a comment of one space, by the assigned
    approver of a pending slot of a pending expense: the comment is not
    empty, and the rejection is refused for the missing comment.  So it
    is with a comment of one no-break space.  With a comment that holds
    the character U+0000 the update raises, and nothing is written. *)
Lemma reject_blank_comment_refused :
  String.length " " = 1%nat
  /\ a_status (Scenario.slot Scenario.afterManager 1002) = pending
  /\ a_approver_id (Scenario.slot Scenario.afterManager 1002)
     = p_id (Scenario.as_principal Scenario.Finance)
  /\ e_status (Scenario.expenseRow Scenario.afterManager 1000) = pending
  /\ rejectExpense 10 (Scenario.decision Scenario.Finance 1002 (Some " "))
       Scenario.afterManager
     = (comments_required, Scenario.afterManager)
  /\ rejectExpense 10 (Scenario.decision Scenario.Finance 1002 (Some Scenario.nbsp))
       Scenario.afterManager
     = (comments_required, Scenario.afterManager)
  /\ rejectExpense 10
       (Scenario.decision Scenario.Finance 1002 (Some ("receipt" +:+ Scenario.nul)))
       Scenario.afterManager
     = (error_response 500 "Failed to reject expense" (Some invalid_byte_sequence),
        Scenario.afterManager).
Proof. repeat split; vm_compute; reflexivity. Qed.

(** The slots of the second scenario after the rejection. *)
Example cascade_rejection_scenario :
  map (fun s => (a_sequence s, a_status s, a_comments s))
      (approvals Scenario.afterRejection)
  = [(1, approved, None);
     (2, rejected, Some "missing receipt");
     (3, rejected, Some "Rejected due to prior rejection in approval chain")]
  /\ map e_status (expenses Scenario.afterRejection) = [rejected].
Proof. split; vm_compute; reflexivity. Qed.

(** The third scenario: the CEO approves the third slot before the manager
    has decided. *)
Lemma approve_out_of_order_witness :
  exists lowest,
    blocks Scenario.pendingChain (Scenario.slot Scenario.pendingChain 1003) lowest
    /\ (forall s', blocks Scenario.pendingChain (Scenario.slot Scenario.pendingChain 1003) s' ->
                   a_sequence lowest <= a_sequence s')
    /\ approveExpense Runtime.coerce 10 (Scenario.decision Scenario.CEO 1003 None)
         Scenario.pendingChain
       = (out_of_order (a_sequence lowest), Scenario.pendingChain).
Proof.
  apply (approve_out_of_order_refused Runtime.coerce 10
           (Scenario.decision Scenario.CEO 1003 None) Scenario.pendingChain
           (Scenario.slot Scenario.pendingChain 1003)
           (Scenario.expenseRow Scenario.pendingChain 1000)
           (Scenario.slot Scenario.pendingChain 1001));
    try (vm_compute; reflexivity).
  vm_compute. repeat split; first [reflexivity | discriminate | auto].
Defined.

Example out_of_order_scenario :
  approveExpense Runtime.coerce 10 (Scenario.decision Scenario.CEO 1003 None)
    Scenario.pendingChain
  = (error_response 400 "Sequential approval violation"
       (Some "Approval sequence 1 must be approved first"),
     Scenario.pendingChain).
Proof. vm_compute. reflexivity. Qed.

(** Approvals of a slot behind one that is not approved, which are refused
    for another reason: by a user who is not the assigned approver; of a
    slot that the cascade has rejected; of a pending slot of an expense
    that a rule has approved. *)
Lemma approve_blocked_other_refusals :
  (blocks Scenario.pendingChain (Scenario.slot Scenario.pendingChain 1003)
          (Scenario.slot Scenario.pendingChain 1001)
   /\ approveExpense Runtime.coerce 10 (Scenario.decision Scenario.Finance 1003 None)
        Scenario.pendingChain
      = (not_assigned, Scenario.pendingChain))
  /\ (blocks Scenario.afterRejection (Scenario.slot Scenario.afterRejection 1003)
             (Scenario.slot Scenario.afterRejection 1002)
      /\ approveExpense Runtime.coerce 11 (Scenario.decision Scenario.CEO 1003 None)
           Scenario.afterRejection
         = (already_decided (Scenario.slot Scenario.afterRejection 1003),
            Scenario.afterRejection))
  /\ (blocks Scenario.halfApproved (Scenario.slot Scenario.halfApproved 1004)
             (Scenario.slot Scenario.halfApproved 1003)
      /\ approveExpense Runtime.coerce 12 (Scenario.decision Scenario.Director 1004 None)
           Scenario.halfApproved
         = (already_terminated (Scenario.expenseRow Scenario.halfApproved 1000),
            Scenario.halfApproved)).
Proof.
  split; [|split]; (split; [vm_compute; intuition congruence|vm_compute; reflexivity]).
Qed.

(** The manager posts the approval of the first slot a second time. *)
Lemma decided_slot_refused_witness :
  approveExpense Runtime.coerce 11 (Scenario.decision Scenario.M 1001 None)
    Scenario.afterManager
  = (already_decided (Scenario.slot Scenario.afterManager 1001), Scenario.afterManager).
Proof.
  apply (decided_slot_refused Runtime.coerce 11
           (Scenario.decision Scenario.M 1001 None) Scenario.afterManager
           (Scenario.slot Scenario.afterManager 1001)
           (Scenario.expenseRow Scenario.afterManager 1000));
    by_running.
Defined.

Example repeated_approval_scenario :
  approveExpense Runtime.coerce 11 (Scenario.decision Scenario.M 1001 (Some "ok"))
    Scenario.afterManager
  = (error_response 400 "Invalid approval status"
       (Some "This approval is already approved"),
     Scenario.afterManager).
Proof. vm_compute. reflexivity. Qed.

(** The manager rejects the slot that the manager has approved, without a
    comment, and then with a comment of one no-break space: the refusal
    is for the missing comment. *)
Lemma reject_decided_without_comment :
  a_status (Scenario.slot Scenario.afterManager 1001) = approved
  /\ a_approver_id (Scenario.slot Scenario.afterManager 1001) = p_id (Scenario.as_principal Scenario.M)
  /\ rejectExpense 11 (Scenario.decision Scenario.M 1001 None) Scenario.afterManager
     = (comments_required, Scenario.afterManager)
  /\ rejectExpense 11 (Scenario.decision Scenario.M 1001 (Some Scenario.nbsp))
       Scenario.afterManager
     = (comments_required, Scenario.afterManager)
  /\ comments_required <> already_decided (Scenario.slot Scenario.afterManager 1001).
Proof. repeat split; by_running. Qed.

(** ** The rule evaluator *)

(** The loop on a table with a rule of type [percentage], which the
    schema does not admit: with the field that the engine reads, a chain
    of four ends at the threshold, half of the slots approved, the expense
    approved, the other slots pending. *)
Example required_percentage_scenario :
  map (fun s => (a_sequence s, a_status s)) (approvals_of Scenario.halfApproved 1000)
  = [(1, approved); (2, approved); (3, pending); (4, pending)]
  /\ map e_status (expenses Scenario.halfApproved) = [approved].
Proof. split; by_running. Qed.

(** ** The approver roster *)

Lemma same_id_same_row {A : Type} (id_of : A -> uuid) (rows : list A) (r r' : A) :
  List.NoDup (map id_of rows) -> In r rows -> In r' rows -> id_of r = id_of r' -> r = r'.
Proof.
  induction rows as [|x rows IH]; simpl; [tauto|].
  intros Hnd Hr Hr' Hid. apply List.NoDup_cons_iff in Hnd as [Hx Hnd].
  destruct Hr as [->|Hr], Hr' as [->|Hr']; auto.
  - exfalso. apply Hx. rewrite Hid. apply in_map. exact Hr'.
  - exfalso. apply Hx. rewrite <- Hid. apply in_map. exact Hr.
Qed.

Lemma with_sequence_same (r : approver) : with_sequence r (ap_sequence r) = r.
Proof. destruct r. reflexivity. Qed.

Lemma conflictResult_In d companyId sequence id r :
  In r (conflictResult d companyId sequence id)
  <-> In r (approvers d) /\ occupies companyId sequence id r.
Proof.
  unfold conflictResult, occupies.
  rewrite filter_In, !andb_true_iff, negb_true_iff, N.eqb_eq, N.eqb_neq, Z.eqb_eq. tauto.
Qed.

Lemma approverResult_Some d id companyId a u :
  approverResult d id companyId = Some (a, u) ->
  In a (approvers d) /\ ap_id a = id /\ ap_company_id a = companyId.
Proof.
  unfold approverResult.
  destruct (find _ (approvers d)) as [a'|] eqn:Hfind; [|discriminate].
  destruct (find_user d (ap_user_id a')); [|discriminate].
  intros [= -> ->]. apply find_some in Hfind as [Hin Hb].
  apply andb_true_iff in Hb as [Hb1 Hb2].
  apply N.eqb_eq in Hb1. apply N.eqb_eq in Hb2. auto.
Qed.

Lemma existsb_false {A : Type} (f : A -> bool) (l : list A) :
  existsb f l = false <-> forall x, In x l -> f x = false.
Proof.
  induction l as [|y l IH]; simpl; [tauto|].
  rewrite orb_false_iff, IH. split.
  - intros [Hy Hl] x [<-|Hx]; auto.
  - intros H. split; [apply H; auto|intros x Hx; apply H; auto].
Qed.

Lemma set_sequence_identity sequence id r :
  ap_id (set_sequence sequence id r) = ap_id r
  /\ ap_company_id (set_sequence sequence id r) = ap_company_id r
  /\ ap_role_name (set_sequence sequence id r) = ap_role_name r
  /\ ap_is_active (set_sequence sequence id r) = ap_is_active r
  /\ ap_user_id (set_sequence sequence id r) = ap_user_id r.
Proof. unfold set_sequence. destruct (N.eqb (ap_id r) id); repeat split; reflexivity. Qed.

(** A response other than 200 leaves the database as it was. *)
Lemma updateApproverSequence_all_or_nothing violation out_of_range req d :
  http_status (updateApproverSequence violation out_of_range req d).1 <> 200 ->
  (updateApproverSequence violation out_of_range req d).2 = d.
Proof.
  unfold updateApproverSequence.
  destruct (sq_newSequence req) as [[n|]|]; try reflexivity.
  destruct (n <? 1); [reflexivity|].
  destruct (approverResult d _ _) as [[a u]|]; [|reflexivity].
  destruct (ap_sequence a =? n); [reflexivity|].
  destruct (integer_max <? n); [reflexivity|].
  destruct (conflictResult d _ _ _) as [|h rest].
  - destruct (sequence_taken _ _ _); [reflexivity|]. simpl. intros H. congruence.
  - destruct (sequence_taken d h _); [reflexivity|].
    destruct (find_user _ _); [|reflexivity].
    destruct (sequence_taken _ _ _); [reflexivity|]. simpl. intros H. congruence.
Qed.

Section SequenceSwap.

Variable violation : string -> string.
Variable out_of_range : Z -> string.
Variables (req : sequence_request) (d : db).
Variables (sequenceNum : Z) (row occupant : approver) (rowUser : user).
Variable others : list approver.

Local Abbreviation companyId := (p_company_id (sq_user req)).
Local Abbreviation update := (updateApproverSequence violation out_of_range).

Hypothesis requested : sq_newSequence req = Some (Some sequenceNum).
Hypothesis positive : 1 <= sequenceNum.
Hypothesis primary_key : List.NoDup (map ap_id (approvers d)).
Hypothesis foreign_key : approvers_have_users d.
Hypothesis row_found : approverResult d (sq_id req) companyId = Some (row, rowUser).
Hypothesis first_conflict :
  conflictResult d companyId sequenceNum (sq_id req) = occupant :: others.

Lemma occupant_occupies :
  In occupant (approvers d) /\ occupies companyId sequenceNum (sq_id req) occupant.
Proof.
  apply conflictResult_In. rewrite first_conflict. left. reflexivity.
Qed.

Lemma swap_rows (r : approver) :
  In r (approvers d) ->
  ap_sequence row <> sequenceNum ->
  exchanged (sq_id req) (ap_id occupant) sequenceNum (ap_sequence row) r
    (set_sequence sequenceNum (sq_id req)
       (set_sequence (ap_sequence row) (ap_id occupant) r)).
Proof.
  intros Hin Hmove. destruct occupant_occupies as (_ & _ & _ & Hne & _).
  unfold exchanged, set_sequence.
  destruct (N.eqb_spec (ap_id r) (ap_id occupant)) as [Ho|Ho]; simpl.
  - rewrite Ho. apply N.eqb_neq in Hne as Hne'. rewrite Hne'.
    repeat split; auto; intros; congruence.
  - destruct (N.eqb_spec (ap_id r) (sq_id req)) as [Hi|Hi];
      repeat split; auto; intros; congruence.
Qed.

Lemma unchanged_rows (r : approver) :
  In r (approvers d) ->
  ap_sequence row = sequenceNum ->
  exchanged (sq_id req) (ap_id occupant) sequenceNum (ap_sequence row) r r.
Proof.
  intros Hin Hsame.
  destruct (approverResult_Some _ _ _ _ _ row_found) as (Hrow & Hid & _).
  destruct occupant_occupies as (Hocc & _ & Hseq & _ & _).
  unfold exchanged. repeat split; auto.
  - intros Hr. rewrite (same_id_same_row ap_id (approvers d) r row); auto; [|congruence].
    rewrite <- Hsame. symmetry. apply with_sequence_same.
  - intros Hr. rewrite (same_id_same_row ap_id (approvers d) r occupant); auto.
    rewrite Hsame, <- Hseq. symmetry. apply with_sequence_same.
Qed.

(** The first update, of the occupant, is refused when the two rows have
    the same role name: the row that moves still holds its sequence. *)
Lemma first_update_refused :
  ap_role_name occupant = ap_role_name row ->
  sequence_taken d occupant (ap_sequence row) = true.
Proof.
  intros Hrole.
  destruct (approverResult_Some _ _ _ _ _ row_found) as (Hrow & Hid & Hcompany).
  destruct occupant_occupies as (_ & Hoc & _ & Hne & _).
  unfold sequence_taken. apply existsb_exists. exists row. split; [exact Hrow|].
  rewrite Hid, Hcompany, Hoc, Hrole, N.eqb_refl, String.eqb_refl, Z.eqb_refl.
  apply N.eqb_neq in Hne. rewrite N.eqb_sym, Hne. reflexivity.
Qed.

Lemma swap_refused :
  ap_role_name occupant = ap_role_name row ->
  ap_sequence row <> sequenceNum ->
  http_status (update req d).1 = 500 /\ (update req d).2 = d.
Proof.
  intros Hrole Hmove. unfold updateApproverSequence. rewrite requested.
  replace (sequenceNum <? 1) with false by (symmetry; apply Z.ltb_ge; lia).
  rewrite row_found. apply Z.eqb_neq in Hmove. rewrite Hmove.
  destruct (integer_max <? sequenceNum); [split; reflexivity|].
  rewrite first_conflict, (first_update_refused Hrole). split; reflexivity.
Qed.

Hypothesis in_range : sequenceNum <= integer_max.
Hypothesis roles_differ : ap_role_name occupant <> ap_role_name row.
Hypothesis vacated_free :
  seat_free d companyId (sq_id req) (ap_id occupant) (ap_role_name occupant) (ap_sequence row).
Hypothesis target_free :
  seat_free d companyId (sq_id req) (ap_id occupant) (ap_role_name row) sequenceNum.

Lemma first_update_passes : sequence_taken d occupant (ap_sequence row) = false.
Proof.
  destruct (approverResult_Some _ _ _ _ _ row_found) as (Hrow & Hid & Hcompany).
  destruct occupant_occupies as (_ & Hoc & _ & _).
  unfold sequence_taken. apply existsb_false. intros r Hr.
  destruct (N.eqb_spec (ap_id r) (ap_id occupant)) as [Ho|Ho]; [reflexivity|]. simpl.
  destruct (N.eqb_spec (ap_company_id r) (ap_company_id occupant)) as [Hc|Hc];
    [|reflexivity]. simpl.
  destruct (String.eqb_spec (ap_role_name r) (ap_role_name occupant)) as [Hn|Hn];
    [|reflexivity]. simpl.
  apply Z.eqb_neq.
  destruct (N.eq_dec (ap_id r) (sq_id req)) as [Hi|Hi].
  - assert (r = row) by (apply (same_id_same_row ap_id (approvers d)); auto; congruence).
    subst r. contradiction roles_differ. auto.
  - apply (vacated_free r); auto. congruence.
Qed.

Lemma second_update_passes :
  ap_sequence row <> sequenceNum ->
  sequence_taken
    (with_approvers d (map (set_sequence (ap_sequence row) (ap_id occupant)) (approvers d)))
    row sequenceNum = false.
Proof.
  intros Hmove.
  destruct (approverResult_Some _ _ _ _ _ row_found) as (Hrow & Hid & Hcompany).
  unfold sequence_taken. apply existsb_false. cbn [approvers with_approvers].
  intros r' Hr'. apply in_map_iff in Hr' as (r & <- & Hr).
  destruct (set_sequence_identity (ap_sequence row) (ap_id occupant) r)
    as (-> & -> & -> & _).
  destruct (N.eqb_spec (ap_id r) (ap_id row)) as [Hi|Hi]; [reflexivity|]. simpl.
  destruct (N.eqb_spec (ap_company_id r) (ap_company_id row)) as [Hc|Hc];
    [|reflexivity]. simpl.
  destruct (String.eqb_spec (ap_role_name r) (ap_role_name row)) as [Hn|Hn];
    [|reflexivity]. simpl.
  apply Z.eqb_neq. unfold set_sequence.
  destruct (N.eqb_spec (ap_id r) (ap_id occupant)) as [Ho|Ho]; [exact Hmove|].
  apply (target_free r); auto; congruence.
Qed.

Lemma swap_applied :
  let d' := (update req d).2 in
  Forall2 (exchanged (sq_id req) (ap_id occupant) sequenceNum (ap_sequence row))
          (approvers d) (approvers d')
  /\ http_status (update req d).1 = 200
  /\ users d' = users d /\ companies d' = companies d.
Proof.
  unfold updateApproverSequence. rewrite requested.
  replace (sequenceNum <? 1) with false by (symmetry; apply Z.ltb_ge; lia).
  rewrite row_found.
  destruct (Z.eqb_spec (ap_sequence row) sequenceNum) as [Hsame|Hmove]; simpl.
  - repeat split; auto.
    rewrite <- (map_id (approvers d)) at 2.
    apply Forall2_map_self. intros r Hr. apply unchanged_rows; assumption.
  - replace (integer_max <? sequenceNum) with false by (symmetry; apply Z.ltb_ge; lia).
    rewrite first_conflict, first_update_passes.
    destruct (foreign_key occupant (proj1 occupant_occupies)) as [conflictUser Hu].
    unfold find_user in *. cbn [users with_approvers]. rewrite Hu.
    rewrite (second_update_passes Hmove). simpl. repeat split; auto.
    rewrite map_map. apply Forall2_map_self. intros r Hr.
    apply swap_rows; assumption.
Qed.

End SequenceSwap.

(** C9.  When the new sequence of an approver row is held by another
    active row of the company, the update exchanges the sequences of the
    two rows, in the one transaction, if the constraint
    [UNIQUE(company_id, role_name, sequence)] lets the two updates
    through: the two rows have different role names, and no third row of
    the company, active or not, has the role name of the one at the
    sequence that it takes.  When the two rows have the same role name,
    the first update, which gives the occupant the sequence that the
    moving row still holds, violates the constraint: the answer is 500
    and nothing is written.  Should several rows hold the new sequence,
    the occupant is the first that the conflict query returns.  A request
    that does not end with status 200 changes nothing.  From Alice at 1,
    Bob at 2 and Carol at 3 with the role names A, B and C, moving Carol
    to 2 leaves Alice at 1, Carol at 2 and Bob at 3; with the one role
    name Approver, it is answered with 500. *)
Theorem sequence_collision_swaps :
  (forall violation out_of_range req d sequenceNum row rowUser other,
     sq_newSequence req = Some (Some sequenceNum) ->
     1 <= sequenceNum ->
     List.NoDup (map ap_id (approvers d)) ->
     approvers_have_users d ->
     approverResult d (sq_id req) (p_company_id (sq_user req)) = Some (row, rowUser) ->
     In other (approvers d) ->
     occupies (p_company_id (sq_user req)) sequenceNum (sq_id req) other ->
     let run := updateApproverSequence violation out_of_range req d in
     exists occupant,
       In occupant (approvers d)
       /\ occupies (p_company_id (sq_user req)) sequenceNum (sq_id req) occupant
       /\ head (conflictResult d (p_company_id (sq_user req)) sequenceNum (sq_id req))
          = Some occupant
       /\ (sequenceNum <= integer_max ->
           ap_role_name occupant <> ap_role_name row ->
           seat_free d (p_company_id (sq_user req)) (sq_id req) (ap_id occupant)
             (ap_role_name occupant) (ap_sequence row) ->
           seat_free d (p_company_id (sq_user req)) (sq_id req) (ap_id occupant)
             (ap_role_name row) sequenceNum ->
           Forall2 (exchanged (sq_id req) (ap_id occupant) sequenceNum (ap_sequence row))
                   (approvers d) (approvers run.2)
           /\ http_status run.1 = 200)
       /\ (ap_role_name occupant = ap_role_name row ->
           ap_sequence row <> sequenceNum ->
           http_status run.1 = 500 /\ run.2 = d))
  /\ (forall violation out_of_range req d,
        http_status (updateApproverSequence violation out_of_range req d).1 <> 200 ->
        (updateApproverSequence violation out_of_range req d).2 = d)
  /\ map (fun r => (ap_user_id r, ap_sequence r))
         (approvers (Sample.move (Sample.moves 33 2) Scenario.abc).2)
     = [(u_id Scenario.Alice, 1); (u_id Scenario.Bob, 3); (u_id Scenario.Carol, 2)]
  /\ (map (fun r => (ap_user_id r, ap_role_name r, ap_sequence r, ap_is_active r))
          (approvers Sample.sameRole)
      = [(u_id Scenario.Alice, "Approver", 1, true);
         (u_id Scenario.Bob, "Approver", 2, true);
         (u_id Scenario.Carol, "Approver", 3, true)]
      /\ Sample.move (Sample.moves 33 2) Sample.sameRole
         = (error_response 500 "Failed to update approver sequence"
              (Some (Sample.duplicate_key approvers_key_name)),
            Sample.sameRole)).
Proof.
  split; [|split; [|split]].
  - intros violation out_of_range req d sequenceNum row rowUser other
           H1 H2 H3 H4 H5 H6 H7 run.
    destruct (conflictResult d (p_company_id (sq_user req)) sequenceNum (sq_id req))
      as [|occupant others] eqn:Hq.
    { assert (H : In other (conflictResult d (p_company_id (sq_user req)) sequenceNum
                              (sq_id req))) by (apply conflictResult_In; auto).
      rewrite Hq in H. destruct H. }
    exists occupant.
    destruct (occupant_occupies req d sequenceNum occupant others Hq) as [Hin Hocc].
    split; [exact Hin|]. split; [exact Hocc|]. split; [reflexivity|]. split.
    + intros Hrange Hroles Hfree1 Hfree2.
      destruct (swap_applied violation out_of_range req d sequenceNum row occupant rowUser
                  others H1 H2 H3 H4 H5 Hq Hrange Hroles Hfree1 Hfree2)
        as (Hrows & Hok & _).
      auto.
    + intros Hrole Hmove.
      apply (swap_refused violation out_of_range req d sequenceNum row occupant rowUser
               others H1 H2 H5 Hq Hrole Hmove).
  - apply updateApproverSequence_all_or_nothing.
  - vm_compute. reflexivity.
  - split; vm_compute; reflexivity.
Qed.

(** The sixth scenario on a roster with one role name: Carol, at 3, is
    moved to 2, which Bob holds. *)
Lemma sequence_collision_swaps_witness :
  let d := Sample.sameRole in
  let req := Sample.moves 33 2 in
  let row := Scenario.seat 33 23 "Approver" 3 in
  let run := Sample.move req d in
  exists occupant,
    In occupant (approvers d)
    /\ occupies (p_company_id (sq_user req)) 2 (sq_id req) occupant
    /\ head (conflictResult d (p_company_id (sq_user req)) 2 (sq_id req)) = Some occupant
    /\ (2 <= integer_max ->
        ap_role_name occupant <> ap_role_name row ->
        seat_free d (p_company_id (sq_user req)) (sq_id req) (ap_id occupant)
          (ap_role_name occupant) (ap_sequence row) ->
        seat_free d (p_company_id (sq_user req)) (sq_id req) (ap_id occupant)
          (ap_role_name row) 2 ->
        Forall2 (exchanged (sq_id req) (ap_id occupant) 2 (ap_sequence row))
                (approvers d) (approvers run.2)
        /\ http_status run.1 = 200)
    /\ (ap_role_name occupant = ap_role_name row ->
        ap_sequence row <> 2 ->
        http_status run.1 = 500 /\ run.2 = d).
Proof.
  apply (proj1 sequence_collision_swaps Sample.duplicate_key Sample.out_of_range
           (Sample.moves 33 2) Sample.sameRole 2
           (Scenario.seat 33 23 "Approver" 3) Scenario.Carol
           (Scenario.seat 32 22 "Approver" 2)).
  - reflexivity.
  - lia.
  - vm_compute. repeat constructor; simpl; intuition discriminate.
  - intros r Hr. vm_compute in Hr.
    destruct Hr as [<-|[<-|[<-|[]]]]; vm_compute; eauto.
  - vm_compute. reflexivity.
  - vm_compute. auto.
  - vm_compute. repeat split; congruence.
Defined.

(** ** The chain builder *)

Lemma roster_sorted d companyId :
  StronglySorted (ascending ap_sequence) (roster d companyId).
Proof. apply order_by_sorted. Qed.

Lemma roster_rows d companyId a :
  In a (roster d companyId)
  <-> In a (approvers d) /\ ap_company_id a = companyId /\ ap_is_active a = true.
Proof.
  unfold roster, active_in.
  rewrite order_by_In, filter_In, andb_true_iff, N.eqb_eq. tauto.
Qed.

Lemma roster_perm d companyId :
  Permutation (roster d companyId) (List.filter (active_in companyId) (approvers d)).
Proof. apply order_by_perm. Qed.

(** Under the foreign key, the join with [users] loses no approver row. *)
Lemma additionalApprovers_roster d companyId :
  approvers_have_users d ->
  map fst (additionalApprovers d companyId) = roster d companyId.
Proof.
  intros Hfk. unfold additionalApprovers, roster.
  rewrite <- (order_by_map (fun row : approver * user => ap_sequence (fst row))
                ap_sequence fst) by reflexivity.
  f_equal. unfold approvers_have_users in Hfk.
  induction (approvers d) as [|a rows IH]; simpl; [reflexivity|].
  rewrite map_app, IH by (intros r Hr; apply Hfk; right; exact Hr).
  fold (active_in companyId a). destruct (active_in companyId a); [|reflexivity].
  destruct (Hfk a (or_introl eq_refl)) as [u ->]. reflexivity.
Qed.

(** Without an active row for the company, the query returns nothing. *)
Lemma additionalApprovers_none d companyId :
  (forall a, In a (approvers d) -> ap_company_id a = companyId -> ap_is_active a = false) ->
  additionalApprovers d companyId = [].
Proof.
  intros Hnone. unfold additionalApprovers.
  replace (flat_map _ (approvers d)) with (@nil (approver * user)); [reflexivity|].
  symmetry. induction (approvers d) as [|a rows IH]; simpl; [reflexivity|].
  rewrite IH by (intros r Hr; apply Hnone; right; exact Hr).
  destruct (N.eqb_spec (ap_company_id a) companyId) as [Hc|Hc]; simpl; [|reflexivity].
  rewrite (Hnone a (or_introl eq_refl) Hc). reflexivity.
Qed.

Section AddApprovers.

Variables (expense_id : uuid) (managerId : option uuid) (now : Z).

Local Abbreviation other_than_manager :=
  (fun a : approver =>
     negb match managerId with Some m => N.eqb (ap_user_id a) m | None => false end).

Lemma add_approvers_users rows sequence next :
  map (fun entry : chain_entry => a_approver_id (fst entry))
      (add_approvers expense_id managerId now rows sequence next)
  = map ap_user_id (List.filter other_than_manager (map fst rows)).
Proof.
  revert sequence next. induction rows as [|[a u] rows IH]; intros; simpl; [reflexivity|].
  destruct (match managerId with Some m => N.eqb (ap_user_id a) m | None => false end);
    simpl; rewrite IH; reflexivity.
Qed.

Lemma add_approvers_sequences rows sequence next :
  map (fun entry : chain_entry => a_sequence (fst entry))
      (add_approvers expense_id managerId now rows sequence next)
  = seqZ sequence
      (Z.of_nat (length (add_approvers expense_id managerId now rows sequence next))).
Proof.
  revert sequence next. induction rows as [|[a u] rows IH]; intros; simpl; [reflexivity|].
  destruct (match managerId with Some m => N.eqb (ap_user_id a) m | None => false end);
    [apply IH|].
  cbn [map length fst a_sequence new_approval].
  rewrite seqZ_cons by lia. f_equal.
  rewrite IH. f_equal. lia.
Qed.

Lemma add_approvers_pending rows sequence next :
  Forall (fun entry : chain_entry =>
            a_expense_id (fst entry) = expense_id /\ a_status (fst entry) = pending)
         (add_approvers expense_id managerId now rows sequence next).
Proof.
  revert sequence next. induction rows as [|[a u] rows IH]; intros; simpl; [constructor|].
  destruct (match managerId with Some m => N.eqb (ap_user_id a) m | None => false end);
    [apply IH|].
  constructor; [split; reflexivity|apply IH].
Qed.

End AddApprovers.

(** The chain of a new expense. *)
Lemma build_chain_spec d userId companyId expense_id now approvalChain :
  approvers_have_users d ->
  build_chain d companyId expense_id (manager_of d userId) now = Some approvalChain ->
  map a_approver_id (map fst approvalChain)
  = chain_approvers (manager_of d userId) (roster d companyId)
  /\ map a_sequence (map fst approvalChain)
     = seqZ 1 (Z.of_nat (length (map fst approvalChain)))
  /\ Forall (fun s => a_expense_id s = expense_id /\ a_status s = pending)
            (map fst approvalChain).
Proof.
  intros Hfk. unfold build_chain, chain_approvers.
  rewrite !map_map, length_map, Forall_map.
  destruct (manager_of d userId) as [m|].
  - destruct (find_user d m) as [mu|]; [|discriminate].
    intros [= <-]. cbn [map length fst a_approver_id a_sequence new_approval].
    rewrite add_approvers_users, add_approvers_sequences,
      (additionalApprovers_roster d companyId Hfk).
    split; [|split].
    + reflexivity.
    + rewrite (seqZ_cons 1) by lia. rewrite Nat2Z.inj_succ, Z.pred_succ. reflexivity.
    + constructor; [split; reflexivity|apply add_approvers_pending].
  - intros [= <-].
    rewrite add_approvers_users, add_approvers_sequences,
      (additionalApprovers_roster d companyId Hfk).
    split; [|split].
    + f_equal. induction (roster d companyId) as [|a l IH]; simpl; f_equal; exact IH.
    + reflexivity.
    + apply add_approvers_pending.
Qed.

(** What the table holds of a row that it has accepted. *)
Lemma insert_expense_Some decimal_10_2 date_column d values e :
  insert_expense decimal_10_2 date_column d values = Some e ->
  is_Some (find_user d (e_user_id values))
  /\ e_id e = e_id values /\ e_user_id e = e_user_id values
  /\ e_company_id e = e_company_id values /\ e_status e = e_status values
  /\ e_created_at e = e_created_at values /\ e_updated_at e = e_updated_at values
  /\ decimal_10_2 (e_amount values) = Some (e_amount e)
  /\ decimal_10_2 (e_original_amount values) = Some (e_original_amount e)
  /\ varchar 3 (e_original_currency values) = Some (e_original_currency e)
  /\ varchar 100 (e_category values) = Some (e_category e)
  /\ nullable text (e_description values) = Some (e_description e)
  /\ date_column (e_date values) = Some (e_date e)
  /\ nullable (varchar 500) (e_receipt_url values) = Some (e_receipt_url e).
Proof.
  unfold insert_expense. intros H.
  destruct (find_user d _); [|discriminate].
  destruct (decimal_10_2 (e_amount values)); [|discriminate].
  destruct (decimal_10_2 (e_original_amount values)); [|discriminate].
  destruct (varchar 3 _); [|discriminate].
  destruct (varchar 100 _); [|discriminate].
  destruct (nullable text _); [|discriminate].
  destruct (date_column _); [|discriminate].
  destruct (nullable (varchar 500) _); [|discriminate].
  injection H as <-. simpl. repeat split; eauto.
Qed.

Section ChainOfSubmission.

Variable toFixed2 : float -> float.
Variable parseFloat : string -> float.
Variable parseDate : string -> option Z.
Variable decimal_10_2 : float -> option float.
Variable date_column : Z -> option Z.
Variable expense_error : expense -> string.

Local Abbreviation submit := (submitExpense toFixed2 parseFloat parseDate decimal_10_2 date_column
     expense_error).

(** What a submission that answers 201 has written. *)
Lemma submitExpense_created w now req d cache resp d' cache' log :
  submit w now req d cache = (resp, d', cache', log) ->
  http_status resp = 201 ->
  exists approvalChain e,
    build_chain d (p_company_id (sr_user req)) (next_uuid d)
      (manager_of d (p_id (sr_user req))) now = Some approvalChain
    /\ expenses d' = (expenses d ++ [e])%list
    /\ e_id e = next_uuid d
    /\ approvals d' = (approvals d ++ map fst approvalChain)%list.
Proof.
  unfold submitExpense, manager_of. intros Hrun H201.
  destruct (missing (sr_amount req) || missing (sr_currency req)
            || missing (sr_category req) || missing (sr_date req));
    [injection Hrun as <- _ _ _; discriminate H201|].
  destruct (is_nan _ || PrimFloat.leb _ 0);
    [injection Hrun as <- _ _ _; discriminate H201|].
  destruct (parseDate _) as [expenseDate|];
    [|injection Hrun as <- _ _ _; discriminate H201].
  destruct (find_company d _) as [c|];
    [|injection Hrun as <- _ _ _; discriminate H201].
  destruct (convertCurrency _ _ _ _ _ _) as [[[convertedAmount|message] cache1] log1];
    [|injection Hrun as <- _ _ _; discriminate H201].
  destruct (insert_expense _ _ _ _) as [stored|] eqn:Hstored;
    [|injection Hrun as <- _ _ _; discriminate H201].
  apply insert_expense_Some in Hstored as (_ & Hid & _). cbn [e_id] in Hid.
  rewrite Hid in Hrun.
  destruct (build_chain _ _ _ _ _) as [approvalChain|] eqn:Hchain;
    [|injection Hrun as <- _ _ _; discriminate H201].
  destruct (find_user _ _) as [submitter|] in Hrun;
    [|injection Hrun as <- _ _ _; discriminate H201].
  injection Hrun as _ <- _ _. cbn [expenses approvals].
  eexists _, _. split; [reflexivity|]. split; [reflexivity|]. split; [|reflexivity].
  destruct (_ && _); [|exact Hid].
  unfold set_expense_status. rewrite Hid, N.eqb_refl. reflexivity.
Qed.

(** What a submission writes and answers when the database accepts the
    row of the expense, the submitter has no manager and the company no
    active approver. *)
Lemma submitExpense_empty_chain w now req d cache c submitter expenseDate convertedAmount
    stored cache' log :
  converting parseFloat parseDate req d c ->
  parseDate (default "" (sr_date req)) = Some expenseDate ->
  requested_conversion toFixed2 parseFloat w req c cache = (Ok convertedAmount, cache', log) ->
  insert_expense decimal_10_2 date_column d
    (submitted_row parseFloat now req d expenseDate convertedAmount) = Some stored ->
  find_user d (p_id (sr_user req)) = Some submitter ->
  u_manager_id submitter = None ->
  (forall a, In a (approvers d) -> ap_company_id a = p_company_id (sr_user req) ->
             ap_is_active a = false) ->
  exists e,
    expenses (submit w now req d cache).1.1.2 = (expenses d ++ [e])%list
    /\ e_id e = next_uuid d
    /\ e_status e
       = (if String.eqb (p_role (sr_user req)) "admin" then approved else pending)
    /\ approvals (submit w now req d cache).1.1.2 = approvals d
    /\ (submit w now req d cache).1.1.1
       = {| http_status := 201;
            body := json_submitted e (c_currency c) submitter [] |}.
Proof.
  unfold converting, requested_conversion, submitExpense.
  intros (-> & -> & _ & ->) -> -> Hstored Hsub Hmgr Hnone.
  unfold submitted_row in Hstored. rewrite Hstored.
  apply insert_expense_Some in Hstored as (_ & Hid & _ & _ & Hstatus & _).
  cbn [e_id e_status] in Hid, Hstatus.
  unfold build_chain. rewrite Hsub. cbn [mbind option_bind]. rewrite Hmgr.
  rewrite (additionalApprovers_none d _ Hnone).
  cbn [add_approvers map length app andb].
  unfold find_user in *. cbn [users]. rewrite Hsub.
  cbn [fst snd expenses approvals].
  eexists. split; [reflexivity|].
  destruct (String.eqb (p_role (sr_user req)) "admin").
  - unfold set_expense_status. rewrite Hid, N.eqb_refl. cbn [e_id e_status].
    rewrite app_nil_r. repeat split; reflexivity.
  - rewrite app_nil_r. repeat split; auto.
Qed.

End ChainOfSubmission.

(** C6.  A submission that is answered with status 201 has appended to
    [approvals] the chain of the new expense, every slot pending: the
    submitter's manager first, at sequence 1, when there is one; then the
    users of the company's active approver rows, in ascending order of
    their configured sequence, the rows of the manager left out; and the
    sequences of the chain are 1, 2, ..., N.  The foreign key of the
    approver rows is assumed. *)
Theorem chain_is_manager_then_roster :
  forall toFixed2 parseFloat parseDate decimal_10_2 date_column expense_error
         w now req d cache resp d' cache' log,
    submitExpense toFixed2 parseFloat parseDate decimal_10_2 date_column expense_error
      w now req d cache = (resp, d', cache', log) ->
    http_status resp = 201 ->
    approvers_have_users d ->
    exists chain sorted,
      approvals d' = (approvals d ++ chain)%list
      /\ Permutation sorted
           (List.filter (active_in (p_company_id (sr_user req))) (approvers d))
      /\ StronglySorted (ascending ap_sequence) sorted
      /\ map a_approver_id chain
         = chain_approvers (manager_of d (p_id (sr_user req))) sorted
      /\ map a_sequence chain = seqZ 1 (Z.of_nat (length chain))
      /\ Forall (fun s => a_expense_id s = next_uuid d /\ a_status s = pending) chain
      /\ (exists e, expenses d' = (expenses d ++ [e])%list /\ e_id e = next_uuid d)
      /\ (forall m, manager_of d (p_id (sr_user req)) = Some m ->
             exists first rest,
               chain = first :: rest /\ a_approver_id first = m /\ a_sequence first = 1).
Proof.
  intros toFixed2 parseFloat parseDate decimal_10_2 date_column expense_error
         w now req d cache resp d' cache' log Hrun H201 Hfk.
  destruct (submitExpense_created _ _ _ _ _ _ _ _ _ _ _ _ _ _ _ Hrun H201)
    as (approvalChain & e & Hchain & Hexp & Hid & Happ).
  destruct (build_chain_spec _ _ _ _ _ _ Hfk Hchain) as (Husers & Hseq & Hpending).
  exists (map fst approvalChain), (roster d (p_company_id (sr_user req))).
  split; [exact Happ|]. split; [apply roster_perm|]. split; [apply roster_sorted|].
  split; [exact Husers|]. split; [exact Hseq|]. split; [exact Hpending|].
  split; [eauto|].
  intros m Hm. unfold chain_approvers in Husers. rewrite Hm in Husers.
  destruct (map fst approvalChain) as [|first rest]; [discriminate|].
  exists first, rest. injection Husers as Hfirst _.
  rewrite (seqZ_cons 1) in Hseq by (simpl; lia). injection Hseq as Hone _. auto.
Qed.

(** C7.  A submission whose row of [expenses] the database accepts, and
    whose submitter has no manager, in a company with no active approver,
    is written with no slot and answered with status 201: the expense
    approved when the caller's role is admin, pending otherwise.  The
    answer carries an empty [approval_chain] and a null [next_approver]; it
    has no field [warning]. *)
Theorem empty_chain_submission :
  forall toFixed2 parseFloat parseDate decimal_10_2 date_column expense_error
         w now req d cache c submitter expenseDate convertedAmount stored cache' log,
    converting parseFloat parseDate req d c ->
    parseDate (default "" (sr_date req)) = Some expenseDate ->
    requested_conversion toFixed2 parseFloat w req c cache = (Ok convertedAmount, cache', log) ->
    insert_expense decimal_10_2 date_column d
      (submitted_row parseFloat now req d expenseDate convertedAmount) = Some stored ->
    find_user d (p_id (sr_user req)) = Some submitter ->
    u_manager_id submitter = None ->
    (forall a, In a (approvers d) -> ap_company_id a = p_company_id (sr_user req) ->
               ap_is_active a = false) ->
    let run :=
      submitExpense toFixed2 parseFloat parseDate decimal_10_2 date_column expense_error
        w now req d cache in
    exists e,
      expenses run.1.1.2 = (expenses d ++ [e])%list
      /\ e_id e = next_uuid d
      /\ e_status e
         = (if String.eqb (p_role (sr_user req)) "admin" then approved else pending)
      /\ approvals run.1.1.2 = approvals d
      /\ http_status run.1.1.1 = 201
      /\ field "approval_chain" (body run.1.1.1) = Some (JArr [])
      /\ field "next_approver" (body run.1.1.1) = Some JNull
      /\ field "warning" (body run.1.1.1) = None.
Proof.
  intros toFixed2 parseFloat parseDate decimal_10_2 date_column expense_error
         w now req d cache c submitter expenseDate convertedAmount stored
         cache' log Hconv Hdate Hrun Hstored Hsub Hmgr Hnone run.
  destruct (submitExpense_empty_chain toFixed2 parseFloat parseDate decimal_10_2 date_column
              expense_error w now req d cache c submitter expenseDate convertedAmount stored
              cache' log Hconv Hdate Hrun Hstored Hsub Hmgr Hnone)
    as (e & He & Hid & Hst & Ha & Hresp).
  exists e. subst run. rewrite Hresp. repeat split; auto.
Qed.

(** The first scenario's submission, on the roster of Finance and CEO. *)
Lemma chain_is_manager_then_roster_witness :
  exists chain sorted,
    approvals (Scenario.submitted Scenario.threeSlots [])
    = (approvals (Scenario.start Scenario.threeSlots []) ++ chain)%list
    /\ Permutation sorted
         (List.filter (active_in 100) (approvers (Scenario.start Scenario.threeSlots [])))
    /\ StronglySorted (ascending ap_sequence) sorted
    /\ map a_approver_id chain
       = chain_approvers (manager_of (Scenario.start Scenario.threeSlots []) 5) sorted
    /\ map a_sequence chain = seqZ 1 (Z.of_nat (length chain))
    /\ Forall (fun s => a_expense_id s = 1000%N /\ a_status s = pending) chain
    /\ (exists e, expenses (Scenario.submitted Scenario.threeSlots [])
                  = (expenses (Scenario.start Scenario.threeSlots []) ++ [e])%list
                  /\ e_id e = 1000%N)
    /\ (forall m, manager_of (Scenario.start Scenario.threeSlots []) 5 = Some m ->
           exists first rest,
             chain = first :: rest /\ a_approver_id first = m /\ a_sequence first = 1).
Proof.
  apply (chain_is_manager_then_roster
           Runtime.toFixed2 Runtime.parseFloat Runtime.parseDate
           Runtime.decimal_10_2 Runtime.date_column Runtime.expense_error
           Scenario.offline 1 (Scenario.travel Scenario.E "USD")
           (Scenario.start Scenario.threeSlots []) ∅
           (Scenario.submit Scenario.offline 1 (Scenario.travel Scenario.E "USD")
              (Scenario.start Scenario.threeSlots []) ∅).1.1.1
           (Scenario.submitted Scenario.threeSlots [])
           ∅ []).
  - vm_compute. reflexivity.
  - vm_compute. reflexivity.
  - intros r Hr. vm_compute in Hr.
    destruct Hr as [<-|[<-|[]]]; vm_compute; eauto.
Defined.

(** The chains of the scenarios: approver and sequence of each slot. *)
Example chain_scenarios :
  map (fun s => (a_approver_id s, a_sequence s))
      (approvals (Scenario.submitted Scenario.threeSlots []))
  = [(2%N, 1); (3%N, 2); (4%N, 3)]
  /\ map (fun s => (a_approver_id s, a_sequence s))
         (approvals (Scenario.submitted Scenario.managerSeated []))
     = [(2%N, 1); (3%N, 2)].
Proof. split; vm_compute; reflexivity. Qed.

(** An employee without a manager submits in a company without approvers. *)
Lemma empty_chain_submission_witness :
  exists e,
    expenses (Scenario.submit Scenario.offline 1 (Scenario.travel Scenario.Solo "CAD")
                (Scenario.start Scenario.fourSlots []) ∅).1.1.2
    = ([] ++ [e])%list
    /\ e_id e = 1000%N
    /\ e_status e = pending
    /\ approvals (Scenario.submit Scenario.offline 1 (Scenario.travel Scenario.Solo "CAD")
                    (Scenario.start Scenario.fourSlots []) ∅).1.1.2 = []
    /\ http_status (Scenario.submit Scenario.offline 1 (Scenario.travel Scenario.Solo "CAD")
                      (Scenario.start Scenario.fourSlots []) ∅).1.1.1 = 201
    /\ field "approval_chain"
         (body (Scenario.submit Scenario.offline 1 (Scenario.travel Scenario.Solo "CAD")
                  (Scenario.start Scenario.fourSlots []) ∅).1.1.1) = Some (JArr [])
    /\ field "next_approver"
         (body (Scenario.submit Scenario.offline 1 (Scenario.travel Scenario.Solo "CAD")
                  (Scenario.start Scenario.fourSlots []) ∅).1.1.1) = Some JNull
    /\ field "warning"
         (body (Scenario.submit Scenario.offline 1 (Scenario.travel Scenario.Solo "CAD")
                  (Scenario.start Scenario.fourSlots []) ∅).1.1.1) = None.
Proof.
  apply (empty_chain_submission
           Runtime.toFixed2 Runtime.parseFloat Runtime.parseDate
           Runtime.decimal_10_2 Runtime.date_column Runtime.expense_error
           Scenario.offline 1 (Scenario.travel Scenario.Solo "CAD")
           (Scenario.start Scenario.fourSlots []) ∅
           Scenario.globalSolutions Scenario.Solo 1759536000000 100%float
           (submitted_row Runtime.parseFloat 1 (Scenario.travel Scenario.Solo "CAD")
              (Scenario.start Scenario.fourSlots []) 1759536000000 100%float)
           ∅ []).
  - repeat split; try (vm_compute; reflexivity). vm_compute. eauto.
  - vm_compute. reflexivity.
  - vm_compute. reflexivity.
  - vm_compute. reflexivity.
  - vm_compute. reflexivity.
  - reflexivity.
  - intros a Ha Hc. vm_compute in Ha.
    destruct Ha as [<-|[<-|[<-|[]]]]; vm_compute in Hc; discriminate.
Defined.

(** The answer to that submission by an employee: status 201, the expense
    pending with no slot, and an object with four fields, the chain empty,
    none of them a warning. *)
Lemma empty_chain_answer_has_no_warning :
  p_role (sr_user (Scenario.travel Scenario.Solo "CAD")) = "employee"
  /\ http_status (Scenario.submit Scenario.offline 1 (Scenario.travel Scenario.Solo "CAD")
                    (Scenario.start Scenario.fourSlots []) ∅).1.1.1 = 201
  /\ map e_status
       (expenses (Scenario.submit Scenario.offline 1 (Scenario.travel Scenario.Solo "CAD")
                    (Scenario.start Scenario.fourSlots []) ∅).1.1.2) = [pending]
  /\ approvals (Scenario.submit Scenario.offline 1 (Scenario.travel Scenario.Solo "CAD")
                  (Scenario.start Scenario.fourSlots []) ∅).1.1.2 = []
  /\ body (Scenario.submit Scenario.offline 1 (Scenario.travel Scenario.Solo "CAD")
             (Scenario.start Scenario.fourSlots []) ∅).1.1.1
     = JObj [("message", JStr "Expense submitted successfully");
             ("expense",
              JObj [("id", JUuid 1000); ("amount", JNum 100);
                    ("original_amount", JNum 100); ("original_currency", JStr "CAD");
                    ("company_currency", JStr "CAD"); ("category", JStr "Travel");
                    ("description", JNull); ("date", JTime 1759536000000);
                    ("status", JStr "pending"); ("receipt_url", JNull);
                    ("created_at", JTime 1);
                    ("submitter",
                     JObj [("id", JUuid 7); ("name", JStr "solo");
                           ("email", JStr "solo@example.com")])]);
             ("approval_chain", JArr []);
             ("next_approver", JNull)]
  /\ field "warning"
       (body (Scenario.submit Scenario.offline 1 (Scenario.travel Scenario.Solo "CAD")
                (Scenario.start Scenario.fourSlots []) ∅).1.1.1) = None.
Proof. repeat split; vm_compute; reflexivity. Qed.

(** The same submission with amounts that the columns of type
    [DECIMAL(10,2)] do not hold as they are: for 100000000 the [INSERT]
    raises, the answer is 500 and nothing is written; for 100.999 the row
    holds 101 as the amount and as the original amount. *)
Example column_types_scenario :
  let d := Scenario.start Scenario.fourSlots [] in
  Scenario.submit Scenario.offline 1 (Sample.spends Scenario.Solo "CAD" "100000000") d ∅
  = (error_response 500 "Failed to submit expense" (Some "numeric field overflow"), d, ∅, [])
  /\ map (fun e => (e_amount e, e_original_amount e))
         (expenses (Scenario.submit Scenario.offline 1
                      (Sample.spends Scenario.Solo "CAD" "100.999") d ∅).1.1.2)
     = [(101%float, 101%float)].
Proof. split; vm_compute; reflexivity. Qed.

(** An administrator without a manager, in the same company: approved at
    once. *)
Example admin_bootstrap_scenario :
  map e_status
    (expenses (Scenario.submit Scenario.offline 1 (Scenario.travel Scenario.Root "CAD")
                 (Scenario.start Scenario.fourSlots []) ∅).1.1.2) = [approved].
Proof. vm_compute. reflexivity. Qed.

(** The service times out two hours after a rate for EUR to USD was
    cached: a conversion uses the cached rate, and a submission in a
    currency without a cached rate is refused and writes nothing. *)
Lemma oracle_failure_falls_back_to_cache_witness :
  ((convertCurrency Runtime.toFixed2 Scenario.offline Scenario.staleCache 250.5%float "EUR" "USD").1.1
   = Ok (Runtime.toFixed2 (250.5 * 1.25)%float)
   /\ CACHE_DURATION <= 7200000 - 0)
  /\ ((Scenario.submit Scenario.offline 1 (Scenario.travel Scenario.E "GBP")
         (Scenario.start Scenario.threeSlots []) Scenario.staleCache).1.1.2
      = Scenario.start Scenario.threeSlots []
      /\ http_status
           (Scenario.submit Scenario.offline 1 (Scenario.travel Scenario.E "GBP")
              (Scenario.start Scenario.threeSlots []) Scenario.staleCache).1.1.1 = 400
      /\ field "error"
           (body (Scenario.submit Scenario.offline 1 (Scenario.travel Scenario.E "GBP")
                    (Scenario.start Scenario.threeSlots []) Scenario.staleCache).1.1.1)
         = Some (JStr "Currency conversion failed")).
Proof.
  split.
  - apply (proj1 oracle_failure_falls_back_to_cache
             Runtime.toFixed2 Scenario.offline Scenario.staleCache 250.5%float "EUR" "USD"
             _ Scenario.staleCache [CacheGet "EUR_USD"; OracleGet "EUR"; CacheGet "EUR_USD"]
             "EUR" Scenario.timeout).
    + vm_compute. reflexivity.
    + right. left. reflexivity.
    + reflexivity.
  - apply (proj2 oracle_failure_falls_back_to_cache
             Runtime.toFixed2 Runtime.parseFloat Runtime.parseDate
           Runtime.decimal_10_2 Runtime.date_column Runtime.expense_error
             Scenario.offline 1 (Scenario.travel Scenario.E "GBP")
             (Scenario.start Scenario.threeSlots []) Scenario.staleCache
             _ _ Scenario.staleCache
             [CacheGet "GBP_USD"; OracleGet "GBP"; CacheGet "GBP_USD"]
             "GBP" Scenario.timeout).
    + vm_compute. reflexivity.
    + right. left. reflexivity.
    + reflexivity.
    + intros c Hc. vm_compute in Hc. injection Hc as <-. vm_compute. reflexivity.
Defined.

Example stale_rate_scenario :
  convertCurrency Runtime.toFixed2 Scenario.offline Scenario.staleCache 250.5%float "EUR" "USD"
  = (Ok (31313 / 100)%float, Scenario.staleCache,
     [CacheGet "EUR_USD"; OracleGet "EUR"; CacheGet "EUR_USD"]).
Proof. vm_compute. reflexivity. Qed.

(** A negative amount from EUR to USD: the amount error is thrown. *)
Lemma same_code_skips_validation_witness :
  convert_try Runtime.toFixed2 Scenario.offline ∅ (-5)%float "EUR" "USD"
  = Threw (ThrownError "Invalid amount for conversion") "EUR" "USD" [].
Proof.
  apply (proj2 (proj2 (proj2 same_code_skips_validation))
           Runtime.toFixed2 Scenario.offline ∅ (-5)%float "EUR" "USD").
  - discriminate.
  - reflexivity.
Defined.

(** The caller of the conversion does not see the amount error: the catch
    block of the function replaces it, here by the error for a service
    that cannot be reached, although the service was not called. *)
Example invalid_amount_scenario :
  convertCurrency Runtime.toFixed2 Scenario.offline ∅ (-5)%float "EUR" "USD"
  = (Throw "Currency conversion service unavailable. Please try again later.",
     ∅, [CacheGet "EUR_USD"])
  /\ convertCurrency Runtime.toFixed2 Scenario.offline ∅ (-5)%float "USD" "USD"
     = (Ok (-5)%float, ∅, []).
Proof. split; vm_compute; reflexivity. Qed.

(** The first scenario: the chain of the employee's expense is the manager
    and the one configured approver; the manager's approval leaves the
    expense pending, the second approval approves it. *)
Example straight_line_scenario :
  let d0 := Scenario.submitted [Scenario.seat 11 1 "Admin" 1] [] in
  let d1 := (Scenario.approve 10 (Scenario.decision Scenario.M 1001 (Some "ok")) d0).2 in
  let d2 := (Scenario.approve 11 (Scenario.decision Scenario.admin 1002 None) d1).2 in
  map (fun s => (a_approver_id s, a_sequence s, a_status s)) (approvals d0)
  = [(2%N, 1, pending); (1%N, 2, pending)]
  /\ map e_status (expenses d1) = [pending]
  /\ map (fun s => (a_status s, a_comments s)) (approvals d2)
     = [(approved, Some "ok"); (approved, None)]
  /\ map e_status (expenses d2) = [approved].
Proof. repeat split; vm_compute; reflexivity. Qed.

(** The fifth scenario: 250.50 EUR at 1.10 is 275.55 USD, the original
    amount and currency are kept, and a second conversion within the hour
    reads the cache and does not call the service. *)
Example currency_scenario :
  let first :=
    Scenario.submit Scenario.online 1
      {| sr_user := Scenario.as_principal Scenario.E; sr_amount := Some "250.50";
         sr_currency := Some "EUR"; sr_category := Some "Travel";
         sr_description := None; sr_date := Some "2025-10-04"; sr_file := None |}
      (Scenario.start Scenario.threeSlots []) ∅ in
  map (fun e => (e_original_amount e, e_original_currency e, e_amount e))
      (expenses first.1.1.2)
  = [(250.5%float, "EUR", (27555 / 100)%float)]
  /\ first.2 = [CacheGet "EUR_USD"; OracleGet "EUR"; CacheSet "EUR_USD"]
  /\ (convertCurrency Runtime.toFixed2 Scenario.halfAnHourLater first.1.2
        250.5%float "EUR" "USD").2
     = [CacheGet "EUR_USD"].
Proof. repeat split; vm_compute; reflexivity. Qed.

(** * Properties of the other handlers *)

(** ** The rate cache *)

Section CacheFacts.

Variable toFixed2 : float -> float.

(** A conversion between two codes that differ, of an amount above zero,
    reads the cache under the key of the pair. *)
Lemma convert_try_reaches_cache w cache amount fromCurrency toCurrency :
  fromCurrency <> toCurrency -> convertible amount ->
  fromCurrency <> "" -> toCurrency <> "" ->
  convert_try toFixed2 w cache amount fromCurrency toCurrency
  = let key := rate_key fromCurrency toCurrency in
    match match cache !! key with
          | Some cachedData =>
              if now_lookup w - timestamp cachedData <? CACHE_DURATION
              then Some cachedData else None
          | None => None
          end with
    | Some cachedData =>
        Returned (toFixed2 (amount * rate cachedData)%float) cache [CacheGet key]
    | None =>
        let log := [CacheGet key; OracleGet (toUpperCase fromCurrency)] in
        match oracle w (toUpperCase fromCurrency) with
        | AxiosReject e =>
            Threw (ThrownAxios e) (toUpperCase fromCurrency) (toUpperCase toCurrency) log
        | AxiosResponse (Some (Some rates)) =>
            match rates !! toUpperCase toCurrency with
            | Some exchangeRate =>
                if falsy_num exchangeRate then
                  Threw (ThrownError ("Exchange rate not found for " +:+ toUpperCase toCurrency))
                        (toUpperCase fromCurrency) (toUpperCase toCurrency) log
                else
                  Returned (toFixed2 (amount * exchangeRate)%float)
                    (<[key := {| rate := exchangeRate; timestamp := now_store w |}]> cache)
                    (log ++ [CacheSet key])%list
            | None =>
                Threw (ThrownError ("Exchange rate not found for " +:+ toUpperCase toCurrency))
                      (toUpperCase fromCurrency) (toUpperCase toCurrency) log
            end
        | AxiosResponse _ =>
            Threw (ThrownError "Invalid response from exchange rate API")
                  (toUpperCase fromCurrency) (toUpperCase toCurrency) log
        end
    end.
Proof.
  intros Hne Hamount Hf Ht. unfold convert_try, rate_key.
  apply String.eqb_neq in Hne, Hf, Ht. unfold convertible in Hamount.
  rewrite Hne, Hamount, Hf, Ht. reflexivity.
Qed.

(** A rate served from the cache within the hour. *)
Lemma convertCurrency_fresh w cache amount fromCurrency toCurrency c :
  fromCurrency <> toCurrency -> convertible amount ->
  fromCurrency <> "" -> toCurrency <> "" ->
  cache !! rate_key fromCurrency toCurrency = Some c ->
  now_lookup w - timestamp c < CACHE_DURATION ->
  convertCurrency toFixed2 w cache amount fromCurrency toCurrency
  = (Ok (toFixed2 (amount * rate c)%float), cache,
     [CacheGet (rate_key fromCurrency toCurrency)]).
Proof.
  intros Hne Hamount Hf Ht Hc Hfresh. unfold convertCurrency.
  rewrite convert_try_reaches_cache by assumption. cbv zeta. rewrite Hc.
  apply Z.ltb_lt in Hfresh. rewrite Hfresh. reflexivity.
Qed.

(** The log of a conversion holds [CacheSet] only when a rate has been
    fetched and stored. *)
Lemma convertCurrency_stored w cache amount fromCurrency toCurrency r cache' log k :
  convertCurrency toFixed2 w cache amount fromCurrency toCurrency = (r, cache', log) ->
  In (CacheSet k) log ->
  k = rate_key fromCurrency toCurrency
  /\ fromCurrency <> toCurrency /\ fromCurrency <> "" /\ toCurrency <> ""
  /\ exists exchangeRate,
       r = Ok (toFixed2 (amount * exchangeRate)%float)
       /\ cache' = <[k := {| rate := exchangeRate; timestamp := now_store w |}]> cache.
Proof.
  unfold convertCurrency, convert_try, rate_key.
  destruct (String.eqb_spec fromCurrency toCurrency) as [Heq|Hne].
  { intros [= <- <- <-] []. }
  destruct (falsy_num amount || PrimFloat.leb amount 0); [no_store|].
  destruct (String.eqb_spec fromCurrency "") as [Hf|Hf]; simpl; [no_store|].
  destruct (String.eqb_spec toCurrency "") as [Ht|Ht]; simpl; [no_store|].
  set (key := cacheKey (toUpperCase fromCurrency) (toUpperCase toCurrency)).
  destruct (match cache !! key with
            | Some cachedData =>
                if now_lookup w - timestamp cachedData <? CACHE_DURATION
                then Some cachedData else None
            | None => None
            end) as [c|]; [no_store|].
  destruct (oracle w (toUpperCase fromCurrency)) as [[[rates|]|]|e]; try no_store.
  destruct (rates !! toUpperCase toCurrency) as [exchangeRate|]; [|no_store].
  destruct (falsy_num exchangeRate); [no_store|].
  intros [= <- <- <-] Hin. simpl in Hin.
  destruct Hin as [H|[H|[H|[]]]]; try discriminate.
  injection H as <-. repeat split; auto. eauto.
Qed.

(** The cache after a conversion is the cache before it, or that cache
    with the rate of the pair stored. *)
Lemma convertCurrency_cache w cache amount fromCurrency toCurrency r cache' log :
  convertCurrency toFixed2 w cache amount fromCurrency toCurrency = (r, cache', log) ->
  (cache' = cache /\ forall k, ~ In (CacheSet k) log)
  \/ (exists entry value,
        cache' = <[rate_key fromCurrency toCurrency := entry]> cache
        /\ r = Ok value
        /\ In (OracleGet (toUpperCase fromCurrency)) log).
Proof.
  unfold convertCurrency, convert_try, rate_key.
  destruct (String.eqb fromCurrency toCurrency); [kept|].
  destruct (falsy_num amount || PrimFloat.leb amount 0); [kept|].
  destruct (String.eqb fromCurrency "" || String.eqb toCurrency ""); [kept|].
  set (key := cacheKey (toUpperCase fromCurrency) (toUpperCase toCurrency)).
  destruct (match cache !! key with
            | Some cachedData =>
                if now_lookup w - timestamp cachedData <? CACHE_DURATION
                then Some cachedData else None
            | None => None
            end) as [c|]; [kept|].
  destruct (oracle w (toUpperCase fromCurrency)) as [[[rates|]|]|e]; try kept.
  destruct (rates !! toUpperCase toCurrency) as [exchangeRate|]; [|kept].
  destruct (falsy_num exchangeRate); [kept|].
  intros [= <- <- <-]. right. eexists _, _. split; [reflexivity|].
  split; [reflexivity|]. right. left. reflexivity.
Qed.

End CacheFacts.

(** X1.  A rate that a conversion has fetched and stored serves the
    conversions of the same pair of codes for the hour that follows: they
    return the amount times that rate, rounded, leave the cache as it is
    and do not call the service. *)
Theorem fetched_rate_is_reused :
  forall toFixed2 w w2 cache amount amount2 fromCurrency toCurrency value cache' log k,
    convertCurrency toFixed2 w cache amount fromCurrency toCurrency = (Ok value, cache', log) ->
    In (CacheSet k) log ->
    convertible amount2 ->
    now_lookup w2 - now_store w < CACHE_DURATION ->
    exists exchangeRate,
      k = rate_key fromCurrency toCurrency
      /\ cache' !! k = Some {| rate := exchangeRate; timestamp := now_store w |}
      /\ value = toFixed2 (amount * exchangeRate)%float
      /\ convertCurrency toFixed2 w2 cache' amount2 fromCurrency toCurrency
         = (Ok (toFixed2 (amount2 * exchangeRate)%float), cache', [CacheGet k]).
Proof.
  intros toFixed2 w w2 cache amount amount2 fromCurrency toCurrency value cache' log k
         Hrun Hset Hamount Hsoon.
  destruct (convertCurrency_stored _ _ _ _ _ _ _ _ _ _ Hrun Hset)
    as (-> & Hne & Hf & Ht & exchangeRate & [= ->] & ->).
  exists exchangeRate. split; [reflexivity|].
  split; [apply lookup_insert_eq|]. split; [reflexivity|].
  apply (convertCurrency_fresh toFixed2 w2 _ amount2 fromCurrency toCurrency
           {| rate := exchangeRate; timestamp := now_store w |}); auto.
  apply lookup_insert_eq.
Qed.

(** The conversion of 250.50 EUR at one minute, and one of 100 EUR half an hour later. *)
Lemma fetched_rate_is_reused_witness :
  exists exchangeRate,
    "EUR_USD" = rate_key "EUR" "USD"
    /\ Sample.fetched.1.2 !! "EUR_USD"
       = Some {| rate := exchangeRate; timestamp := now_store Scenario.online |}
    /\ ((27555 / 100)%float = Runtime.toFixed2 (250.5 * exchangeRate)%float)
    /\ convertCurrency Runtime.toFixed2 Scenario.halfAnHourLater Sample.fetched.1.2
         100%float "EUR" "USD"
       = (Ok (Runtime.toFixed2 (100 * exchangeRate)%float), Sample.fetched.1.2,
          [CacheGet "EUR_USD"]).
Proof.
  apply (fetched_rate_is_reused Runtime.toFixed2 Scenario.online Scenario.halfAnHourLater
           ∅ 250.5%float 100%float "EUR" "USD" (27555 / 100)%float
           Sample.fetched.1.2 Sample.fetched.2 "EUR_USD").
  - by_computing.
  - vm_compute. auto.
  - by_computing.
  - by_computing.
Defined.

(** X2.  A conversion changes the cache at most under the key of its own
    pair of codes, and only by storing a rate that it has fetched: no
    entry is removed, and a conversion that throws, or that does not call
    the service, leaves the cache as it was. *)
Theorem conversion_only_adds_its_rate :
  forall toFixed2 w cache amount fromCurrency toCurrency r cache' log,
    convertCurrency toFixed2 w cache amount fromCurrency toCurrency = (r, cache', log) ->
    (forall k, k <> rate_key fromCurrency toCurrency -> cache' !! k = cache !! k)
    /\ (forall k, is_Some (cache !! k) -> is_Some (cache' !! k))
    /\ (forall message, r = Throw message -> cache' = cache)
    /\ (~ In (OracleGet (toUpperCase fromCurrency)) log -> cache' = cache).
Proof.
  intros toFixed2 w cache amount fromCurrency toCurrency r cache' log Hrun.
  destruct (convertCurrency_cache _ _ _ _ _ _ _ _ _ Hrun)
    as [[-> _]|(entry & value & -> & -> & Hin)].
  - repeat split; auto.
  - split; [|split; [|split]].
    + intros k Hk. apply lookup_insert_ne. congruence.
    + intros k Hk.
      destruct (decide (rate_key fromCurrency toCurrency = k)) as [<-|Hne].
      * rewrite lookup_insert_eq. eauto.
      * rewrite lookup_insert_ne by exact Hne. exact Hk.
    + intros message H. discriminate.
    + intros Hno. contradiction.
Qed.

(** The conversion of 250.50 EUR into an empty cache. *)
Lemma conversion_only_adds_its_rate_witness :
  (forall k, k <> rate_key "EUR" "USD" -> Sample.fetched.1.2 !! k = (∅ : rate_cache) !! k)
  /\ (forall k, is_Some ((∅ : rate_cache) !! k) -> is_Some (Sample.fetched.1.2 !! k))
  /\ (forall message, Sample.fetched.1.1 = Throw message -> Sample.fetched.1.2 = ∅)
  /\ (~ In (OracleGet (toUpperCase "EUR")) Sample.fetched.2 -> Sample.fetched.1.2 = ∅).
Proof.
  apply (conversion_only_adds_its_rate Runtime.toFixed2 Scenario.online ∅ 250.5%float
           "EUR" "USD").
  reflexivity.
Defined.

(** X3.  The message of the error that a conversion throws is one of four:
    that the source currency is not supported, that the service timed
    out, that the conversion failed with the status text of the service,
    or that the service is unavailable.  The errors that the function
    raises itself, for the amount, the codes, a response without rates or
    a rate that is missing, are all reported as the service being
    unavailable, also when the service was not called. *)
Theorem conversion_errors_are_classified :
  forall toFixed2 w cache amount fromCurrency toCurrency message cache' log,
    convertCurrency toFixed2 w cache amount fromCurrency toCurrency
    = (Throw message, cache', log) ->
    (message = "Currency " +:+ toUpperCase fromCurrency +:+ " not supported"
     \/ message = "Currency conversion service timeout. Please try again."
     \/ (exists statusText, message = "Currency conversion failed: " +:+ statusText)
     \/ message = service_unavailable)
    /\ ((forall e, oracle w (toUpperCase fromCurrency) <> AxiosReject e) ->
        message = service_unavailable)
    /\ ((forall base, ~ In (OracleGet base) log) -> message = service_unavailable).
Proof.
  intros toFixed2 w cache amount fromCurrency toCurrency message cache' log.
  assert (Hrejected : forall e f,
            rethrown (ThrownAxios e) f = "Currency " +:+ f +:+ " not supported"
            \/ rethrown (ThrownAxios e) f
               = "Currency conversion service timeout. Please try again."
            \/ (exists statusText,
                  rethrown (ThrownAxios e) f = "Currency conversion failed: " +:+ statusText)
            \/ rethrown (ThrownAxios e) f = service_unavailable).
  { intros [[[st text]|] code] f; unfold rethrown; simpl.
    - destruct (st =? 404); [auto|].
      destruct (match code with
                | Some c => String.eqb c "ECONNABORTED" || String.eqb c "ETIMEDOUT"
                | None => false
                end); eauto.
    - destruct (match code with
                | Some c => String.eqb c "ECONNABORTED" || String.eqb c "ETIMEDOUT"
                | None => false
                end); auto. }
  unfold convertCurrency, convert_try.
  destruct (String.eqb fromCurrency toCurrency); [discriminate|].
  destruct (falsy_num amount || PrimFloat.leb amount 0).
  { destruct (cache !! _); [discriminate|]; intros [= <- <- <-]. repeat split; auto. }
  destruct (String.eqb fromCurrency "" || String.eqb toCurrency "").
  { destruct (cache !! _); [discriminate|]; intros [= <- <- <-]. repeat split; auto. }
  set (key := cacheKey (toUpperCase fromCurrency) (toUpperCase toCurrency)).
  destruct (match cache !! key with
            | Some cachedData =>
                if now_lookup w - timestamp cachedData <? CACHE_DURATION
                then Some cachedData else None
            | None => None
            end) as [c|]; [discriminate|].
  destruct (oracle w (toUpperCase fromCurrency)) as [[[rates|]|]|e] eqn:Ho.
  - destruct (rates !! toUpperCase toCurrency) as [exchangeRate|].
    + destruct (falsy_num exchangeRate); [|discriminate].
      cbv beta iota; destruct (cache !! _); [discriminate|]; intros [= <- <- <-]. repeat split; auto.
    + cbv beta iota; destruct (cache !! _); [discriminate|]; intros [= <- <- <-]. repeat split; auto.
  - cbv beta iota; destruct (cache !! _); [discriminate|]; intros [= <- <- <-]. repeat split; auto.
  - cbv beta iota; destruct (cache !! _); [discriminate|]; intros [= <- <- <-]. repeat split; auto.
  - cbv beta iota; destruct (cache !! _); [discriminate|]; intros [= <- <- <-]. split; [apply Hrejected|].
    split.
    + intros Hnever. exfalso. apply (Hnever e). reflexivity.
    + intros Hno. exfalso. apply (Hno (toUpperCase fromCurrency)). simpl. auto.
Qed.

(** A conversion of GBP while the service times out. *)
Lemma conversion_errors_are_classified_witness :
  let message := "Currency conversion service timeout. Please try again." in
  (message = "Currency " +:+ toUpperCase "GBP" +:+ " not supported"
   \/ message = "Currency conversion service timeout. Please try again."
   \/ (exists statusText, message = "Currency conversion failed: " +:+ statusText)
   \/ message = service_unavailable)
  /\ ((forall e, oracle Scenario.offline (toUpperCase "GBP") <> AxiosReject e) ->
      message = service_unavailable)
  /\ ((forall base, ~ In (OracleGet base) Sample.timedOut.2) ->
      message = service_unavailable).
Proof.
  apply (conversion_errors_are_classified Runtime.toFixed2 Scenario.offline ∅
           250.5%float "GBP" "USD" _ Sample.timedOut.1.2 Sample.timedOut.2).
  by_computing.
Defined.

(** X4.  An amount that is not above zero, between two codes that
    differ, is not refused as such: the check throws, and the handler of
    the exception looks the pair up in the cache under the codes as they
    were given, not upper-cased.  With an entry there, of any age, the
    conversion returns the amount times its rate; without one it reports
    the service as unavailable.  The service is not called. *)
Theorem invalid_amount_is_not_reported :
  forall toFixed2 w cache amount fromCurrency toCurrency,
    fromCurrency <> toCurrency ->
    (falsy_num amount || PrimFloat.leb amount 0) = true ->
    convertCurrency toFixed2 w cache amount fromCurrency toCurrency
    = (match cache !! cacheKey fromCurrency toCurrency with
       | Some cachedData => Ok (toFixed2 (amount * rate cachedData)%float)
       | None => Throw service_unavailable
       end,
       cache, [CacheGet (cacheKey fromCurrency toCurrency)]).
Proof.
  intros toFixed2 w cache amount fromCurrency toCurrency Hne Hamount.
  unfold convertCurrency, convert_try. apply String.eqb_neq in Hne.
  rewrite Hne, Hamount. destruct (cache !! _); reflexivity.
Qed.

(** An amount of -5 EUR, with a rate for EUR to USD in the cache. *)
Lemma invalid_amount_is_not_reported_witness :
  convertCurrency Runtime.toFixed2 Scenario.offline Scenario.staleCache (-5)%float "EUR" "USD"
  = (match Scenario.staleCache !! cacheKey "EUR" "USD" with
     | Some cachedData => Ok (Runtime.toFixed2 (-5 * rate cachedData)%float)
     | None => Throw service_unavailable
     end, Scenario.staleCache, [CacheGet (cacheKey "EUR" "USD")]).
Proof.
  apply (invalid_amount_is_not_reported Runtime.toFixed2 Scenario.offline
           Scenario.staleCache (-5)%float "EUR" "USD").
  - discriminate.
  - reflexivity.
Defined.

Lemma getCacheStats_entries clock (cache : rate_cache) s :
  In s (getCacheStats clock cache).2
  <-> exists key value, cache !! key = Some value /\ s = cache_stat_of (clock key) key value.
Proof.
  unfold getCacheStats. cbn [snd]. rewrite in_map_iff. split.
  - intros ([key value] & <- & Hin). exists key, value. split; [|reflexivity].
    apply elem_of_map_to_list, list_elem_of_In, Hin.
  - intros (key & value & Hc & ->). exists (key, value). split; [reflexivity|].
    apply list_elem_of_In, elem_of_map_to_list, Hc.
Qed.

(** X5.  The statistics of the cache have one entry for each key, with the
    rate, the age in whole seconds and whether the entry is older than an
    hour.  An entry that the statistics give as expired is not served by a
    conversion at that time: the service is called.  The converse fails at
    the age of exactly one hour, which the statistics do not count as
    expired and the conversion does not count as fresh. *)
Theorem cache_statistics_and_freshness :
  forall toFixed2 clock w cache amount fromCurrency toCurrency c,
    fromCurrency <> toCurrency -> convertible amount ->
    fromCurrency <> "" -> toCurrency <> "" ->
    cache !! rate_key fromCurrency toCurrency = Some c ->
    clock (rate_key fromCurrency toCurrency) = now_lookup w ->
    let log := (convertCurrency toFixed2 w cache amount fromCurrency toCurrency).2 in
    (getCacheStats clock cache).1 = length (getCacheStats clock cache).2
    /\ exists s,
         In s (getCacheStats clock cache).2
         /\ cs_pair s = rate_key fromCurrency toCurrency
         /\ cs_rate s = rate c
         /\ cs_age s = (now_lookup w - timestamp c) / 1000
         /\ (cs_expired s = true -> In (OracleGet (toUpperCase fromCurrency)) log)
         /\ (log = [CacheGet (rate_key fromCurrency toCurrency)] -> cs_expired s = false)
         /\ (now_lookup w - timestamp c = CACHE_DURATION ->
             cs_expired s = false /\ In (OracleGet (toUpperCase fromCurrency)) log).
Proof.
  intros toFixed2 clock w cache amount fromCurrency toCurrency c Hne Hamount Hf Ht Hc Hclock log.
  split.
  { unfold getCacheStats. cbn [fst snd]. rewrite length_map, length_map_to_list. reflexivity. }
  exists (cache_stat_of (clock (rate_key fromCurrency toCurrency))
            (rate_key fromCurrency toCurrency) c).
  split; [apply getCacheStats_entries; eauto|].
  rewrite Hclock. cbn [cache_stat_of cs_pair cs_rate cs_age cs_expired].
  split; [reflexivity|]. split; [reflexivity|]. split; [reflexivity|].
  assert (Hstale : CACHE_DURATION <= now_lookup w - timestamp c ->
                   In (OracleGet (toUpperCase fromCurrency)) log).
  { intros Hold. subst log. unfold convertCurrency.
    rewrite convert_try_reaches_cache by assumption. cbv zeta. rewrite Hc.
    replace (now_lookup w - timestamp c <? CACHE_DURATION) with false
      by (symmetry; apply Z.ltb_ge; exact Hold).
    pose proof Hc as Hc'. unfold rate_key in Hc'.
    destruct (oracle w (toUpperCase fromCurrency)) as [[[rates|]|]|e];
      [destruct (rates !! toUpperCase toCurrency) as [exchangeRate|];
       [destruct (falsy_num exchangeRate)|]| | |];
      cbv beta iota; rewrite ?Hc'; simpl; auto. }
  split; [|split].
  - intros Hexp. apply Z.ltb_lt in Hexp. apply Hstale. lia.
  - intros Hlog. apply Z.ltb_ge.
    destruct (Z.lt_ge_cases (now_lookup w - timestamp c) CACHE_DURATION) as [Hlt|Hge]; [lia|].
    apply Hstale in Hge. rewrite Hlog in Hge. destruct Hge as [H|[]]. discriminate.
  - intros Hage. split; [apply Z.ltb_ge; lia|apply Hstale; lia].
Qed.

(** The rate fetched at the epoch, two hours later. *)
Lemma cache_statistics_and_freshness_witness :
  let clock := fun _ : string => 7200000 in
  let c := {| rate := 1.25; timestamp := 0 |} in
  let log := (convertCurrency Runtime.toFixed2 Scenario.offline Scenario.staleCache
                250.5%float "EUR" "USD").2 in
  (getCacheStats clock Scenario.staleCache).1
  = length (getCacheStats clock Scenario.staleCache).2
  /\ exists s,
       In s (getCacheStats clock Scenario.staleCache).2
       /\ cs_pair s = rate_key "EUR" "USD"
       /\ cs_rate s = rate c
       /\ cs_age s = (now_lookup Scenario.offline - timestamp c) `div` 1000
       /\ (cs_expired s = true -> In (OracleGet (toUpperCase "EUR")) log)
       /\ (log = [CacheGet (rate_key "EUR" "USD")] -> cs_expired s = false)
       /\ (now_lookup Scenario.offline - timestamp c = CACHE_DURATION ->
           cs_expired s = false /\ In (OracleGet (toUpperCase "EUR")) log).
Proof.
  apply (cache_statistics_and_freshness Runtime.toFixed2 (fun _ => 7200000)
           Scenario.offline Scenario.staleCache 250.5%float "EUR" "USD"
           {| rate := 1.25; timestamp := 0 |}).
  - discriminate.
  - reflexivity.
  - discriminate.
  - discriminate.
  - by_computing.
  - reflexivity.
Defined.

(** X6.  After [clearCache] the statistics are empty, and a conversion of
    an amount above zero between two codes that differ has no rate to fall
    back on: it calls the service, and throws when the call is
    rejected. *)
Theorem cleared_cache_asks_the_service :
  forall toFixed2 clock w cache amount fromCurrency toCurrency,
    fromCurrency <> toCurrency -> convertible amount ->
    fromCurrency <> "" -> toCurrency <> "" ->
    let run := convertCurrency toFixed2 w (clearCache cache) amount fromCurrency toCurrency in
    getCacheStats clock (clearCache cache) = (0%nat, [])
    /\ In (OracleGet (toUpperCase fromCurrency)) run.2
    /\ forall e, oracle w (toUpperCase fromCurrency) = AxiosReject e ->
         run.1 = (Throw (rethrown (ThrownAxios e) (toUpperCase fromCurrency)), ∅).
Proof.
  intros toFixed2 clock w cache amount fromCurrency toCurrency Hne Hamount Hf Ht run.
  split.
  { unfold getCacheStats, clearCache. rewrite map_size_empty, map_to_list_empty. reflexivity. }
  subst run. unfold convertCurrency, clearCache.
  rewrite convert_try_reaches_cache by assumption. cbv zeta.
  rewrite lookup_empty.
  destruct (oracle w (toUpperCase fromCurrency)) as [[[rates|]|]|e].
  - destruct (rates !! toUpperCase toCurrency) as [exchangeRate|];
      [destruct (falsy_num exchangeRate)|]; rewrite ?lookup_empty;
      (split; [simpl; auto|intros e' He'; discriminate]).
  - rewrite lookup_empty. split; [simpl; auto|intros e' He'; discriminate].
  - rewrite lookup_empty. split; [simpl; auto|intros e' He'; discriminate].
  - rewrite lookup_empty. split; [simpl; auto|].
    intros e' [= <-]. reflexivity.
Qed.

(** The cache with one rate, cleared, while the service times out. *)
Lemma cleared_cache_asks_the_service_witness :
  let clock := fun _ : string => 7200000 in
  let run := convertCurrency Runtime.toFixed2 Scenario.offline
               (clearCache Scenario.staleCache) 250.5%float "EUR" "USD" in
  getCacheStats clock (clearCache Scenario.staleCache) = (0%nat, [])
  /\ In (OracleGet (toUpperCase "EUR")) run.2
  /\ forall e, oracle Scenario.offline (toUpperCase "EUR") = AxiosReject e ->
       run.1 = (Throw (rethrown (ThrownAxios e) (toUpperCase "EUR")), ∅).
Proof.
  apply (cleared_cache_asks_the_service Runtime.toFixed2 (fun _ => 7200000)
           Scenario.offline Scenario.staleCache 250.5%float "EUR" "USD").
  - discriminate.
  - reflexivity.
  - discriminate.
  - discriminate.
Defined.

(** ** Decisions and the rows they touch *)

(** Under the primary key, the row with the identifier of a row of the
    table is that row. *)
Lemma find_in_key {A : Type} (id_of : A -> uuid) (rows : list A) (row : A) :
  List.NoDup (map id_of rows) -> In row rows ->
  find (fun r => N.eqb (id_of r) (id_of row)) rows = Some row.
Proof.
  intros Hkey Hin.
  destruct (find (fun r => N.eqb (id_of r) (id_of row)) rows) as [r|] eqn:Hfind.
  - apply find_by_id in Hfind as [Hr Hid]. f_equal.
    apply (same_id_same_row id_of rows); auto.
  - exfalso. apply (find_none _ _ Hfind row) in Hin.
    rewrite N.eqb_refl in Hin. discriminate.
Qed.

Lemma decide_row_identity id s comments now r :
  a_id (decide_row id s comments now r) = a_id r
  /\ a_expense_id (decide_row id s comments now r) = a_expense_id r
  /\ a_approver_id (decide_row id s comments now r) = a_approver_id r
  /\ a_sequence (decide_row id s comments now r) = a_sequence r
  /\ a_created_at (decide_row id s comments now r) = a_created_at r.
Proof. unfold decide_row. destruct (N.eqb (a_id r) id); auto. Qed.

Lemma cascade_row_identity expense_id id now r :
  a_id (cascade_row expense_id id now r) = a_id r
  /\ a_expense_id (cascade_row expense_id id now r) = a_expense_id r
  /\ a_approver_id (cascade_row expense_id id now r) = a_approver_id r
  /\ a_sequence (cascade_row expense_id id now r) = a_sequence r
  /\ a_created_at (cascade_row expense_id id now r) = a_created_at r.
Proof. unfold cascade_row. destruct (_ && _); auto. Qed.

Lemma set_expense_status_identity id s now e :
  e_id (set_expense_status id s now e) = e_id e
  /\ e_user_id (set_expense_status id s now e) = e_user_id e
  /\ e_company_id (set_expense_status id s now e) = e_company_id e
  /\ e_amount (set_expense_status id s now e) = e_amount e.
Proof. unfold set_expense_status. destruct (N.eqb (e_id e) id); auto. Qed.

Lemma decide_row_other id s comments now r :
  a_id r <> id -> decide_row id s comments now r = r.
Proof. intros H. unfold decide_row. apply N.eqb_neq in H. rewrite H. reflexivity. Qed.

Lemma set_expense_status_other id s now e :
  e_id e <> id -> set_expense_status id s now e = e.
Proof.
  intros H. unfold set_expense_status. apply N.eqb_neq in H. rewrite H. reflexivity.
Qed.

Lemma cascade_row_other expense_id id now r :
  a_status r <> pending \/ a_expense_id r <> expense_id ->
  cascade_row expense_id id now r = r.
Proof.
  intros H. unfold cascade_row, is_pending.
  destruct (N.eqb_spec (a_expense_id r) expense_id) as [He|He]; simpl; [|reflexivity].
  destruct (status_eqb (a_status r) pending) eqn:Hp; simpl; [|reflexivity].
  apply status_eqb_eq in Hp. destruct H; contradiction.
Qed.

(** What an approval does to the database, when it does anything. *)
Lemma approve_step coerce now req d :
  (approveExpense coerce now req d).2 = d
  \/ exists slot expense (fully : bool),
       find_approval d (dr_id req) = Some slot
       /\ find_expense d (a_expense_id slot) = Some expense
       /\ a_approver_id slot = p_id (dr_user req)
       /\ a_status slot = pending /\ e_status expense = pending
       /\ unapprovedPrevious d slot = []
       /\ (approveExpense coerce now req d).2
          = let d1 := with_approvals d
                        (map (decide_row (dr_id req) approved (or_null (dr_comments req)) now)
                             (approvals d)) in
            if fully then
              with_expenses d1
                (map (set_expense_status (a_expense_id slot) approved now) (expenses d1))
            else d1.
Proof.
  destruct (find_approval d (dr_id req)) as [slot|] eqn:Hs;
    [|left; unfold approveExpense; rewrite Hs; reflexivity].
  destruct (find_expense d (a_expense_id slot)) as [expense|] eqn:He;
    [|left; unfold approveExpense; rewrite Hs, He; reflexivity].
  destruct (N.eqb_spec (a_approver_id slot) (p_id (dr_user req))) as [Hme|Hme];
    [|left; rewrite (approve_not_assigned coerce now req d slot expense); auto].
  destruct (status_eqb (a_status slot) pending) eqn:Hst;
    [apply status_eqb_eq in Hst
    |left; apply status_eqb_neq in Hst;
     rewrite (approve_already_decided coerce now req d slot expense); auto].
  destruct (status_eqb (e_status expense) pending) eqn:Hex;
    [apply status_eqb_eq in Hex
    |left; apply status_eqb_neq in Hex;
     rewrite (approve_already_terminated coerce now req d slot expense); auto].
  destruct (unapprovedPrevious d slot) as [|first rest] eqn:Hq.
  - destruct (unstorable (or_null (dr_comments req))) eqn:Hnul.
    { left. unfold approveExpense. rewrite Hs, He.
      apply N.eqb_eq in Hme. rewrite Hme. simpl.
      unfold is_pending. rewrite Hst, Hex. simpl. rewrite Hq, Hnul. reflexivity. }
    pose proof (approve_applied coerce now req d slot expense Hs He Hme Hst Hex Hq Hnul)
      as Happ.
    cbv zeta in Happ.
    destruct (apply_rules _ _ _ _) as [[|]|] in Happ.
    + right. exists slot, expense, true. repeat split; auto.
    + right. exists slot, expense, false. repeat split; auto.
    + left. exact Happ.
  - left. unfold approveExpense. rewrite Hs, He.
    apply N.eqb_eq in Hme. rewrite Hme. simpl.
    unfold is_pending. rewrite Hst, Hex. simpl. rewrite Hq. reflexivity.
Qed.

(** What a rejection does to the database, when it does anything. *)
Lemma reject_step now req d :
  (rejectExpense now req d).2 = d
  \/ exists slot expense comments,
       find_approval d (dr_id req) = Some slot
       /\ find_expense d (a_expense_id slot) = Some expense
       /\ a_approver_id slot = p_id (dr_user req)
       /\ a_status slot = pending /\ e_status expense = pending
       /\ approvals (rejectExpense now req d).2
          = map (fun s => cascade_row (a_expense_id slot) (dr_id req) now
                            (decide_row (dr_id req) rejected (Some comments) now s))
                (approvals d)
       /\ expenses (rejectExpense now req d).2
          = map (set_expense_status (a_expense_id slot) rejected now) (expenses d)
       /\ companies (rejectExpense now req d).2 = companies d
       /\ users (rejectExpense now req d).2 = users d
       /\ approvers (rejectExpense now req d).2 = approvers d
       /\ approval_rules (rejectExpense now req d).2 = approval_rules d
       /\ next_uuid (rejectExpense now req d).2 = next_uuid d.
Proof.
  destruct (dr_comments req) as [comments|] eqn:Hc;
    [|left; rewrite reject_without_comment; [reflexivity|rewrite Hc; exact I]].
  destruct (blank comments) eqn:Hb;
    [left; rewrite reject_without_comment; [reflexivity|rewrite Hc; exact Hb]|].
  pose proof (reject_with_comment req comments Hc Hb) as Hor.
  destruct (find_approval d (dr_id req)) as [slot|] eqn:Hs;
    [|left; unfold rejectExpense; rewrite Hor, Hb, Hs; reflexivity].
  destruct (find_expense d (a_expense_id slot)) as [expense|] eqn:He;
    [|left; unfold rejectExpense; rewrite Hor, Hb, Hs, He; reflexivity].
  destruct (N.eqb_spec (a_approver_id slot) (p_id (dr_user req))) as [Hme|Hme];
    [|left; unfold rejectExpense; rewrite Hor, Hb, Hs, He;
      apply N.eqb_neq in Hme; rewrite Hme; reflexivity].
  destruct (status_eqb (a_status slot) pending) eqn:Hst;
    [apply status_eqb_eq in Hst
    |left; apply status_eqb_neq in Hst;
     rewrite (reject_already_decided now req d slot expense Hs He comments); auto].
  destruct (status_eqb (e_status expense) pending) eqn:Hex;
    [apply status_eqb_eq in Hex
    |left; apply status_eqb_neq in Hex;
     rewrite (reject_already_terminated now req d slot expense Hs He comments); auto].
  destruct (has_nul comments) eqn:Hnul.
  { left. unfold rejectExpense. rewrite Hor, Hb, Hs, He.
    apply N.eqb_eq in Hme. rewrite Hme. simpl.
    unfold is_pending. rewrite Hst, Hex. simpl. rewrite Hnul. reflexivity. }
  right. exists slot, expense, comments.
  destruct (reject_tables now req d slot expense Hs He Hme Hst Hex comments Hc Hb Hnul)
    as (Ha & Hexp & Hco & Hu & Hap & Hr).
  repeat split; auto.
  unfold rejectExpense. rewrite Hor, Hb, Hs, He.
  apply N.eqb_eq in Hme. rewrite Hme. simpl.
  unfold is_pending. rewrite Hst, Hex. simpl. rewrite Hnul.
  destruct (find_user _ _); [destruct (find_user _ _)|]; reflexivity.
Qed.

Lemma row_update_refl target d : row_update target d d.
Proof.
  exists (fun r => r), (fun e => e). rewrite !map_id.
  repeat split; auto; try congruence.
Qed.

(** Every decision rewrites pending rows of one pending expense, if it
    rewrites anything. *)
Lemma verdict_rows coerce v d :
  exists target, row_update target d (apply_verdict coerce v d).2.
Proof.
  destruct v as [now req|now req]; simpl.
  - destruct (approve_step coerce now req d)
      as [->|(slot & expense & fully & Hs & He & Hme & Hst & Hex & Hq & ->)].
    { exists 0%N. apply row_update_refl. }
    exists (a_expense_id slot).
    exists (decide_row (dr_id req) approved (or_null (dr_comments req)) now),
           (if fully then set_expense_status (a_expense_id slot) approved now else fun e => e).
    cbv zeta. split; [destruct fully; reflexivity|].
    split; [destruct fully; [reflexivity|symmetry; apply map_id]|].
    do 5 (split; [destruct fully; reflexivity|]).
    split; [intros r; apply decide_row_identity|].
    split; [intros e; destruct fully; [apply set_expense_status_identity|auto]|].
    split; [|split].
    + intros Hkey r Hin Hother.
      destruct (N.eqb_spec (a_id r) (dr_id req)) as [Hid|Hid];
        [|apply decide_row_other; exact Hid].
      apply find_by_id in Hs as [Hslot Hslotid].
      assert (r = slot) as -> by (apply (same_id_same_row a_id (approvals d)); auto; congruence).
      destruct Hother; contradiction.
    + intros e Hother. destruct fully; [|reflexivity].
      apply set_expense_status_other. exact Hother.
    + right. eauto.
  - destruct (reject_step now req d)
      as [->|(slot & expense & comments & Hs & He & Hme & Hst & Hex
              & Ha & Hexp & Hco & Hu & Hap & Hru & Hn)].
    { exists 0%N. apply row_update_refl. }
    exists (a_expense_id slot).
    exists (fun s => cascade_row (a_expense_id slot) (dr_id req) now
                       (decide_row (dr_id req) rejected (Some comments) now s)),
           (set_expense_status (a_expense_id slot) rejected now).
    do 7 (split; [assumption|]).
    split.
    { intros r.
      destruct (cascade_row_identity (a_expense_id slot) (dr_id req) now
                  (decide_row (dr_id req) rejected (Some comments) now r))
        as (-> & -> & -> & -> & ->).
      apply decide_row_identity. }
    split; [intros e; apply set_expense_status_identity|].
    split; [|split].
    + intros Hkey r Hin Hother.
      destruct (N.eqb_spec (a_id r) (dr_id req)) as [Hid|Hid].
      * apply find_by_id in Hs as [Hslot Hslotid].
        assert (r = slot) as -> by (apply (same_id_same_row a_id (approvals d)); auto; congruence).
        destruct Hother; contradiction.
      * rewrite decide_row_other by exact Hid.
        apply cascade_row_other. exact Hother.
    + intros e Hother. apply set_expense_status_other. exact Hother.
    + right. eauto.
Qed.

Lemma row_update_keys target d d' :
  row_update target d d' ->
  map a_id (approvals d') = map a_id (approvals d)
  /\ map e_id (expenses d') = map e_id (expenses d).
Proof.
  intros (f & g & -> & -> & _ & _ & _ & _ & _ & Hf & Hg & _).
  rewrite !map_map. split; apply map_ext; intros x; [apply Hf|apply Hg].
Qed.

(** X7.  A decision is final.  Whatever is posted afterwards, an approval
    or a rejection, by whomever, leaves every slot that is no longer
    pending exactly as it is, and every expense that is no longer pending
    too; and it keeps the identifier, the expense, the approver and the
    sequence of every slot.  The primary keys of the two tables are
    assumed. *)
Theorem decisions_are_final :
  forall coerce v d,
    approvals_key d -> expenses_key d ->
    let d' := (apply_verdict coerce v d).2 in
    Forall2 (fun s s' => (a_status s <> pending -> s' = s)
                         /\ a_id s' = a_id s /\ a_expense_id s' = a_expense_id s
                         /\ a_approver_id s' = a_approver_id s
                         /\ a_sequence s' = a_sequence s)
            (approvals d) (approvals d')
    /\ Forall2 (fun e e' => (e_status e <> pending -> e' = e) /\ e_id e' = e_id e)
               (expenses d) (expenses d').
Proof.
  intros coerce v d Hka Hke d'. subst d'.
  destruct (verdict_rows coerce v d)
    as (target & f & g & -> & -> & _ & _ & _ & _ & _ & Hf & Hg & Hrows & Hexp & Htarget).
  split.
  - apply Forall2_map_self. intros s Hs.
    destruct (Hf s) as (Hid & Hexpense & Happrover & Hseq & _).
    repeat split; auto.
  - apply Forall2_map_self. intros e He.
    split; [|apply Hg].
    intros Hdone. destruct Htarget as [[_ Hsame]|(expense & Hfind & Hpending)]; [apply Hsame|].
    apply Hexp. intros Hid.
    apply find_by_id in Hfind as [Hin Hid'].
    assert (e = expense) by (apply (same_id_same_row e_id (expenses d)); auto; congruence).
    congruence.
Qed.

(** Finance rejects after the manager has approved. *)
Lemma decisions_are_final_witness :
  let d := Scenario.afterManager in
  let d' := (apply_verdict Runtime.coerce
               (Reject 10 (Scenario.decision Scenario.Finance 1002 (Some "missing receipt")))
               d).2 in
  Forall2 (fun s s' =>
             (a_status s <> pending -> s' = s)
             /\ a_id s' = a_id s
             /\ a_expense_id s' = a_expense_id s
             /\ a_approver_id s' = a_approver_id s
             /\ a_sequence s' = a_sequence s)
          (approvals d) (approvals d')
  /\ Forall2 (fun e e' => (e_status e <> pending -> e' = e) /\ e_id e' = e_id e)
             (expenses d) (expenses d').
Proof.
  apply (decisions_are_final Runtime.coerce
           (Reject 10 (Scenario.decision Scenario.Finance 1002 (Some "missing receipt")))
           Scenario.afterManager).
  - distinct_keys.
  - distinct_keys.
Defined.

Lemma filter_map_unchanged {A : Type} (p : A -> bool) (f : A -> A) (l : list A) :
  (forall x, In x l -> p (f x) = p x /\ (p x = true -> f x = x)) ->
  List.filter p (map f l) = List.filter p l.
Proof.
  induction l as [|x l IH]; simpl; intros H; [reflexivity|].
  destruct (H x (or_introl eq_refl)) as [Hp Hx]. rewrite Hp.
  rewrite IH by (intros y Hy; apply H; right; exact Hy).
  destruct (p x); [rewrite Hx by reflexivity|]; reflexivity.
Qed.

(** One decision leaves an expense that is no longer pending, and its
    slots, as they are. *)
Lemma row_update_frozen target d d' e :
  approvals_key d -> expenses_key d ->
  row_update target d d' ->
  In e (expenses d) -> e_status e <> pending ->
  approvals_key d' /\ expenses_key d'
  /\ In e (expenses d') /\ approvals_of d' (e_id e) = approvals_of d (e_id e).
Proof.
  intros Hka Hke Hupdate He Hdone.
  destruct (row_update_keys _ _ _ Hupdate) as [Hida Hide].
  destruct Hupdate
    as (f & g & Ha & Hx & _ & _ & _ & _ & _ & Hf & Hg & Hrows & Hexp & Htarget).
  assert (Hother : (forall r, f r = r) \/ e_id e <> target).
  { destruct Htarget as [[Hsame _]|(expense & Hfind & Hpending)]; [left; exact Hsame|].
    right. intros Hid. apply find_by_id in Hfind as [Hin Hid'].
    assert (e = expense) by (apply (same_id_same_row e_id (expenses d)); auto; congruence).
    congruence. }
  unfold approvals_key, expenses_key. rewrite Hida, Hide.
  split; [exact Hka|]. split; [exact Hke|]. split.
  - rewrite Hx. apply in_map_iff. exists e. split; [|exact He].
    destruct Htarget as [[_ Hsame]|(expense & Hfind & Hpending)]; [apply Hsame|].
    apply Hexp. intros Hid. apply find_by_id in Hfind as [Hin Hid'].
    assert (e = expense) by (apply (same_id_same_row e_id (expenses d)); auto; congruence).
    congruence.
  - unfold approvals_of. rewrite Ha. apply filter_map_unchanged.
    intros r Hr. destruct (Hf r) as (_ & -> & _). split; [reflexivity|].
    intros Hmine. apply N.eqb_eq in Hmine.
    destruct Hother as [Hsame|Hne]; [apply Hsame|].
    apply (Hrows Hka r Hr). right. congruence.
Qed.

(** A series of decisions leaves an expense that is no longer pending,
    and its slots, as they are; it does not touch the users and the
    approver rows. *)
Lemma verdicts_frozen coerce vs d e :
  approvals_key d -> expenses_key d ->
  In e (expenses d) -> e_status e <> pending ->
  In e (expenses (apply_verdicts coerce vs d))
  /\ approvals_of (apply_verdicts coerce vs d) (e_id e) = approvals_of d (e_id e)
  /\ approvers (apply_verdicts coerce vs d) = approvers d
  /\ users (apply_verdicts coerce vs d) = users d.
Proof.
  revert d. induction vs as [|v vs IH]; intros d Hka Hke He Hdone; simpl.
  - auto.
  - destruct (verdict_rows coerce v d) as [target Hupdate].
    destruct (row_update_frozen _ _ _ e Hka Hke Hupdate He Hdone)
      as (Hka' & Hke' & He' & Hrows).
    destruct (IH _ Hka' Hke' He' Hdone) as (Hin & Heq & Hap & Hu).
    destruct Hupdate as (_ & _ & _ & _ & Hu' & _ & Hap' & _).
    split; [exact Hin|]. split; [rewrite Heq; exact Hrows|].
    split; congruence.
Qed.

(** X8.  An expense that is no longer pending is frozen: no series of
    approvals and rejections changes its row or any of its slots.  The
    primary keys of the two tables are assumed. *)
Theorem terminated_expense_is_frozen :
  forall coerce vs d e,
    approvals_key d -> expenses_key d ->
    In e (expenses d) -> e_status e <> pending ->
    In e (expenses (apply_verdicts coerce vs d))
    /\ approvals_of (apply_verdicts coerce vs d) (e_id e) = approvals_of d (e_id e).
Proof.
  intros coerce vs d e Hka Hke He Hdone.
  destruct (verdicts_frozen coerce vs d e Hka Hke He Hdone) as (Hin & Hrows & _).
  auto.
Qed.

(** The expense that Finance has rejected, and two decisions that are
    posted afterwards. *)
Lemma terminated_expense_is_frozen_witness :
  let d := Scenario.afterRejection in
  let e := Scenario.expenseRow d 1000 in
  let vs := [Approve 20 (Scenario.decision Scenario.CEO 1003 None);
             Reject 21 (Scenario.decision Scenario.Finance 1002 (Some "too late"))] in
  In e (expenses (apply_verdicts Runtime.coerce vs d))
  /\ approvals_of (apply_verdicts Runtime.coerce vs d) (e_id e) = approvals_of d (e_id e).
Proof.
  apply (terminated_expense_is_frozen Runtime.coerce
           [Approve 20 (Scenario.decision Scenario.CEO 1003 None);
            Reject 21 (Scenario.decision Scenario.Finance 1002 (Some "too late"))]
           Scenario.afterRejection (Scenario.expenseRow Scenario.afterRejection 1000)).
  - distinct_keys.
  - distinct_keys.
  - vm_compute. auto.
  - by_computing.
Defined.

(** ** The order of approvals *)

Lemma in_order_approve coerce now req d :
  approvals_key d -> in_order d -> in_order (approveExpense coerce now req d).2.
Proof.
  intros Hkey Horder.
  destruct (approve_step coerce now req d)
    as [->|(slot & expense & fully & Hs & He & Hme & Hst & Hex & Hq & ->)]; [exact Horder|].
  cbv zeta.
  assert (Hrows : approvals
                    (if fully
                     then with_expenses
                            (with_approvals d
                               (map (decide_row (dr_id req) approved
                                       (or_null (dr_comments req)) now) (approvals d)))
                            (map (set_expense_status (a_expense_id slot) approved now)
                               (expenses
                                  (with_approvals d
                                     (map (decide_row (dr_id req) approved
                                             (or_null (dr_comments req)) now)
                                          (approvals d)))))
                     else with_approvals d
                            (map (decide_row (dr_id req) approved
                                    (or_null (dr_comments req)) now) (approvals d)))
                  = map (decide_row (dr_id req) approved (or_null (dr_comments req)) now)
                        (approvals d))
    by (destruct fully; reflexivity).
  unfold in_order. rewrite Hrows. clear Hrows.
  apply find_by_id in Hs as [Hslot Hslotid].
  intros s' t' Hs' Ht' Hsame Hlower Happroved.
  apply in_map_iff in Hs' as (s & <- & Hs). apply in_map_iff in Ht' as (t & <- & Ht).
  destruct (decide_row_identity (dr_id req) approved (or_null (dr_comments req)) now s)
    as (_ & Hse & _ & Hss & _).
  destruct (decide_row_identity (dr_id req) approved (or_null (dr_comments req)) now t)
    as (_ & Hte & _ & Hts & _).
  rewrite Hse, Hte in Hsame. rewrite Hss, Hts in Hlower.
  assert (Ht_old : a_status t = approved ->
                   a_status (decide_row (dr_id req) approved (or_null (dr_comments req)) now t)
                   = approved).
  { intros Hta. unfold decide_row. destruct (N.eqb (a_id t) (dr_id req)); [reflexivity|exact Hta]. }
  apply Ht_old.
  destruct (N.eqb_spec (a_id s) (dr_id req)) as [Hid|Hid].
  - assert (s = slot) as -> by (apply (same_id_same_row a_id (approvals d)); auto; congruence).
    destruct (status_eqb (a_status t) approved) eqn:Hta; [apply status_eqb_eq; exact Hta|].
    exfalso. apply status_eqb_neq in Hta.
    assert (Hblock : In t (unapprovedPrevious d slot)).
    { apply unapprovedPrevious_In. unfold blocks. auto. }
    rewrite Hq in Hblock. destruct Hblock.
  - rewrite decide_row_other in Happroved by exact Hid.
    apply (Horder s t); auto.
Qed.

Lemma in_order_reject now req d :
  approvals_key d -> in_order d -> in_order (rejectExpense now req d).2.
Proof.
  intros Hkey Horder.
  destruct (reject_step now req d)
    as [->|(slot & expense & comments & Hs & He & Hme & Hst & Hex & Ha & _)];
    [exact Horder|].
  unfold in_order. rewrite Ha.
  apply find_by_id in Hs as [Hslot Hslotid].
  intros s' t' Hs' Ht' Hsame Hlower Happroved.
  apply in_map_iff in Hs' as (s & <- & Hs). apply in_map_iff in Ht' as (t & <- & Ht).
  assert (Hkept : forall r, In r (approvals d) ->
            a_status (cascade_row (a_expense_id slot) (dr_id req) now
                        (decide_row (dr_id req) rejected (Some comments) now r)) = approved ->
            a_status r = approved
            /\ cascade_row (a_expense_id slot) (dr_id req) now
                 (decide_row (dr_id req) rejected (Some comments) now r) = r).
  { intros r Hr. unfold cascade_row, decide_row, is_pending.
    destruct (N.eqb_spec (a_id r) (dr_id req)) as [Hid|Hid]; simpl.
    - rewrite Hid, N.eqb_refl, andb_false_r. simpl. discriminate.
    - destruct (_ && _) eqn:Hc; simpl; [discriminate|auto]. }
  destruct (Hkept s Hs Happroved) as [Hsa Hs_same].
  rewrite Hs_same in Hsame, Hlower.
  destruct (cascade_row_identity (a_expense_id slot) (dr_id req) now
              (decide_row (dr_id req) rejected (Some comments) now t))
    as (_ & Hte & _ & Hts & _).
  destruct (decide_row_identity (dr_id req) rejected (Some comments) now t)
    as (_ & Hte' & _ & Hts' & _).
  rewrite Hte, Hte' in Hsame. rewrite Hts, Hts' in Hlower.
  pose proof (Horder s t Hs Ht Hsame Hlower Hsa) as Hta.
  assert (a_id t <> dr_id req).
  { intros Hid.
    assert (t = slot) by (apply (same_id_same_row a_id (approvals d)); auto; congruence).
    congruence. }
  rewrite decide_row_other by assumption.
  rewrite cascade_row_other; [exact Hta|]. left. congruence.
Qed.

(** X9.  The order of the chain is kept by every series of decisions: if
    below each approved slot of an expense every slot with a lower
    sequence is approved, then this still holds after any approvals and
    rejections, accepted or refused.  The primary key of [approvals] is
    assumed. *)
Theorem approvals_stay_in_order :
  forall coerce vs d,
    approvals_key d -> in_order d -> in_order (apply_verdicts coerce vs d).
Proof.
  intros coerce vs. induction vs as [|v vs IH]; intros d Hkey Horder; simpl; [exact Horder|].
  apply IH.
  - destruct (verdict_rows coerce v d) as [target Hupdate].
    unfold approvals_key. rewrite (proj1 (row_update_keys _ _ _ Hupdate)). exact Hkey.
  - destruct v as [now req|now req]; simpl.
    + apply in_order_approve; assumption.
    + apply in_order_reject; assumption.
Qed.

(** The manager, then the CEO out of turn, then Finance approve the three-slot chain. *)
Lemma approvals_stay_in_order_witness :
  in_order (apply_verdicts Runtime.coerce
              [Approve 9 (Scenario.decision Scenario.M 1001 None);
               Approve 10 (Scenario.decision Scenario.CEO 1003 None);
               Approve 11 (Scenario.decision Scenario.Finance 1002 None)]
              Scenario.pendingChain).
Proof.
  apply (approvals_stay_in_order Runtime.coerce
           [Approve 9 (Scenario.decision Scenario.M 1001 None);
            Approve 10 (Scenario.decision Scenario.CEO 1003 None);
            Approve 11 (Scenario.decision Scenario.Finance 1002 None)]
           Scenario.pendingChain).
  - distinct_keys.
  - intros s t Hs Ht _ _ Hst. table_rows Hs; discriminate Hst.
Defined.

(** ** Approvals that are accepted *)

Lemma nil_iff_no_member {A : Type} (l : list A) : l = [] <-> forall x, ~ In x l.
Proof.
  split; [intros -> x []|].
  destruct l as [|x l]; [reflexivity|]. intros H. destruct (H x). left. reflexivity.
Qed.

Lemma filter_none {A : Type} (p : A -> bool) (l : list A) :
  List.filter p l = [] <-> forall x, In x l -> p x = false.
Proof.
  rewrite nil_iff_no_member. split.
  - intros H x Hx. destruct (p x) eqn:Hp; [|reflexivity].
    destruct (H x). apply filter_In. auto.
  - intros H x Hx. apply filter_In in Hx as [Hx Hp]. rewrite (H x Hx) in Hp. discriminate.
Qed.

Lemma approve_accepted coerce now req d slot expense :
  find_approval d (dr_id req) = Some slot ->
  find_expense d (a_expense_id slot) = Some expense ->
  ~ refused (approveExpense coerce now req d).1 ->
  a_approver_id slot = p_id (dr_user req) /\ a_status slot = pending
  /\ e_status expense = pending /\ unapprovedPrevious d slot = [].
Proof.
  intros Hs He Hnot.
  destruct (N.eqb_spec (a_approver_id slot) (p_id (dr_user req))) as [Hme|Hme].
  2:{ exfalso. apply Hnot.
      rewrite (approve_not_assigned coerce now req d slot expense) by assumption.
      right. left. reflexivity. }
  destruct (status_eqb (a_status slot) pending) eqn:Hst.
  2:{ exfalso. apply Hnot. apply status_eqb_neq in Hst.
      rewrite (approve_already_decided coerce now req d slot expense) by assumption.
      left. reflexivity. }
  apply status_eqb_eq in Hst.
  destruct (status_eqb (e_status expense) pending) eqn:Hex.
  2:{ exfalso. apply Hnot. apply status_eqb_neq in Hex.
      rewrite (approve_already_terminated coerce now req d slot expense) by assumption.
      left. reflexivity. }
  apply status_eqb_eq in Hex.
  repeat split; auto.
  destruct (unapprovedPrevious d slot) as [|first rest] eqn:Hq; [reflexivity|].
  exfalso. apply Hnot.
  assert (Hblocks : blocks d slot first)
    by (apply unapprovedPrevious_In; rewrite Hq; left; reflexivity).
  destruct (approve_out_of_order coerce now req d slot expense Hs He first Hme Hst Hex Hblocks)
    as (lowest & _ & _ & ->).
  left. reflexivity.
Qed.

(** The answer and the database of an approval that passes the checks. *)
Lemma approve_passed coerce now req d slot expense :
  find_approval d (dr_id req) = Some slot ->
  find_expense d (a_expense_id slot) = Some expense ->
  a_approver_id slot = p_id (dr_user req) -> a_status slot = pending ->
  e_status expense = pending -> unapprovedPrevious d slot = [] ->
  let d1 := with_approvals d
              (map (decide_row (dr_id req) approved (or_null (dr_comments req)) now)
                   (approvals d)) in
  let rows := approvals_of d1 (a_expense_id slot) in
  let allDone :=
    match order_by a_sequence (List.filter (higher_sequence slot) (approvals d1)) with
    | [] => true
    | _ => forallb is_approved rows
    end in
  if unstorable (or_null (dr_comments req)) then
    http_status (approveExpense coerce now req d).1 = 500
    /\ (approveExpense coerce now req d).2 = d
  else
  match apply_rules coerce rows (active_rules d1 (e_company_id expense)) allDone with
  | Some fully =>
      (http_status (approveExpense coerce now req d).1 = 200
       \/ http_status (approveExpense coerce now req d).1 = 500)
      /\ (approveExpense coerce now req d).2
         = if fully then
             with_expenses d1
               (map (set_expense_status (a_expense_id slot) approved now) (expenses d1))
           else d1
  | None =>
      http_status (approveExpense coerce now req d).1 = 500
      /\ (approveExpense coerce now req d).2 = d
  end.
Proof.
  intros Hs He Hme Hst Hex Hq. cbv zeta.
  unfold approveExpense. rewrite Hs, He.
  apply N.eqb_eq in Hme. rewrite Hme. simpl.
  unfold is_pending. rewrite Hst, Hex. simpl. rewrite Hq.
  destruct (unstorable (or_null (dr_comments req))); [split; reflexivity|].
  match goal with |- context [apply_rules ?c ?r ?l ?b] => destruct (apply_rules c r l b) as [[|]|] end;
    [| |split; reflexivity];
    match goal with |- context [find_user ?c ?u] => destruct (find_user c u) end;
    simpl; auto.
Qed.

Lemma apply_rules_start_true coerce rows rules fully :
  apply_rules coerce rows rules true = Some fully -> fully = true.
Proof.
  induction rules as [|rule rules IH]; simpl; [congruence|].
  destruct (rule_approves coerce rows rule) as [hit|]; [|discriminate].
  rewrite orb_true_r. exact IH.
Qed.

(** Rules of other types than [percentage] leave the loop as it
    started. *)
Lemma apply_rules_inert coerce rows rules start :
  (forall r, In r rules -> r_rule_type r <> "percentage") ->
  apply_rules coerce rows rules start = Some start.
Proof.
  revert start. induction rules as [|rule rules IH]; simpl; intros start H; [reflexivity|].
  rewrite rule_approves_other by (apply H; left; reflexivity). simpl.
  apply IH. intros r Hr. apply H. right. exact Hr.
Qed.

(** X10.  An approval that is answered with status 200 has written the
    slot as approved, with the comment and the time of the decision.  When
    no slot of the expense has a higher sequence, it has also made the
    expense approved.  When some slot with a higher sequence is not
    approved, and the company has no active rule of type [percentage], the
    expense is left as it was, pending.  The primary key of [approvals] is
    assumed. *)
Theorem last_approval_approves_expense :
  forall coerce now req d slot expense,
    approvals_key d ->
    find_approval d (dr_id req) = Some slot ->
    find_expense d (a_expense_id slot) = Some expense ->
    http_status (approveExpense coerce now req d).1 = 200 ->
    let d' := (approveExpense coerce now req d).2 in
    (exists slot',
       find_approval d' (dr_id req) = Some slot' /\ a_status slot' = approved
       /\ a_comments slot' = or_null (dr_comments req) /\ a_approved_at slot' = Some now
       /\ a_sequence slot' = a_sequence slot /\ a_approver_id slot' = p_id (dr_user req))
    /\ ((forall s, In s (approvals d) -> a_expense_id s = a_expense_id slot ->
                   a_sequence s <= a_sequence slot) ->
        exists e', find_expense d' (a_expense_id slot) = Some e'
                   /\ e_status e' = approved /\ e_updated_at e' = now)
    /\ ((exists s, In s (approvals d) /\ a_expense_id s = a_expense_id slot
                   /\ a_sequence slot < a_sequence s /\ a_status s <> approved) ->
        (forall r, In r (active_rules d (e_company_id expense)) ->
                   r_rule_type r <> "percentage") ->
        find_expense d' (a_expense_id slot) = Some expense /\ e_status expense = pending).
Proof.
  intros coerce now req d slot expense Hkey Hs He H200 d'.
  assert (Hnot : ~ refused (approveExpense coerce now req d).1).
  { unfold refused. rewrite H200. intros [H|[H|H]]; discriminate. }
  destruct (approve_accepted coerce now req d slot expense Hs He Hnot)
    as (Hme & Hst & Hex & Hq).
  pose proof (approve_passed coerce now req d slot expense Hs He Hme Hst Hex Hq) as Hpass.
  cbv zeta in Hpass.
  set (d1 := with_approvals d
               (map (decide_row (dr_id req) approved (or_null (dr_comments req)) now)
                    (approvals d))) in *.
  destruct (unstorable (or_null (dr_comments req)));
    [destruct Hpass as [H500 _]; rewrite H200 in H500; discriminate|].
  destruct (apply_rules coerce _ _ _) as [fully|] eqn:Hrules in Hpass;
    [|destruct Hpass as [H500 _]; rewrite H200 in H500; discriminate].
  destruct Hpass as [_ Hd']. fold d' in Hd'.
  pose proof (find_by_id a_id _ _ _ Hs) as [Hslot Hslotid].
  pose proof (find_by_id e_id _ _ _ He) as [Hexpense Hexpenseid].
  assert (Hexpenses1 : find_expense d1 (a_expense_id slot) = Some expense) by exact He.
  split; [|split].
  - exists (decide_row (dr_id req) approved (or_null (dr_comments req)) now slot).
    split.
    + assert (Ha : approvals d'
                   = map (decide_row (dr_id req) approved (or_null (dr_comments req)) now)
                         (approvals d))
        by (rewrite Hd'; destruct fully; reflexivity).
      unfold find_approval in *. rewrite Ha.
      rewrite (find_after_update a_id) by (intros r; apply decide_row_identity).
      rewrite Hs. reflexivity.
    + unfold decide_row. rewrite Hslotid, N.eqb_refl. simpl. auto.
  - intros Hlast.
    assert (Hnone : List.filter (higher_sequence slot) (approvals d1) = []).
    { apply filter_none. intros r' Hr'. apply in_map_iff in Hr' as (r & <- & Hr).
      destruct (decide_row_identity (dr_id req) approved (or_null (dr_comments req)) now r)
        as (_ & Hre & _ & Hrs & _).
      unfold higher_sequence. rewrite Hre, Hrs.
      destruct (N.eqb_spec (a_expense_id r) (a_expense_id slot)) as [Hsame|]; [|reflexivity].
      simpl. apply Z.ltb_ge. apply Hlast; assumption. }
    rewrite Hnone in Hrules. simpl in Hrules.
    apply apply_rules_start_true in Hrules. subst fully.
    exists (set_expense_status (a_expense_id slot) approved now expense).
    split.
    + rewrite Hd'. unfold find_expense in *. cbn [expenses with_expenses].
      rewrite (find_after_update e_id) by (intros r; apply set_expense_status_identity).
      rewrite Hexpenses1. reflexivity.
    + unfold set_expense_status. rewrite Hexpenseid, N.eqb_refl. auto.
  - intros (s & Hin & Hsame & Hhigher & Hpending) Hnorule.
    assert (Hs1 : In s (approvals d1)).
    { apply in_map_iff. exists s. split; [|exact Hin].
      apply decide_row_other. intros Hid.
      assert (s = slot) by (apply (same_id_same_row a_id (approvals d)); auto; congruence).
      subst s. lia. }
    assert (Hremaining : In s (order_by a_sequence
                                 (List.filter (higher_sequence slot) (approvals d1)))).
    { apply order_by_In, filter_In. split; [exact Hs1|].
      unfold higher_sequence. rewrite Hsame, N.eqb_refl. simpl. apply Z.ltb_lt. exact Hhigher. }
    destruct (order_by a_sequence (List.filter (higher_sequence slot) (approvals d1)))
      as [|next rest] eqn:Horder; [destruct Hremaining|].
    assert (Hsome : forallb is_approved (approvals_of d1 (a_expense_id slot)) = false).
    { destruct (forallb is_approved (approvals_of d1 (a_expense_id slot))) eqn:Hall;
        [|reflexivity].
      rewrite forallb_forall in Hall.
      assert (Hrow : In s (approvals_of d1 (a_expense_id slot))).
      { apply filter_In. split; [exact Hs1|]. apply N.eqb_eq. exact Hsame. }
      apply Hall in Hrow. apply status_eqb_eq in Hrow. contradiction. }
    rewrite Hsome in Hrules.
    rewrite apply_rules_inert in Hrules by exact Hnorule.
    injection Hrules as <-. rewrite Hd'. split; [exact Hexpenses1|exact Hex].
Qed.

(** The administrator approves the second and last slot of a chain of two. *)
Lemma last_approval_approves_expense_witness :
  let d := Sample.afterFirst in
  let req := Scenario.decision Scenario.admin 1002 None in
  let slot := Scenario.slot d 1002 in
  let submitted := Scenario.expenseRow d 1000 in
  let d' := (approveExpense Runtime.coerce 11 req d).2 in
  (exists slot',
     find_approval d' (dr_id req) = Some slot'
     /\ a_status slot' = approved
     /\ a_comments slot' = or_null (dr_comments req)
     /\ a_approved_at slot' = Some 11
     /\ a_sequence slot' = a_sequence slot
     /\ a_approver_id slot' = p_id (dr_user req))
  /\ ((forall s, In s (approvals d) -> a_expense_id s = a_expense_id slot ->
                 a_sequence s <= a_sequence slot) ->
      exists e', find_expense d' (a_expense_id slot) = Some e'
                 /\ e_status e' = approved /\ e_updated_at e' = 11)
  /\ ((exists s, In s (approvals d) /\ a_expense_id s = a_expense_id slot
                 /\ a_sequence slot < a_sequence s /\ a_status s <> approved) ->
      (forall r, In r (active_rules d (e_company_id submitted)) ->
                 r_rule_type r <> "percentage") ->
      find_expense d' (a_expense_id slot) = Some submitted
      /\ e_status submitted = pending).
Proof.
  apply (last_approval_approves_expense Runtime.coerce 11
           (Scenario.decision Scenario.admin 1002 None) Sample.afterFirst
           (Scenario.slot Sample.afterFirst 1002)
           (Scenario.expenseRow Sample.afterFirst 1000)).
  - distinct_keys.
  - by_computing.
  - by_computing.
  - by_computing.
Defined.

(** ** The list of pending approvals *)

Lemma blocking_none d a : blocking_approvals d a = 0%nat <-> unapprovedPrevious d a = [].
Proof.
  unfold blocking_approvals. rewrite length_zero_iff_nil, filter_none, nil_iff_no_member.
  split.
  - intros H s Hs. apply unapprovedPrevious_In, blocks_iff in Hs as (Hin & Hlow & Hna).
    specialize (H s Hin). rewrite Hlow, Hna in H. discriminate.
  - intros H s Hs. destruct (lower_sequence a s && negb (is_approved s)) eqn:Hb; [|reflexivity].
    apply andb_prop in Hb as [Hlow Hna].
    destruct (H s). apply unapprovedPrevious_In, blocks_iff. auto.
Qed.

Lemma approve_not_refused coerce now req d slot expense :
  find_approval d (dr_id req) = Some slot ->
  find_expense d (a_expense_id slot) = Some expense ->
  a_approver_id slot = p_id (dr_user req) -> a_status slot = pending ->
  e_status expense = pending -> unapprovedPrevious d slot = [] ->
  ~ refused (approveExpense coerce now req d).1.
Proof.
  intros Hs He Hme Hst Hex Hq.
  pose proof (approve_passed coerce now req d slot expense Hs He Hme Hst Hex Hq) as Hpass.
  cbv zeta in Hpass. unfold refused.
  destruct (unstorable (or_null (dr_comments req)));
    [destruct Hpass as [-> _]; intros [H|[H|H]]; discriminate|].
  destruct (apply_rules coerce _ _ _) in Hpass.
  - destruct Hpass as [[->| ->] _]; intros [H|[H|H]]; discriminate.
  - destruct Hpass as [-> _]. intros [H|[H|H]]; discriminate.
Qed.

Lemma pendingRows_In d p a e u c :
  In (a, e, u, c) (pendingRows d p)
  <-> In a (approvals d)
      /\ find_expense d (a_expense_id a) = Some e
      /\ find_user d (e_user_id e) = Some u
      /\ find_company d (e_company_id e) = Some c
      /\ a_approver_id a = p_id p /\ a_status a = pending /\ e_status e = pending
      /\ e_company_id e = p_company_id p.
Proof.
  unfold pendingRows. rewrite order_by_In, in_flat_map. split.
  - intros (a' & Ha' & Hrow).
    destruct (find_expense d (a_expense_id a')) as [e'|] eqn:He; [|destruct Hrow].
    destruct (find_user d (e_user_id e')) as [u'|] eqn:Hu; [|destruct Hrow].
    destruct (find_company d (e_company_id e')) as [c'|] eqn:Hc; [|destruct Hrow].
    destruct (_ && _) eqn:Hcond in Hrow; [|destruct Hrow].
    destruct Hrow as [[= <- <- <- <-]|[]].
    apply andb_prop in Hcond as [Hcond H4]. apply andb_prop in Hcond as [Hcond H3].
    apply andb_prop in Hcond as [H1 H2].
    apply N.eqb_eq in H1, H4. apply status_eqb_eq in H2, H3.
    repeat split; auto.
  - intros (Ha & He & Hu & Hc & H1 & H2 & H3 & H4).
    exists a. split; [exact Ha|]. rewrite He, Hu, Hc.
    unfold is_pending. rewrite H1, H2, H3, H4, !N.eqb_refl. simpl. left. reflexivity.
Qed.

(** X11.  The list of pending approvals of a caller holds exactly the
    slots that the caller can approve: a slot is listed if and only if an
    approval of it by the caller is not refused, the expense belongs to the
    caller's company, and the submitter and the company of the expense can
    be read.  The primary key of [approvals] is assumed. *)
Theorem pending_list_matches_approve :
  forall coerce now p d a comments,
    approvals_key d ->
    (In a (map (fun row : approval * expense * user * company => row.1.1.1)
               (availableApprovals d p))
     <-> In a (approvals d)
         /\ ~ refused (approveExpense coerce now
                         {| dr_user := p; dr_id := a_id a; dr_comments := comments |} d).1
         /\ exists e, find_expense d (a_expense_id a) = Some e
                      /\ e_company_id e = p_company_id p
                      /\ is_Some (find_user d (e_user_id e))
                      /\ is_Some (find_company d (e_company_id e))).
Proof.
  intros coerce now p d a comments Hkey.
  set (req := {| dr_user := p; dr_id := a_id a; dr_comments := comments |}).
  assert (Hfind : In a (approvals d) -> find_approval d (dr_id req) = Some a).
  { intros Hin. apply (find_in_key a_id); assumption. }
  rewrite in_map_iff. split.
  - intros ([[[a' e] u] c] & Heq & Hrow). simpl in Heq. subst a'.
    apply filter_In in Hrow as [Hrow Hfree]. simpl in Hfree.
    apply Nat.eqb_eq, blocking_none in Hfree.
    apply pendingRows_In in Hrow as (Ha & He & Hu & Hc & H1 & H2 & H3 & H4).
    split; [exact Ha|]. split.
    + apply (approve_not_refused coerce now req d a e); auto.
    + exists e. rewrite Hu, Hc. eauto.
  - intros (Ha & Hnot & e & He & Hcompany & [u Hu] & [c Hc]).
    destruct (approve_accepted coerce now req d a e (Hfind Ha) He Hnot)
      as (H1 & H2 & H3 & Hq).
    exists (a, e, u, c). split; [reflexivity|].
    apply filter_In. split.
    + apply pendingRows_In. repeat split; auto.
    + simpl. apply Nat.eqb_eq, blocking_none. exact Hq.
Qed.

(** The manager and the first slot of the three-slot chain. *)
Lemma pending_list_matches_approve_witness :
  let d := Scenario.pendingChain in
  let p := Scenario.as_principal Scenario.M in
  let a := Scenario.slot d 1001 in
  In a (map (fun row : approval * expense * user * company => row.1.1.1)
            (availableApprovals d p))
  <-> In a (approvals d)
      /\ ~ refused (approveExpense Runtime.coerce 9
                      {| dr_user := p; dr_id := a_id a; dr_comments := None |} d).1
      /\ exists e, find_expense d (a_expense_id a) = Some e
                   /\ e_company_id e = p_company_id p
                   /\ is_Some (find_user d (e_user_id e))
                   /\ is_Some (find_company d (e_company_id e)).
Proof.
  apply (pending_list_matches_approve Runtime.coerce 9
           (Scenario.as_principal Scenario.M) Scenario.pendingChain
           (Scenario.slot Scenario.pendingChain 1001) None).
  distinct_keys.
Defined.

(** ** Who may read an expense and its history *)

Lemma teamCheck_spec d managerId userId :
  teamCheck d managerId userId = true <-> on_team d managerId userId.
Proof.
  unfold teamCheck, on_team. rewrite existsb_exists. split.
  - intros (u & Hu & Hb). apply andb_prop in Hb as [Hm Hid].
    destruct (u_manager_id u) as [m|] eqn:Hmgr; [|discriminate].
    apply N.eqb_eq in Hm, Hid. exists u. subst. auto.
  - intros (u & Hu & Hid & Hm). exists u. split; [exact Hu|].
    rewrite Hm, Hid, !N.eqb_refl. reflexivity.
Qed.

Lemma approverCheck_spec d expenseId userId :
  approverCheck d expenseId userId = true <-> has_slot d expenseId userId.
Proof.
  unfold approverCheck, has_slot. rewrite existsb_exists. split.
  - intros (a & Ha & Hb). apply andb_prop in Hb as [He Hu].
    apply N.eqb_eq in He, Hu. eauto.
  - intros (a & Ha & He & Hu). exists a. split; [exact Ha|].
    rewrite He, Hu, !N.eqb_refl. reflexivity.
Qed.

Lemma expense_access_spec d p e :
  expense_access d p e = true <-> may_read_expense d p e.
Proof.
  unfold expense_access, may_read_expense.
  destruct (String.eqb_spec (p_role p) "admin") as [Hadmin|Hadmin]; simpl.
  - destruct (N.eqb_spec (e_company_id e) (p_company_id p)) as [Hc|Hc]; [tauto|].
    rewrite Hadmin. simpl. rewrite N.eqb_eq. split; [tauto|].
    intros [[_ H]|[H|[H _]]]; [contradiction|exact H|discriminate].
  - destruct (String.eqb_spec (p_role p) "manager") as [Hmgr|Hmgr].
    + rewrite orb_true_iff, teamCheck_spec, N.eqb_eq. tauto.
    + rewrite N.eqb_eq. tauto.
Qed.

Lemma history_access_spec d p e :
  history_access d p (e_id e) e = true <-> may_read_history d p e.
Proof.
  unfold history_access, may_read_history, may_read_expense.
  destruct (String.eqb_spec (p_role p) "admin") as [Hadmin|Hadmin]; simpl.
  - destruct (N.eqb_spec (e_company_id e) (p_company_id p)) as [Hc|Hc]; [tauto|].
    rewrite Hadmin. simpl. rewrite N.eqb_eq. split; [tauto|].
    intros [[[_ H]|[H|[H _]]]|[H _]]; [contradiction|exact H|discriminate|discriminate].
  - destruct (String.eqb_spec (p_role p) "manager") as [Hmgr|Hmgr].
    + rewrite !orb_true_iff, teamCheck_spec, approverCheck_spec, N.eqb_eq. tauto.
    + rewrite N.eqb_eq. tauto.
Qed.

(** X12.  An expense that exists, with its submitter and its company, is
    shown to the caller of [getExpenseById] if and only if the caller is an
    administrator of the company of the expense, or its submitter, or a
    manager whose team the submitter is on; everyone else gets 403.  An
    administrator of another company is served only as submitter, and a
    manager is not held to the company. *)
Theorem expense_access_policy :
  forall req d e,
    find_expense d (rd_id req) = Some e ->
    is_Some (find_user d (e_user_id e)) ->
    is_Some (find_company d (e_company_id e)) ->
    (http_status (getExpenseById req d) = 200 <-> may_read_expense d (rd_user req) e)
    /\ (http_status (getExpenseById req d) = 403 <-> ~ may_read_expense d (rd_user req) e).
Proof.
  intros req d e He [u Hu] [c Hc].
  unfold getExpenseById. rewrite He, Hu, Hc.
  rewrite <- expense_access_spec.
  destruct (expense_access d (rd_user req) e); simpl; split; split;
    try discriminate; try reflexivity; intros H; congruence.
Qed.

(** Finance, approver of the second slot, asks for the expense of the employee. *)
Lemma expense_access_policy_witness :
  let d := Scenario.pendingChain in
  let req := Sample.reads Scenario.Finance 1000 in
  let e := Scenario.expenseRow d 1000 in
  (http_status (getExpenseById req d) = 200 <-> may_read_expense d (rd_user req) e)
  /\ (http_status (getExpenseById req d) = 403 <-> ~ may_read_expense d (rd_user req) e).
Proof.
  apply (expense_access_policy (Sample.reads Scenario.Finance 1000) Scenario.pendingChain
           (Scenario.expenseRow Scenario.pendingChain 1000)).
  - by_computing.
  - by_computing.
  - by_computing.
Defined.

(** X13.  The approval history of an expense that exists, with its
    submitter, is shown to those who may read the expense and, besides, to
    a manager who is the approver of one of its slots; everyone else gets
    403.  Whoever is shown the expense is shown its history. *)
Theorem history_access_policy :
  forall req d e,
    find_expense d (rd_id req) = Some e ->
    is_Some (find_user d (e_user_id e)) ->
    (http_status (getApprovalHistory req d) = 200 <-> may_read_history d (rd_user req) e)
    /\ (http_status (getApprovalHistory req d) = 403 <-> ~ may_read_history d (rd_user req) e)
    /\ (http_status (getExpenseById req d) = 200 ->
        http_status (getApprovalHistory req d) = 200).
Proof.
  intros req d e He [u Hu].
  pose proof (find_by_id e_id _ _ _ He) as [_ Hid].
  assert (Hhistory : http_status (getApprovalHistory req d)
                     = if history_access d (rd_user req) (e_id e) e then 200 else 403).
  { unfold getApprovalHistory. rewrite He, Hu, <- Hid.
    destruct (history_access d (rd_user req) (e_id e) e); reflexivity. }
  rewrite Hhistory, <- history_access_spec.
  split; [|split].
  - destruct (history_access d (rd_user req) (e_id e) e); split; congruence.
  - destruct (history_access d (rd_user req) (e_id e) e); split; congruence.
  - unfold getExpenseById. rewrite He, Hu.
    destruct (find_company d (e_company_id e)); [|discriminate].
    destruct (expense_access d (rd_user req) e) eqn:Hacc; [|discriminate].
    intros _. apply expense_access_spec in Hacc.
    assert (Hh : may_read_history d (rd_user req) e) by (left; exact Hacc).
    apply history_access_spec in Hh. rewrite Hh. reflexivity.
Qed.

(** Finance, approver of the second slot, asks for the history of the expense. *)
Lemma history_access_policy_witness :
  let d := Scenario.pendingChain in
  let req := Sample.reads Scenario.Finance 1000 in
  let e := Scenario.expenseRow d 1000 in
  (http_status (getApprovalHistory req d) = 200 <-> may_read_history d (rd_user req) e)
  /\ (http_status (getApprovalHistory req d) = 403 <-> ~ may_read_history d (rd_user req) e)
  /\ (http_status (getExpenseById req d) = 200 ->
      http_status (getApprovalHistory req d) = 200).
Proof.
  apply (history_access_policy (Sample.reads Scenario.Finance 1000) Scenario.pendingChain
           (Scenario.expenseRow Scenario.pendingChain 1000)).
  - by_computing.
  - by_computing.
Defined.

(** ** The rows of a history *)

Lemma approvalsResult_In d expenseId a u :
  In (a, u) (approvalsResult d expenseId)
  <-> In a (approvals d) /\ a_expense_id a = expenseId
      /\ find_user d (a_approver_id a) = Some u.
Proof.
  unfold approvalsResult. rewrite order_by_In, in_flat_map. split.
  - intros (a' & Ha' & Hrow).
    destruct (N.eqb_spec (a_expense_id a') expenseId) as [He|He]; [|destruct Hrow].
    destruct (find_user d (a_approver_id a')) as [u'|] eqn:Hu; [|destruct Hrow].
    destruct Hrow as [[= <- <-]|[]]. auto.
  - intros (Ha & He & Hu). exists a. split; [exact Ha|].
    rewrite He, N.eqb_refl, Hu. left. reflexivity.
Qed.

Lemma count_status_partition (rows : list (approval * user)) :
  (forall row, In row rows -> a_status row.1 <> draft) ->
  (count_status approved rows + count_status rejected rows + count_status pending rows
   = length rows)%nat.
Proof.
  unfold count_status. induction rows as [|row rows IH]; simpl; intros H; [reflexivity|].
  specialize (IH (fun r Hr => H r (or_intror Hr))).
  pose proof (H row (or_introl eq_refl)) as Hrow.
  destruct (a_status row.1); simpl; try lia. congruence.
Qed.

(** X14.  The history that [getApprovalHistory] answers with lists the
    slots of the expense whose approver can be read, each with its
    approver, in ascending order of sequence; and its statistics add up:
    the numbers of approved, rejected and pending slots make the total.
    The statuses are those that the table allows. *)
Theorem history_statistics_add_up :
  forall req d,
    (forall a, In a (approvals d) -> a_status a <> draft) ->
    http_status (getApprovalHistory req d) = 200 ->
    exists rows,
      field "approvals" (body (getApprovalHistory req d))
      = Some (JArr (map json_history_row rows))
      /\ (forall a u, In (a, u) rows
                      <-> In a (approvals d) /\ a_expense_id a = rd_id req
                          /\ find_user d (a_approver_id a) = Some u)
      /\ StronglySorted (ascending (fun row : approval * user => a_sequence row.1)) rows
      /\ exists total approved_count rejected_count pending_count percentage,
           field "statistics" (body (getApprovalHistory req d))
           = Some (JObj [("total", JInt (Z.of_nat total));
                         ("approved", JInt (Z.of_nat approved_count));
                         ("rejected", JInt (Z.of_nat rejected_count));
                         ("pending", JInt (Z.of_nat pending_count));
                         ("completion_percentage", percentage)])
           /\ total = length rows
           /\ (approved_count + rejected_count + pending_count = total)%nat.
Proof.
  intros req d Hstatus H200.
  exists (approvalsResult d (rd_id req)).
  unfold getApprovalHistory in *.
  destruct (find_expense d (rd_id req)) as [e|]; [|discriminate].
  destruct (find_user d (e_user_id e)) as [u|]; [|discriminate].
  destruct (history_access d (rd_user req) (rd_id req) e); [|discriminate].
  simpl.
  split; [reflexivity|].
  split; [intros a' u'; apply approvalsResult_In|].
  split; [apply order_by_sorted|].
  eexists _, _, _, _, _. split; [reflexivity|]. split; [reflexivity|].
  apply count_status_partition.
  intros [a' u'] Hrow. apply approvalsResult_In in Hrow as (Ha & _). apply Hstatus, Ha.
Qed.

(** The history of the three-slot chain after the approval of the manager and the rejection of Finance. *)
Lemma history_statistics_add_up_witness :
  let d := Scenario.afterRejection in
  let req := Sample.reads Scenario.E 1000 in
  exists rows,
    field "approvals" (body (getApprovalHistory req d)) = Some (JArr (map json_history_row rows))
    /\ (forall a u, In (a, u) rows
                    <-> In a (approvals d) /\ a_expense_id a = rd_id req
                        /\ find_user d (a_approver_id a) = Some u)
    /\ StronglySorted (ascending (fun row : approval * user => a_sequence row.1)) rows
    /\ exists (total approved_count rejected_count pending_count : nat) percentage,
         field "statistics" (body (getApprovalHistory req d))
         = Some (JObj [("total", JInt (Z.of_nat total));
                       ("approved", JInt (Z.of_nat approved_count));
                       ("rejected", JInt (Z.of_nat rejected_count));
                       ("pending", JInt (Z.of_nat pending_count));
                       ("completion_percentage", percentage)])
         /\ total = length rows
         /\ (approved_count + rejected_count + pending_count)%nat = total.
Proof.
  apply (history_statistics_add_up (Sample.reads Scenario.E 1000) Scenario.afterRejection).
  - intros a Ha. table_rows Ha; discriminate.
  - by_computing.
Defined.

(** ** Submissions *)

Section SubmissionRows.

Variable toFixed2 : float -> float.
Variable parseFloat : string -> float.
Variable parseDate : string -> option Z.
Variable decimal_10_2 : float -> option float.
Variable date_column : Z -> option Z.
Variable expense_error : expense -> string.

Local Abbreviation submit := (submitExpense toFixed2 parseFloat parseDate decimal_10_2 date_column
     expense_error).

(** Everything that a submission answered with 201 has read and
    written. *)
Lemma submitExpense_201 w now req d cache resp d' cache' log :
  submit w now req d cache = (resp, d', cache', log) ->
  http_status resp = 201 ->
  exists c expenseDate convertedAmount stored approvalChain submitter e,
    converting parseFloat parseDate req d c
    /\ parseDate (default "" (sr_date req)) = Some expenseDate
    /\ requested_conversion toFixed2 parseFloat w req c cache
       = (Ok convertedAmount, cache', log)
    /\ insert_expense decimal_10_2 date_column d
         (submitted_row parseFloat now req d expenseDate convertedAmount) = Some stored
    /\ build_chain d (p_company_id (sr_user req)) (next_uuid d)
         (manager_of d (p_id (sr_user req))) now = Some approvalChain
    /\ find_user d (p_id (sr_user req)) = Some submitter
    /\ (e = stored \/ e = set_expense_status (next_uuid d) approved now stored)
    /\ expenses d' = (expenses d ++ [e])%list
    /\ approvals d' = (approvals d ++ map fst approvalChain)%list
    /\ users d' = users d /\ companies d' = companies d.
Proof.
  unfold submitExpense, manager_of, converting, requested_conversion. intros Hrun H201.
  destruct (missing (sr_amount req) || missing (sr_currency req)
            || missing (sr_category req) || missing (sr_date req)) eqn:Hmissing;
    [injection Hrun as <- _ _ _; discriminate H201|].
  destruct (is_nan _ || PrimFloat.leb _ 0) eqn:Hamount;
    [injection Hrun as <- _ _ _; discriminate H201|].
  destruct (parseDate _) as [expenseDate|] eqn:Hdate;
    [|injection Hrun as <- _ _ _; discriminate H201].
  destruct (find_company d _) as [c|] eqn:Hcompany;
    [|injection Hrun as <- _ _ _; discriminate H201].
  destruct (convertCurrency _ _ _ _ _ _) as [[[convertedAmount|message] cache1] log1] eqn:Hconv;
    [|injection Hrun as <- _ _ _; discriminate H201].
  destruct (insert_expense _ _ _ _) as [stored|] eqn:Hstored;
    [|injection Hrun as <- _ _ _; discriminate H201].
  pose proof (insert_expense_Some _ _ _ _ _ Hstored) as (_ & Hid & _). cbn [e_id] in Hid.
  rewrite Hid in Hrun.
  destruct (build_chain _ _ _ _ _) as [approvalChain|] eqn:Hchain;
    [|injection Hrun as <- _ _ _; discriminate H201].
  destruct (find_user _ _) as [submitter|] eqn:Hsubmitter in Hrun;
    [|injection Hrun as <- _ _ _; discriminate H201].
  injection Hrun as _ <- <- <-. cbn [expenses approvals users companies].
  exists c, expenseDate, convertedAmount, stored, approvalChain, submitter.
  eexists. split; [repeat split; eauto|].
  split; [first [exact Hdate|reflexivity]|].
  split; [first [exact Hconv|reflexivity]|].
  split; [exact Hstored|]. split; [first [exact Hchain|reflexivity]|].
  split; [exact Hsubmitter|].
  split; [|repeat split; reflexivity].
  destruct (_ && _); [right|left]; reflexivity.
Qed.

End SubmissionRows.

(** X15.  A submission never touches what is there: whatever the request
    and its outcome, the users, companies, approver rows and rules stay as
    they were, and the expenses and slots of before stay in place, with at
    most one expense and its pending slots appended.  A submission that is
    refused with status 400 or 404 writes nothing. *)
Theorem submission_only_appends :
  forall toFixed2 parseFloat parseDate decimal_10_2 date_column expense_error
         w now req d cache,
    let run :=
      submitExpense toFixed2 parseFloat parseDate decimal_10_2 date_column expense_error
        w now req d cache in
    users run.1.1.2 = users d /\ companies run.1.1.2 = companies d
    /\ approvers run.1.1.2 = approvers d /\ approval_rules run.1.1.2 = approval_rules d
    /\ (exists created slots,
          expenses run.1.1.2 = (expenses d ++ created)%list
          /\ approvals run.1.1.2 = (approvals d ++ slots)%list
          /\ (length created <= 1)%nat
          /\ Forall (fun e => e_id e = next_uuid d /\ e_user_id e = p_id (sr_user req)
                              /\ e_company_id e = p_company_id (sr_user req)) created
          /\ Forall (fun s => a_expense_id s = next_uuid d /\ a_status s = pending) slots)
    /\ (http_status run.1.1.1 = 400 \/ http_status run.1.1.1 = 404 -> run.1.1.2 = d)
    /\ (http_status run.1.1.1 = 201 \/ http_status run.1.1.1 = 400
        \/ http_status run.1.1.1 = 404 \/ http_status run.1.1.1 = 500).
Proof.
  intros toFixed2 parseFloat parseDate decimal_10_2 date_column expense_error
         w now req d cache run. subst run.
  assert (Hnothing : forall (resp : response) (cache' : rate_cache) (log : list effect),
            http_status resp = 400 \/ http_status resp = 404 \/ http_status resp = 500 ->
            let run := (resp, d, cache', log) in
            users run.1.1.2 = users d /\ companies run.1.1.2 = companies d
            /\ approvers run.1.1.2 = approvers d /\ approval_rules run.1.1.2 = approval_rules d
            /\ (exists created slots,
                  expenses run.1.1.2 = (expenses d ++ created)%list
                  /\ approvals run.1.1.2 = (approvals d ++ slots)%list
                  /\ (length created <= 1)%nat
                  /\ Forall (fun e => e_id e = next_uuid d /\ e_user_id e = p_id (sr_user req)
                                      /\ e_company_id e = p_company_id (sr_user req)) created
                  /\ Forall (fun s => a_expense_id s = next_uuid d /\ a_status s = pending)
                            slots)
            /\ (http_status run.1.1.1 = 400 \/ http_status run.1.1.1 = 404 -> run.1.1.2 = d)
            /\ (http_status run.1.1.1 = 201 \/ http_status run.1.1.1 = 400
                \/ http_status run.1.1.1 = 404 \/ http_status run.1.1.1 = 500)).
  { intros resp cache' log Hstatus. simpl.
    do 4 (split; [reflexivity|]).
    split; [exists [], []; rewrite !app_nil_r; repeat split; auto|].
    split; [intros _; reflexivity|tauto]. }
  unfold submitExpense.
  destruct (missing (sr_amount req) || missing (sr_currency req)
            || missing (sr_category req) || missing (sr_date req));
    [apply Hnothing; simpl; auto|].
  destruct (is_nan _ || PrimFloat.leb _ 0); [apply Hnothing; simpl; auto|].
  destruct (parseDate _) as [expenseDate|]; [|apply Hnothing; simpl; auto].
  destruct (find_company d _) as [c|]; [|apply Hnothing; simpl; auto].
  destruct (convertCurrency _ _ _ _ _ _) as [[[convertedAmount|message] cache1] log1];
    [|apply Hnothing; simpl; auto].
  destruct (insert_expense _ _ _ _) as [stored|] eqn:Hstored;
    [|apply Hnothing; simpl; auto].
  apply insert_expense_Some in Hstored as (_ & Hid & Huser & Hcomp & _).
  cbn [e_id e_user_id e_company_id] in Hid, Huser, Hcomp. rewrite Hid.
  destruct (build_chain _ _ _ _ _) as [approvalChain|] eqn:Hchain;
    [|apply Hnothing; simpl; auto].
  assert (Hslots : Forall (fun s => a_expense_id s = next_uuid d /\ a_status s = pending)
                          (map fst approvalChain)).
  { unfold build_chain in Hchain.
    destruct (find_user d (p_id (sr_user req)) ≫= u_manager_id) as [m|].
    - destruct (find_user d m) as [mu|]; [|discriminate].
      injection Hchain as <-. simpl. constructor; [split; reflexivity|].
      apply Forall_map. apply add_approvers_pending.
    - injection Hchain as <-. apply Forall_map. apply add_approvers_pending. }
  match goal with
  | |- context [find_user ?c ?u] => destruct (find_user c u)
  end; cbn [fst snd users companies approvers approval_rules expenses approvals http_status];
    (repeat split; auto;
     [eexists [_], _; split; [reflexivity|]; split; [reflexivity|];
      split; [simpl; lia|]; split; [|exact Hslots];
      constructor; [|constructor];
      destruct (_ && _); [unfold set_expense_status; rewrite Hid, N.eqb_refl|];
      repeat split; assumption
     |intros [H|H]; discriminate]).
Qed.

(** X16.  A submission in the currency of the company, whatever the case
    of the letters of the two codes, needs no exchange rate: it reads
    neither the cache nor the service.  When it is answered with 201, the
    amount of the new expense is what the column holds of the amount of
    the request rounded to two decimals, and its original amount is what
    the column holds of the amount of the request. *)
Theorem company_currency_needs_no_rate :
  forall toFixed2 parseFloat parseDate decimal_10_2 date_column expense_error
         w now req d cache c,
    converting parseFloat parseDate req d c ->
    toUpperCase (default "" (sr_currency req)) = toUpperCase (c_currency c) ->
    let run :=
      submitExpense toFixed2 parseFloat parseDate decimal_10_2 date_column expense_error
        w now req d cache in
    run.2 = [] /\ run.1.2 = cache
    /\ (http_status run.1.1.1 = 201 \/ http_status run.1.1.1 = 500)
    /\ (http_status run.1.1.1 = 201 ->
        exists e, expenses run.1.1.2 = (expenses d ++ [e])%list
                  /\ decimal_10_2 (toFixed2 (parseFloat (default "" (sr_amount req))))
                     = Some (e_amount e)
                  /\ decimal_10_2 (parseFloat (default "" (sr_amount req)))
                     = Some (e_original_amount e)
                  /\ varchar 3 (toUpperCase (c_currency c)) = Some (e_original_currency e)).
Proof.
  intros toFixed2 parseFloat parseDate decimal_10_2 date_column expense_error
         w now req d cache c
         (Hmissing & Hamount & [expenseDate Hdate] & Hcompany) Hsame run. subst run.
  unfold submitExpense. rewrite Hmissing, Hamount, Hdate, Hcompany, Hsame.
  rewrite convertCurrency_same.
  destruct (insert_expense _ _ _ _) as [stored|] eqn:Hstored;
    [|simpl; repeat split; auto; discriminate].
  apply insert_expense_Some in Hstored
    as (_ & Hid & _ & _ & _ & _ & _ & Hamt & Horig & Hcur & _).
  cbn [e_id e_amount e_original_amount e_original_currency] in Hid, Hamt, Horig, Hcur.
  rewrite Hid.
  destruct (build_chain _ _ _ _ _) as [approvalChain|];
    [|simpl; repeat split; auto; discriminate].
  match goal with
  | |- context [find_user ?db ?u] => destruct (find_user db u)
  end; simpl; repeat split; auto; try discriminate.
  intros _. eexists. split; [reflexivity|].
  destruct (_ && _); [unfold set_expense_status; rewrite Hid, N.eqb_refl|];
    repeat split; assumption.
Qed.

(** The employee submits 100.00 in usd, the company's currency being USD. *)
Lemma company_currency_needs_no_rate_witness :
  let d := Scenario.start Scenario.threeSlots [] in
  let req := Sample.lowerCase in
  let run := Scenario.submit Scenario.offline 1 req d ∅ in
  run.2 = []
  /\ run.1.2 = ∅
  /\ (http_status run.1.1.1 = 201 \/ http_status run.1.1.1 = 500)
  /\ (http_status run.1.1.1 = 201 ->
      exists e, expenses run.1.1.2 = (expenses d ++ [e])%list
                /\ Runtime.decimal_10_2
                     (Runtime.toFixed2 (Runtime.parseFloat (default "" (sr_amount req))))
                   = Some (e_amount e)
                /\ Runtime.decimal_10_2 (Runtime.parseFloat (default "" (sr_amount req)))
                   = Some (e_original_amount e)
                /\ varchar 3 (toUpperCase (c_currency Scenario.techCorp))
                   = Some (e_original_currency e)).
Proof.
  apply (company_currency_needs_no_rate Runtime.toFixed2 Runtime.parseFloat Runtime.parseDate
           Runtime.decimal_10_2 Runtime.date_column Runtime.expense_error
           Scenario.offline 1 Sample.lowerCase (Scenario.start Scenario.threeSlots []) ∅
           Scenario.techCorp).
  - vm_compute. repeat split; eauto.
  - by_computing.
Defined.

(** ** Reading a submission back *)

Lemma find_appended {A : Type} (p : A -> bool) (l : list A) (x : A) :
  (forall y, In y l -> p y = false) -> p x = true -> find p (l ++ [x]) = Some x.
Proof.
  intros Hnone Hx. induction l as [|y l IH]; simpl.
  - rewrite Hx. reflexivity.
  - rewrite (Hnone y) by (left; reflexivity). apply IH.
    intros z Hz. apply Hnone. right. exact Hz.
Qed.

Lemma flat_map_nothing {A B : Type} (f : A -> list B) (l : list A) :
  (forall x, In x l -> f x = []) -> flat_map f l = [].
Proof.
  induction l as [|x l IH]; simpl; intros H; [reflexivity|].
  rewrite (H x) by (left; reflexivity). apply IH. intros y Hy. apply H. right. exact Hy.
Qed.

(** Sorting leaves a list in strictly ascending order as it is. *)
Lemma order_by_strict {A : Type} (key : A -> Z) (l : list A) :
  StronglySorted (fun x y => key x < key y) l -> order_by key l = l.
Proof.
  induction 1 as [|x l Hsorted IH Hall]; simpl; [reflexivity|].
  rewrite IH. destruct l as [|y l]; simpl; [reflexivity|].
  apply Forall_inv in Hall. apply Z.ltb_lt in Hall. rewrite Hall. reflexivity.
Qed.

Lemma seqZ_strict {A : Type} (key : A -> Z) (l : list A) (m n : Z) :
  map key l = seqZ m n -> StronglySorted (fun x y => key x < key y) l.
Proof.
  revert m n. induction l as [|x l IH]; intros m n Heq; [constructor|].
  destruct (Z.lt_ge_cases 0 n) as [Hn|Hn].
  2:{ rewrite seqZ_nil in Heq by lia. discriminate. }
  rewrite seqZ_cons in Heq by exact Hn. simpl in Heq. injection Heq as Hx Hl.
  constructor; [eapply IH; exact Hl|].
  apply List.Forall_forall. intros y Hy.
  assert (Hin : key y ∈ seqZ (Z.succ m) (Z.pred n)).
  { rewrite <- Hl. apply list_elem_of_In. apply in_map. exact Hy. }
  apply elem_of_seqZ in Hin. lia.
Qed.

Lemma additionalApprovers_found d companyId a u :
  In (a, u) (additionalApprovers d companyId) -> find_user d (ap_user_id a) = Some u.
Proof.
  unfold additionalApprovers. rewrite order_by_In, in_flat_map.
  intros (a' & _ & Hrow).
  destruct (_ && _); [|destruct Hrow].
  destruct (find_user d (ap_user_id a')) as [u'|] eqn:Hu; [|destruct Hrow].
  destruct Hrow as [[= <- <-]|[]]. exact Hu.
Qed.

Lemma add_approvers_found d expense_id managerId now rows sequence next :
  (forall a u, In (a, u) rows -> find_user d (ap_user_id a) = Some u) ->
  Forall (fun entry : chain_entry => is_Some (find_user d (a_approver_id entry.1)))
         (add_approvers expense_id managerId now rows sequence next).
Proof.
  revert sequence next. induction rows as [|[a u] rows IH]; intros sequence next H; simpl;
    [constructor|].
  assert (Hrest : forall a' u', In (a', u') rows -> find_user d (ap_user_id a') = Some u')
    by (intros a' u' Hin; apply H; right; exact Hin).
  destruct (match managerId with Some m => N.eqb (ap_user_id a) m | None => false end);
    [apply IH; exact Hrest|].
  constructor; [|apply IH; exact Hrest].
  simpl. rewrite (H a u) by (left; reflexivity). eauto.
Qed.

(** The slots of a new chain: numbered from 1, of the new expense, all
    pending, each with an approver that can be read. *)
Lemma build_chain_rows d companyId expense_id managerId now approvalChain :
  build_chain d companyId expense_id managerId now = Some approvalChain ->
  map a_sequence (map fst approvalChain) = seqZ 1 (Z.of_nat (length approvalChain))
  /\ Forall (fun s => a_expense_id s = expense_id /\ a_status s = pending
                      /\ is_Some (find_user d (a_approver_id s)))
            (map fst approvalChain).
Proof.
  unfold build_chain. intros Hchain.
  assert (Hfound := add_approvers_found d expense_id managerId now
                      (additionalApprovers d companyId)).
  assert (Hrows : forall sequence next,
            Forall (fun s => a_expense_id s = expense_id /\ a_status s = pending
                             /\ is_Some (find_user d (a_approver_id s)))
                   (map fst (add_approvers expense_id managerId now
                               (additionalApprovers d companyId) sequence next))).
  { intros sequence next. apply Forall_map.
    pose proof (add_approvers_pending expense_id managerId now
                  (additionalApprovers d companyId) sequence next) as Hp.
    specialize (Hfound sequence next (additionalApprovers_found d companyId)).
    rewrite List.Forall_forall in *. intros entry Hentry.
    destruct (Hp entry Hentry). auto. }
  destruct managerId as [m|].
  - destruct (find_user d m) as [mu|] eqn:Hm; [|discriminate].
    injection Hchain as <-. cbn [map length fst a_sequence new_approval]. split.
    + rewrite map_map, add_approvers_sequences.
      rewrite (seqZ_cons 1) by lia. rewrite Nat2Z.inj_succ, Z.pred_succ. reflexivity.
    + constructor; [|apply Hrows]. simpl. rewrite Hm. eauto.
  - injection Hchain as <-. split; [|apply Hrows].
    rewrite map_map. apply add_approvers_sequences.
Qed.

(** The join of the slots of one expense with their approvers. *)
Lemma approvals_join d expenseId (slots : list approval) :
  Forall (fun s => a_expense_id s = expenseId /\ is_Some (find_user d (a_approver_id s)))
         slots ->
  exists rows,
    flat_map
      (fun a => if N.eqb (a_expense_id a) expenseId
                then match find_user d (a_approver_id a) with
                     | Some u => [(a, u)]
                     | None => []
                     end
                else [])
      slots = rows
    /\ map fst rows = slots.
Proof.
  induction 1 as [|s slots (Hs & [u Hu]) _ (rows & <- & Hrows)]; simpl.
  - exists []. auto.
  - rewrite Hs, N.eqb_refl, Hu. simpl.
    eexists. split; [reflexivity|]. simpl. rewrite Hrows. reflexivity.
Qed.

(** X17.  A submission can be read back.  After a submission answered
    with 201, [getExpenseById] answers the submitter with status 200 for
    the identifier of the new expense, whatever the submitter's role; its
    approvals are the slots of the chain that the submission has written,
    in the order of the chain; and its current approver is the first of
    them.  The identifier of the new expense is assumed to be new. *)
Theorem submitted_expense_reads_back :
  forall toFixed2 parseFloat parseDate decimal_10_2 date_column expense_error
         w now req d cache resp d' cache' log,
    submitExpense toFixed2 parseFloat parseDate decimal_10_2 date_column expense_error
      w now req d cache = (resp, d', cache', log) ->
    http_status resp = 201 ->
    fresh_expense_id d ->
    let read := getExpenseById {| rd_user := sr_user req; rd_id := next_uuid d |} d' in
    exists e chain,
      expenses d' = (expenses d ++ [e])%list
      /\ approvals d' = (approvals d ++ chain)%list
      /\ find_expense d' (next_uuid d) = Some e
      /\ http_status read = 200
      /\ map fst (approvalsResult d' (next_uuid d)) = chain
      /\ field "approvals" (body read)
         = Some (JArr (map json_chain_row (approvalsResult d' (next_uuid d))))
      /\ fst <$> current_approver (approvalsResult d' (next_uuid d)) = head chain.
Proof.
  intros toFixed2 parseFloat parseDate decimal_10_2 date_column expense_error
         w now req d cache resp d' cache' log Hrun H201 [Hfresh_e Hfresh_a] read.
  destruct (submitExpense_201 _ _ _ _ _ _ _ _ _ _ _ _ _ _ _ Hrun H201)
    as (c & expenseDate & convertedAmount & stored & approvalChain & submitter & e
        & Hconv & _ & _ & Hstored & Hchain & Hsubmitter & He & Hexpenses & Happrovals
        & Husers & Hcompanies).
  destruct Hconv as (_ & _ & _ & Hcompany).
  apply insert_expense_Some in Hstored as (_ & Hsid & Hsuser & Hscomp & _).
  cbn [e_id e_user_id e_company_id submitted_row] in Hsid, Hsuser, Hscomp.
  assert (Hid : e_id e = next_uuid d /\ e_user_id e = p_id (sr_user req)
                /\ e_company_id e = p_company_id (sr_user req)).
  { destruct He as [-> | ->]; [repeat split; assumption|].
    unfold set_expense_status. rewrite Hsid, N.eqb_refl.
    repeat split; assumption. }
  destruct Hid as (Hid & Huser & Hcomp).
  destruct (build_chain_rows _ _ _ _ _ _ Hchain) as [Hseq Hslots].
  exists e, (map fst approvalChain).
  assert (Hfind : find_expense d' (next_uuid d) = Some e).
  { unfold find_expense. rewrite Hexpenses. apply find_appended.
    - intros y Hy. apply N.eqb_neq. apply Hfresh_e, Hy.
    - apply N.eqb_eq. exact Hid. }
  assert (Hrows : exists rows,
            approvalsResult d' (next_uuid d) = rows
            /\ map fst rows = map fst approvalChain).
  { unfold approvalsResult. rewrite Happrovals, flat_map_app.
    rewrite flat_map_nothing.
    2:{ intros a Ha. apply Hfresh_a in Ha. apply N.eqb_neq in Ha. rewrite Ha. reflexivity. }
    simpl.
    assert (Hjoin := approvals_join d' (next_uuid d) (map fst approvalChain)).
    destruct Hjoin as (rows & Hjoin & Hrows).
    { rewrite List.Forall_forall in *. intros s Hs.
      destruct (Hslots s Hs) as (He' & _ & Hu).
      unfold find_user in *. rewrite Husers. auto. }
    rewrite Hjoin.
    exists rows. split; [|exact Hrows].
    apply order_by_strict.
    apply (seqZ_strict (fun row : approval * user => a_sequence row.1) rows 1
             (Z.of_nat (length approvalChain))).
    rewrite <- Hseq, <- Hrows, !map_map. reflexivity. }
  destruct Hrows as (rows & Hresult & Hrows).
  assert (Hread : read
                  = {| http_status := 200;
                       body :=
                         JObj ([("expense",
                                 JObj [("id", JUuid (e_id e));
                                       ("amount", JNum (e_amount e));
                                       ("original_amount", JNum (e_original_amount e));
                                       ("original_currency", JStr (e_original_currency e));
                                       ("company_currency", JStr (c_currency c));
                                       ("category", JStr (e_category e));
                                       ("description", opt_json JStr (e_description e));
                                       ("date", JTime (e_date e));
                                       ("status", JStr (status_name (e_status e)));
                                       ("receipt_url", opt_json JStr (e_receipt_url e));
                                       ("created_at", JTime (e_created_at e));
                                       ("updated_at", JTime (e_updated_at e));
                                       ("submitter",
                                        JObj [("id", JUuid (e_user_id e));
                                              ("name", JStr (u_name submitter));
                                              ("email", JStr (u_email submitter))]);
                                       ("company",
                                        JObj [("name", JStr (c_name c));
                                              ("currency", JStr (c_currency c))])]);
                                ("approvals", JArr (map json_chain_row rows))]
                               ++ match current_approver rows with
                                  | Some row => [("current_approver", json_chain_row row)]
                                  | None => []
                                  end)%list |}).
  { subst read. unfold getExpenseById. cbn [rd_id rd_user]. rewrite Hfind, Hresult.
    unfold find_user, find_company in *. rewrite Husers, Hcompanies, Huser, Hcomp.
    rewrite Hsubmitter, Hcompany.
    replace (expense_access d' (sr_user req) e) with true; [reflexivity|].
    symmetry. unfold expense_access. rewrite Hcomp, Huser, !N.eqb_refl.
    destruct (String.eqb (p_role (sr_user req)) "admin"); [reflexivity|]. simpl.
    destruct (String.eqb (p_role (sr_user req)) "manager"); [apply orb_true_r|reflexivity]. }
  repeat split; auto.
  - rewrite Hread. reflexivity.
  - rewrite Hresult. exact Hrows.
  - rewrite Hread, Hresult. reflexivity.
  - rewrite Hresult, <- Hrows.
    assert (Hpending : Forall (fun row : approval * user => is_pending row.1 = true) rows).
    { apply List.Forall_forall. intros row Hrow.
      assert (Hin : In row.1 (map fst approvalChain))
        by (rewrite <- Hrows; apply in_map; exact Hrow).
      rewrite List.Forall_forall in Hslots. destruct (Hslots _ Hin) as (_ & Hp & _).
      unfold is_pending. rewrite Hp. reflexivity. }
    unfold current_approver. destruct rows as [|row rows']; [reflexivity|].
    apply Forall_inv in Hpending. simpl. rewrite Hpending. reflexivity.
Qed.

(** The employee's submission on the roster of Finance and the CEO. *)
Lemma submitted_expense_reads_back_witness :
  let d := Scenario.start Scenario.threeSlots [] in
  let req := Scenario.travel Scenario.E "USD" in
  let d' := Sample.submission.1.1.2 in
  let read := getExpenseById {| rd_user := sr_user req; rd_id := next_uuid d |} d' in
  exists e chain,
    expenses d' = (expenses d ++ [e])%list
    /\ approvals d' = (approvals d ++ chain)%list
    /\ find_expense d' (next_uuid d) = Some e
    /\ http_status read = 200
    /\ map fst (approvalsResult d' (next_uuid d)) = chain
    /\ field "approvals" (body read)
       = Some (JArr (map json_chain_row (approvalsResult d' (next_uuid d))))
    /\ fst <$> current_approver (approvalsResult d' (next_uuid d)) = head chain.
Proof.
  apply (submitted_expense_reads_back Runtime.toFixed2 Runtime.parseFloat Runtime.parseDate
           Runtime.decimal_10_2 Runtime.date_column Runtime.expense_error
           Scenario.offline 1 (Scenario.travel Scenario.E "USD")
           (Scenario.start Scenario.threeSlots []) ∅
           Sample.submission.1.1.1 Sample.submission.1.1.2 Sample.submission.1.2
           Sample.submission.2).
  - reflexivity.
  - by_computing.
  - split; intros ? [].
Defined.

(** ** The approver roster under configuration *)

(** X18.  Adding an approver keeps the sequences of the active approver
    rows of every company distinct.  A request that is not answered with
    201 writes nothing; one that is has appended one active row, at a
    sequence of at least 1, for an active user of the caller's company
    whose role is manager or admin.  The role name of the row is what a
    column of type [VARCHAR(50)] holds of the role name of the request. *)
Theorem added_approver_keeps_sequences_distinct :
  forall violation out_of_range now req d,
    distinct_sequences d ->
    let run := addApprover violation out_of_range now req d in
    distinct_sequences run.2
    /\ (http_status run.1 <> 201 -> run.2 = d)
    /\ (http_status run.1 = 201 ->
        exists row user,
          approvers run.2 = (approvers d ++ [row])%list
          /\ ap_company_id row = p_company_id (ar_user req)
          /\ ar_userId req = Some (ap_user_id row)
          /\ ar_roleName req ≫= varchar 50 = Some (ap_role_name row)
          /\ ar_sequence req = Some (Some (ap_sequence row))
          /\ 1 <= ap_sequence row /\ ap_is_active row = true
          /\ In user (users d) /\ u_id user = ap_user_id row
          /\ u_company_id user = p_company_id (ar_user req)
          /\ u_is_active user = true
          /\ (u_role user = "manager" \/ u_role user = "admin")
          /\ users run.2 = users d /\ approvals run.2 = approvals d
          /\ expenses run.2 = expenses d /\ approval_rules run.2 = approval_rules d).
Proof.
  intros violation out_of_range now req d Hdistinct run. subst run. unfold addApprover.
  destruct (ar_userId req) as [userId|]; [|simpl; repeat split; auto; discriminate].
  destruct (ar_roleName req) as [roleName0|] eqn:Hrole;
    [|simpl; repeat split; auto; discriminate].
  destruct (or_null (Some roleName0)) as [roleName|] eqn:Hnull;
    [|simpl; repeat split; auto; discriminate].
  assert (roleName0 = roleName) as ->.
  { simpl in Hnull. destruct (String.eqb roleName0 ""); congruence. }
  destruct (ar_sequence req) as [[sequenceNum|]|];
    [|simpl; repeat split; auto; discriminate..].
  destruct (sequenceNum <? 1) eqn:Hpos; [simpl; repeat split; auto; discriminate|].
  apply Z.ltb_ge in Hpos.
  destruct (find _ (users d)) as [user|] eqn:Huser;
    [|simpl; repeat split; auto; discriminate].
  destruct (u_is_active user) eqn:Hactive; simpl;
    [|repeat split; auto; discriminate].
  destruct (String.eqb_spec (u_role user) "manager") as [Hm|Hm];
    destruct (String.eqb_spec (u_role user) "admin") as [Ha|Ha]; simpl;
    try (repeat split; auto; discriminate).
  all: destruct (has_nul roleName); [simpl; repeat split; auto; discriminate|].
  all: destruct (existingApprover d _ _ _); [simpl; repeat split; auto; discriminate|].
  all: destruct (integer_max <? sequenceNum); [simpl; repeat split; auto; discriminate|].
  all: destruct (sequenceConflict d _ _) eqn:Hconflict;
    [simpl; repeat split; auto; discriminate|].
  all: destruct (varchar 50 roleName) as [storedName|] eqn:Hstored;
    [|simpl; repeat split; auto; discriminate].
  all: destruct (approvers_unique_violated d _ _ _);
    [simpl; repeat split; auto; discriminate|].
  all: simpl; split; [|split; [intros H; congruence|]].
  all: try (intros _; apply find_some in Huser as [Hin Hb];
            apply andb_prop in Hb as [Hb1 Hb2]; apply N.eqb_eq in Hb1, Hb2;
            eexists _, user; repeat split; eauto).
  all: unfold distinct_sequences; cbn [approvers];
    intros a b Ha' Hb' Haa Hba Hc Hs;
    apply in_app_or in Ha' as [Ha'|[<-|[]]]; apply in_app_or in Hb' as [Hb'|[<-|[]]];
    [apply Hdistinct; assumption| | |reflexivity];
    exfalso; unfold sequenceConflict in Hconflict;
    rewrite <- not_true_iff_false in Hconflict; apply Hconflict;
    apply existsb_exists; simpl in Hc, Hs.
  all: first [ exists a; split; [assumption|];
               rewrite Hc, Hs, Haa, N.eqb_refl, Z.eqb_refl; reflexivity
             | exists b; split; [assumption|];
               rewrite <- Hc, <- Hs, Hba, N.eqb_refl, Z.eqb_refl; reflexivity ].
Qed.

(** The administrator takes the fourth seat beside Alice, Bob and Carol. *)
Lemma added_approver_keeps_sequences_distinct_witness :
  let d := Scenario.abc in
  let req := Sample.adds 1 "D" 4 in
  let run := Sample.add 5 req d in
  distinct_sequences run.2
  /\ (http_status run.1 <> 201 -> run.2 = d)
  /\ (http_status run.1 = 201 ->
      exists row user,
        approvers run.2 = (approvers d ++ [row])%list
        /\ ap_company_id row = p_company_id (ar_user req)
        /\ ar_userId req = Some (ap_user_id row)
        /\ ar_roleName req ≫= varchar 50 = Some (ap_role_name row)
        /\ ar_sequence req = Some (Some (ap_sequence row))
        /\ 1 <= ap_sequence row
        /\ ap_is_active row = true
        /\ In user (users d)
        /\ u_id user = ap_user_id row
        /\ u_company_id user = p_company_id (ar_user req)
        /\ u_is_active user = true
        /\ (u_role user = "manager" \/ u_role user = "admin")
        /\ users run.2 = users d
        /\ approvals run.2 = approvals d
        /\ expenses run.2 = expenses d
        /\ approval_rules run.2 = approval_rules d).
Proof.
  apply (added_approver_keeps_sequences_distinct Sample.duplicate_key Sample.out_of_range 5
           (Sample.adds 1 "D" 4) Scenario.abc).
  intros a b Ha Hb _ _ _ Hseq. table_rows Ha; table_rows Hb; first [reflexivity | discriminate Hseq].
Defined.

Lemma set_sequence_other sequence id r :
  ap_id r <> id -> set_sequence sequence id r = r.
Proof. intros H. unfold set_sequence. apply N.eqb_neq in H. rewrite H. reflexivity. Qed.

Lemma set_sequence_row sequence id r :
  ap_id r = id -> set_sequence sequence id r = with_sequence r sequence.
Proof. intros H. unfold set_sequence. apply N.eqb_eq in H. rewrite H. reflexivity. Qed.

(** The rows that a move of the row [row] to [sequence] leaves behind,
    [occupant] being the row that gives way, if there is one. *)
Lemma moved_rows violation out_of_range req d sequence row rowUser :
  sq_newSequence req = Some (Some sequence) ->
  approverResult d (sq_id req) (p_company_id (sq_user req)) = Some (row, rowUser) ->
  let run := updateApproverSequence violation out_of_range req d in
  run.2 = d
  \/ (conflictResult d (p_company_id (sq_user req)) sequence (sq_id req) = []
      /\ run.2 = with_approvers d (map (set_sequence sequence (sq_id req)) (approvers d)))
  \/ (exists occupant others,
        conflictResult d (p_company_id (sq_user req)) sequence (sq_id req)
        = occupant :: others
        /\ ap_sequence row <> sequence
        /\ run.2
           = with_approvers d
               (map (fun r => set_sequence sequence (sq_id req)
                                (set_sequence (ap_sequence row) (ap_id occupant) r))
                    (approvers d))).
Proof.
  intros Hreq Hrow run. subst run. unfold updateApproverSequence. rewrite Hreq.
  destruct (sequence <? 1); [left; reflexivity|]. rewrite Hrow.
  destruct (Z.eqb_spec (ap_sequence row) sequence) as [Hsame|Hmove]; [left; reflexivity|].
  destruct (integer_max <? sequence); [left; reflexivity|].
  destruct (conflictResult d _ _ _) as [|occupant others] eqn:Hq.
  - destruct (sequence_taken d row sequence); [left; reflexivity|].
    right. left. split; reflexivity.
  - destruct (sequence_taken d occupant (ap_sequence row)); [left; reflexivity|].
    destruct (find_user _ _); [|left; reflexivity].
    destruct (sequence_taken _ row sequence); [left; reflexivity|].
    right. right. exists occupant, others. repeat split; auto.
    simpl. unfold with_approvers. simpl. rewrite map_map. reflexivity.
Qed.

(** X19.  Moving an active approver row to another sequence keeps the
    sequences of the active rows of every company distinct, with or
    without an exchange.  The primary key of [approvers] is assumed. *)
Theorem moved_approver_keeps_sequences_distinct :
  forall violation out_of_range req d,
    approvers_key d -> distinct_sequences d ->
    (forall row rowUser,
       approverResult d (sq_id req) (p_company_id (sq_user req)) = Some (row, rowUser) ->
       ap_is_active row = true) ->
    distinct_sequences (updateApproverSequence violation out_of_range req d).2.
Proof.
  intros violation out_of_range req d Hkey Hdistinct Hactive.
  destruct (sq_newSequence req) as [[sequence|]|] eqn:Hreq;
    [|unfold updateApproverSequence; rewrite Hreq; exact Hdistinct..].
  destruct (approverResult d (sq_id req) (p_company_id (sq_user req)))
    as [[row rowUser]|] eqn:Hrow.
  2:{ unfold updateApproverSequence. rewrite Hreq, Hrow.
      destruct (sequence <? 1); exact Hdistinct. }
  pose proof (Hactive row rowUser eq_refl) as Hrow_active.
  destruct (approverResult_Some _ _ _ _ _ Hrow) as (Hrow_in & Hrow_id & Hrow_company).
  assert (Hrow_only : forall r, In r (approvers d) -> ap_id r = sq_id req -> r = row).
  { intros r Hr Hid. apply (same_id_same_row ap_id (approvers d)); auto. congruence. }
  destruct (moved_rows violation out_of_range req d sequence row rowUser Hreq Hrow)
    as [->|[[Hfree ->]|(occupant & others & Hq & Hmove & ->)]]; [exact Hdistinct| |].
  - (* the sequence is free *)
    assert (Hnone : forall r, In r (approvers d) ->
              ap_company_id r = ap_company_id row -> ap_sequence r = sequence ->
              ap_is_active r = true -> ap_id r = sq_id req).
    { intros r Hr Hc Hs Ha.
      destruct (N.eqb_spec (ap_id r) (sq_id req)) as [Hid|Hid]; [exact Hid|].
      assert (Hin : In r (conflictResult d (p_company_id (sq_user req)) sequence (sq_id req))).
      { apply conflictResult_In. unfold occupies. repeat split; auto. congruence. }
      rewrite Hfree in Hin. destruct Hin. }
    unfold distinct_sequences. cbn [approvers with_approvers].
    intros a' b' Ha' Hb' Haa Hba Hc Hs.
    apply in_map_iff in Ha' as (a & <- & Ha). apply in_map_iff in Hb' as (b & <- & Hb).
    destruct (N.eqb_spec (ap_id a) (sq_id req)) as [Hida|Hida];
      destruct (N.eqb_spec (ap_id b) (sq_id req)) as [Hidb|Hidb].
    + rewrite (Hrow_only a Ha Hida), (Hrow_only b Hb Hidb). reflexivity.
    + exfalso. apply Hidb.
      rewrite (Hrow_only a Ha Hida) in *.
      rewrite (set_sequence_row _ _ _ Hrow_id) in Hc, Hs.
      rewrite (set_sequence_other _ _ _ Hidb) in Hc, Hs, Hba.
      apply Hnone; auto.
    + exfalso. apply Hida.
      rewrite (Hrow_only b Hb Hidb) in *.
      rewrite (set_sequence_row _ _ _ Hrow_id) in Hc, Hs.
      rewrite (set_sequence_other _ _ _ Hida) in Hc, Hs, Haa.
      apply Hnone; auto.
    + rewrite (set_sequence_other _ _ _ Hida) in *.
      rewrite (set_sequence_other _ _ _ Hidb) in *.
      apply Hdistinct; auto.
  - (* the sequence is held *)
    assert (Hocc : In occupant (approvers d)
                   /\ occupies (p_company_id (sq_user req)) sequence (sq_id req) occupant).
    { apply conflictResult_In. rewrite Hq. left. reflexivity. }
    destruct Hocc as (Hocc_in & Hocc_company & Hocc_seq & Hocc_id & Hocc_active).
    assert (Hocc_only : forall r, In r (approvers d) -> ap_id r = ap_id occupant -> r = occupant).
    { intros r Hr Hid. apply (same_id_same_row ap_id (approvers d)); auto. }
    set (f := fun r => set_sequence sequence (sq_id req)
                         (set_sequence (ap_sequence row) (ap_id occupant) r)).
    assert (Hf_row : f row = with_sequence row sequence).
    { unfold f. rewrite (set_sequence_other _ (ap_id occupant)) by congruence.
      apply set_sequence_row. exact Hrow_id. }
    assert (Hf_occ : f occupant = with_sequence occupant (ap_sequence row)).
    { unfold f. rewrite (set_sequence_row _ (ap_id occupant)) by reflexivity.
      apply set_sequence_other. exact Hocc_id. }
    assert (Hf_other : forall r, ap_id r <> sq_id req -> ap_id r <> ap_id occupant -> f r = r).
    { intros r H1 H2. unfold f. rewrite (set_sequence_other _ (ap_id occupant)) by exact H2.
      apply set_sequence_other. exact H1. }
    assert (Hcases : forall r, In r (approvers d) ->
              r = row \/ r = occupant
              \/ (ap_id r <> sq_id req /\ ap_id r <> ap_id occupant)).
    { intros r Hr.
      destruct (N.eqb_spec (ap_id r) (sq_id req)) as [H1|H1]; [left; auto|].
      destruct (N.eqb_spec (ap_id r) (ap_id occupant)) as [H2|H2]; [right; left; auto|].
      right. right. auto. }
    unfold distinct_sequences. cbn [approvers with_approvers].
    intros a' b' Ha' Hb' Haa Hba Hc Hs.
    apply in_map_iff in Ha' as (a & <- & Ha). apply in_map_iff in Hb' as (b & <- & Hb).
    fold (f a) in *. fold (f b) in *.
    destruct (Hcases a Ha) as [->|[->|[Ha1 Ha2]]];
      destruct (Hcases b Hb) as [->|[->|[Hb1 Hb2]]];
      try reflexivity;
      rewrite ?Hf_row, ?Hf_occ in *;
      try rewrite (Hf_other a Ha1 Ha2) in *;
      try rewrite (Hf_other b Hb1 Hb2) in *;
      cbn [with_sequence ap_sequence ap_company_id ap_is_active] in *.
    + congruence.
    + exfalso. apply Hb2. f_equal. apply Hdistinct; auto; congruence.
    + congruence.
    + exfalso. apply Hb1. rewrite <- Hrow_id. f_equal. apply Hdistinct; auto; congruence.
    + exfalso. apply Ha2. f_equal. apply Hdistinct; auto; congruence.
    + exfalso. apply Ha1. rewrite <- Hrow_id. f_equal. apply Hdistinct; auto; congruence.
    + apply Hdistinct; auto.
Qed.

(** Carol moves to the sequence of Bob. *)
Lemma moved_approver_keeps_sequences_distinct_witness :
  distinct_sequences (Sample.move (Sample.moves 33 2) Scenario.abc).2.
Proof.
  apply (moved_approver_keeps_sequences_distinct Sample.duplicate_key Sample.out_of_range
           (Sample.moves 33 2) Scenario.abc).
  - distinct_keys.
  - intros a b Ha Hb _ _ _ Hseq. table_rows Ha; table_rows Hb; first [reflexivity | discriminate Hseq].
  - intros row rowUser H. vm_compute in H. injection H as <- _. reflexivity.
Defined.

(** ** Removing an approver *)

Lemma approverResult_ext d d' id companyId :
  approvers d' = approvers d -> users d' = users d ->
  approverResult d' id companyId = approverResult d id companyId.
Proof. intros Ha Hu. unfold approverResult, find_user. rewrite Ha, Hu. reflexivity. Qed.

(** A user with a pending slot cannot be removed from the roster. *)
Lemma removeApprover_busy req d seat seatUser slot :
  approverResult d (rm_id req) (p_company_id (rm_user req)) = Some (seat, seatUser) ->
  In slot (approvals d) -> a_approver_id slot = ap_user_id seat -> a_status slot = pending ->
  http_status (removeApprover req d).1 = 400
  /\ field "error" (body (removeApprover req d).1) = Some (JStr "Cannot remove approver")
  /\ (removeApprover req d).2 = d.
Proof.
  intros Hseat Hslot Huser Hpending. unfold removeApprover. rewrite Hseat.
  assert (Hcount : (0 <? pendingCount d (ap_user_id seat))%nat = true).
  { apply Nat.ltb_lt. unfold pendingCount.
    destruct (List.filter _ (approvals d)) as [|x l] eqn:Hf; [|simpl; lia].
    exfalso. apply (proj1 (filter_none _ _) Hf slot) in Hslot as Hfalse.
    unfold is_pending in Hfalse. rewrite Huser, Hpending, N.eqb_refl in Hfalse.
    discriminate. }
  rewrite Hcount. repeat split; reflexivity.
Qed.

(** ** Slots and their expenses *)

Lemma same_key_same_row {A : Type} (key : A -> Z) (rows : list A) (r r' : A) :
  List.NoDup (map key rows) -> In r rows -> In r' rows -> key r = key r' -> r = r'.
Proof.
  induction rows as [|x rows IH]; simpl; [tauto|].
  intros Hnd Hr Hr' Hid. apply List.NoDup_cons_iff in Hnd as [Hx Hnd].
  destruct Hr as [->|Hr], Hr' as [->|Hr']; auto.
  - exfalso. apply Hx. rewrite Hid. apply in_map. exact Hr'.
  - exfalso. apply Hx. rewrite <- Hid. apply in_map. exact Hr.
Qed.

Lemma find_kept {A : Type} (p : A -> bool) (l l' : list A) (x : A) :
  find p l = Some x -> find p (l ++ l') = Some x.
Proof.
  induction l as [|y l IH]; simpl; [discriminate|].
  destruct (p y); auto.
Qed.

(** The slots of a new chain: they belong to the new expense, they are
    pending, and their sequences are distinct. *)
Lemma build_chain_slots d companyId expense_id managerId now approvalChain :
  build_chain d companyId expense_id managerId now = Some approvalChain ->
  Forall (fun s => a_expense_id s = expense_id /\ a_status s = pending)
         (map fst approvalChain)
  /\ List.NoDup (map a_sequence (map fst approvalChain)).
Proof.
  unfold build_chain. intros Hchain.
  destruct managerId as [m|].
  - destruct (find_user d m) as [mu|]; [|discriminate].
    injection Hchain as <-. split.
    + simpl. constructor; [split; reflexivity|].
      apply Forall_map. apply add_approvers_pending.
    + cbn [map fst a_sequence new_approval]. rewrite map_map, add_approvers_sequences.
      apply List.NoDup_cons.
      * intros Hin. apply list_elem_of_In, elem_of_seqZ in Hin. lia.
      * apply NoDup_ListNoDup, NoDup_seqZ.
  - injection Hchain as <-. split.
    + apply Forall_map. apply add_approvers_pending.
    + rewrite map_map, add_approvers_sequences. apply NoDup_ListNoDup, NoDup_seqZ.
Qed.

Section RequestFacts.

Variable toFixed2 : float -> float.
Variable parseFloat : string -> float.
Variable parseDate : string -> option Z.
Variable decimal_10_2 : float -> option float.
Variable date_column : Z -> option Z.
Variable expense_error : expense -> string.
Variable coerce : json -> float.

Local Abbreviation submit :=
  (submitExpense toFixed2 parseFloat parseDate decimal_10_2 date_column expense_error).

(** What a submission writes, when it writes anything. *)
Lemma submitExpense_writes w now req d cache :
  let d' := (submit w now req d cache).1.1.2 in
  d' = d
  \/ exists stored approvalChain,
       e_id stored = next_uuid d /\ e_status stored = pending
       /\ build_chain d (p_company_id (sr_user req)) (next_uuid d)
            (manager_of d (p_id (sr_user req))) now = Some approvalChain
       /\ expenses d'
          = (expenses d
             ++ [if match approvalChain with [] => true | _ => false end
                    && String.eqb (p_role (sr_user req)) "admin"
                 then set_expense_status (next_uuid d) approved now stored
                 else stored])%list
       /\ approvals d' = (approvals d ++ map fst approvalChain)%list
       /\ approval_rules d' = approval_rules d
       /\ next_uuid d' = (next_uuid d + 1 + N.of_nat (length approvalChain))%N.
Proof.
  cbv zeta. unfold submitExpense, manager_of.
  destruct (missing (sr_amount req) || missing (sr_currency req)
            || missing (sr_category req) || missing (sr_date req)); [left; reflexivity|].
  destruct (is_nan _ || PrimFloat.leb _ 0); [left; reflexivity|].
  destruct (parseDate _) as [expenseDate|]; [|left; reflexivity].
  destruct (find_company d _) as [c|]; [|left; reflexivity].
  destruct (convertCurrency _ _ _ _ _ _) as [[[convertedAmount|message] cache1] log1];
    [|left; reflexivity].
  destruct (insert_expense _ _ _ _) as [stored|] eqn:Hstored; [|left; reflexivity].
  apply insert_expense_Some in Hstored as (_ & Hid & _ & _ & Hstatus & _).
  cbn [e_id e_status] in Hid, Hstatus. rewrite Hid.
  destruct (build_chain _ _ _ _ _) as [approvalChain|] eqn:Hchain; [|left; reflexivity].
  right. exists stored, approvalChain.
  split; [exact Hid|]. split; [exact Hstatus|]. split; [reflexivity|].
  match goal with
  | |- context [find_user ?c ?u] => destruct (find_user c u)
  end; cbn [fst snd expenses approvals approval_rules next_uuid]; repeat split; reflexivity.
Qed.

Lemma submit_settled w now req d cache :
  settled d -> settled (submit w now req d cache).1.1.2.
Proof.
  intros (Hrules & [Hexp Happ] & Hseq & Hslots).
  destruct (submitExpense_writes w now req d cache)
    as [->|(stored & approvalChain & Hid & Hstatus & Hchain & He & Ha & Hr & Hn)];
    [repeat split; auto|].
  cbv zeta in He, Ha, Hr, Hn.
  set (d' := (submit w now req d cache).1.1.2) in *.
  destruct (build_chain_slots _ _ _ _ _ _ Hchain) as [Hnew Hdistinct].
  rewrite List.Forall_forall in Hnew.
  set (e := if match approvalChain with [] => true | _ => false end
               && String.eqb (p_role (sr_user req)) "admin"
            then set_expense_status (next_uuid d) approved now stored
            else stored) in *.
  assert (He_id : e_id e = next_uuid d).
  { subst e. destruct (_ && _); [|exact Hid].
    rewrite (proj1 (set_expense_status_identity _ _ _ _)). exact Hid. }
  split; [|split; [|split]].
  - unfold rules_checked. rewrite Hr. exact Hrules.
  - split.
    + intros x Hx. rewrite He in Hx. rewrite Hn.
      apply in_app_or in Hx as [Hx|[<-|[]]]; [apply Hexp in Hx; lia|]. rewrite He_id. lia.
    + intros x Hx. rewrite Ha in Hx. rewrite Hn.
      apply in_app_or in Hx as [Hx|Hx]; [apply Happ in Hx; lia|].
      destruct (Hnew x Hx) as [-> _]. lia.
  - intros s t Hs Ht Hsame Hsequence. rewrite Ha in Hs, Ht.
    apply in_app_or in Hs as [Hs|Hs]; apply in_app_or in Ht as [Ht|Ht].
    + apply Hseq; assumption.
    + exfalso. apply Happ in Hs. destruct (Hnew t Ht) as [Hte _]. lia.
    + exfalso. apply Happ in Ht. destruct (Hnew s Hs) as [Hse _]. lia.
    + apply (same_key_same_row a_sequence (map fst approvalChain)); assumption.
  - intros s Hs Hpending. rewrite Ha in Hs. unfold find_expense. rewrite He.
    apply in_app_or in Hs as [Hs|Hs].
    + destruct (Hslots s Hs Hpending) as (x & Hfind & Hx).
      exists x. split; [|exact Hx]. apply find_kept. exact Hfind.
    + destruct (Hnew s Hs) as [-> _]. exists e. split.
      * apply find_appended; [|rewrite He_id; apply N.eqb_refl].
        intros y Hy. apply N.eqb_neq. apply Hexp in Hy. lia.
      * subst e. destruct approvalChain as [|first rest]; [destruct Hs|]. exact Hstatus.
Qed.

Lemma approve_settled now req d :
  settled d -> settled (approveExpense coerce now req d).2.
Proof.
  intros (Hrules & [Hexp Happ] & Hseq & Hslots).
  destruct (approve_step coerce now req d)
    as [->|(slot & expense & fully & Hs & He & Hme & Hst & Hex & Hq & _)];
    [repeat split; auto|].
  pose proof (approve_passed coerce now req d slot expense Hs He Hme Hst Hex Hq) as Hpass.
  cbv zeta in Hpass.
  destruct (unstorable (or_null (dr_comments req)));
    [destruct Hpass as [_ ->]; repeat split; auto|].
  set (f := decide_row (dr_id req) approved (or_null (dr_comments req)) now) in *.
  set (d1 := with_approvals d (map f (approvals d))) in *.
  rewrite apply_rules_inert in Hpass.
  2:{ intros r Hr. unfold active_rules in Hr. apply filter_In in Hr as [Hr _].
      cbn [approval_rules d1 with_approvals] in Hr.
      unfold rules_checked in Hrules. rewrite List.Forall_forall in Hrules.
      specialize (Hrules r Hr). intros Ht. rewrite Ht in Hrules. discriminate. }
  destruct Hpass as [_ Hd'].
  apply find_by_id in Hs as [Hslot Hslotid].
  (* the rows of [approvals] that are pending after the update *)
  assert (Hleft : forall s', In s' (map f (approvals d)) -> a_status s' = pending ->
            In s' (approvals d) /\ a_id s' <> dr_id req).
  { intros s' Hs' Hp. apply in_map_iff in Hs' as (s & <- & Hin). subst f.
    unfold decide_row in *. destruct (N.eqb_spec (a_id s) (dr_id req)); [discriminate Hp|].
    auto. }
  assert (Hfields : forall s, a_expense_id (f s) = a_expense_id s
                              /\ a_sequence (f s) = a_sequence s).
  { intros s. destruct (decide_row_identity (dr_id req) approved
                          (or_null (dr_comments req)) now s) as (_ & H1 & _ & H2 & _).
    auto. }
  assert (Hseq1 : chain_sequences d1).
  { intros s' t' Hs' Ht' Hsame Hsequence. cbn [approvals d1 with_approvals] in Hs', Ht'.
    apply in_map_iff in Hs' as (s & <- & Hs'). apply in_map_iff in Ht' as (t & <- & Ht').
    destruct (Hfields s) as [E1 E2]. destruct (Hfields t) as [E3 E4].
    f_equal. apply Hseq; congruence. }
  assert (Hdrawn1 : forall a, In a (approvals d1) -> (a_expense_id a < next_uuid d)%N).
  { intros a' Ha'. cbn [approvals d1 with_approvals] in Ha'.
    apply in_map_iff in Ha' as (a & <- & Ha'). rewrite (proj1 (Hfields a)). auto. }
  match type of Hd' with
  | _ = if ?b then _ else _ => destruct b eqn:Hdone
  end; rewrite Hd'.
  - (* the expense is approved: no slot of it is left pending *)
    split; [exact Hrules|]. split.
    { split; [|exact Hdrawn1].
      intros x' Hx'. cbn [expenses with_expenses d1 with_approvals] in Hx'.
      apply in_map_iff in Hx' as (x & <- & Hx').
      destruct (set_expense_status_identity (a_expense_id slot) approved now x) as (-> & _).
      cbn [next_uuid with_expenses d1 with_approvals]. auto. }
    split; [exact Hseq1|].
    intros s' Hs' Hp. cbn [approvals with_expenses d1 with_approvals] in Hs'.
    destruct (Hleft s' Hs' Hp) as [Hin Hother].
    assert (Hnot : a_expense_id s' <> a_expense_id slot).
    { intros Hsame.
      destruct (order_by a_sequence (List.filter (higher_sequence slot) (approvals d1)))
        as [|next rest] eqn:Horder.
      - assert (Hnone : forall r, In r (approvals d1) -> higher_sequence slot r = false).
        { apply filter_none. apply nil_iff_no_member. intros r Hr.
          apply (order_by_In a_sequence) in Hr. rewrite Horder in Hr. destruct Hr. }
        specialize (Hnone s' Hs'). unfold higher_sequence in Hnone.
        rewrite Hsame, N.eqb_refl in Hnone. simpl in Hnone. apply Z.ltb_ge in Hnone.
        destruct (Z.eq_dec (a_sequence s') (a_sequence slot)) as [Heq|Hne].
        + apply Hother. rewrite (Hseq s' slot Hin Hslot Hsame Heq). exact Hslotid.
        + assert (Hblocks : In s' (unapprovedPrevious d slot)).
          { apply unapprovedPrevious_In. unfold blocks. repeat split; auto; [lia|].
            rewrite Hp. discriminate. }
          rewrite Hq in Hblocks. destruct Hblocks.
      - rewrite forallb_forall in Hdone.
        assert (Hrow : In s' (approvals_of d1 (a_expense_id slot))).
        { apply filter_In. split; [exact Hs'|]. apply N.eqb_eq. exact Hsame. }
        apply Hdone in Hrow. apply status_eqb_eq in Hrow. rewrite Hp in Hrow.
        discriminate. }
    destruct (Hslots s' Hin Hp) as (x & Hfind & Hx).
    exists x. split; [|exact Hx].
    unfold find_expense in *. cbn [expenses with_expenses d1 with_approvals].
    rewrite (find_after_update e_id) by (intros r; apply set_expense_status_identity).
    rewrite Hfind. simpl. f_equal. apply set_expense_status_other.
    apply find_by_id in Hfind as [_ ->]. exact Hnot.
  - (* the expense stays pending *)
    split; [exact Hrules|]. split; [split; [exact Hexp|exact Hdrawn1]|].
    split; [exact Hseq1|].
    intros s' Hs' Hp. cbn [approvals d1 with_approvals] in Hs'.
    destruct (Hleft s' Hs' Hp) as [Hin _].
    exact (Hslots s' Hin Hp).
Qed.

Lemma reject_settled now req d :
  settled d -> settled (rejectExpense now req d).2.
Proof.
  intros (Hrules & [Hexp Happ] & Hseq & Hslots).
  destruct (reject_step now req d)
    as [->|(slot & expense & comments & Hs & He & Hme & Hst & Hex
            & Ha & Hx & _ & _ & _ & Hr & Hn)];
    [repeat split; auto|].
  set (d' := (rejectExpense now req d).2) in *.
  set (f := fun s => cascade_row (a_expense_id slot) (dr_id req) now
                       (decide_row (dr_id req) rejected (Some comments) now s)) in *.
  assert (Hfields : forall s, a_expense_id (f s) = a_expense_id s
                              /\ a_sequence (f s) = a_sequence s).
  { intros s. subst f. cbv beta.
    destruct (cascade_row_identity (a_expense_id slot) (dr_id req) now
                (decide_row (dr_id req) rejected (Some comments) now s))
      as (_ & -> & _ & -> & _).
    destruct (decide_row_identity (dr_id req) rejected (Some comments) now s)
      as (_ & -> & _ & -> & _).
    auto. }
  assert (Hleft : forall s, a_status (f s) = pending ->
            f s = s /\ a_expense_id s <> a_expense_id slot).
  { intros s Hp. subst f. cbv beta in *.
    destruct (N.eqb_spec (a_id s) (dr_id req)) as [Hid|Hid].
    - exfalso. revert Hp.
      rewrite cascade_row_other.
      + unfold decide_row. apply N.eqb_eq in Hid. rewrite Hid. discriminate.
      + left. unfold decide_row. apply N.eqb_eq in Hid. rewrite Hid. discriminate.
    - rewrite decide_row_other in * by exact Hid.
      destruct (N.eqb_spec (a_expense_id s) (a_expense_id slot)) as [Hsame|Hother].
      + exfalso. revert Hp. unfold cascade_row, is_pending.
        rewrite Hsame, N.eqb_refl. apply N.eqb_neq in Hid. rewrite Hid.
        destruct (status_eqb (a_status s) pending) eqn:Hpending; simpl.
        * discriminate.
        * apply status_eqb_neq in Hpending. exact Hpending.
      + split; [|exact Hother]. apply cascade_row_other. right. exact Hother. }
  split; [unfold rules_checked; rewrite Hr; exact Hrules|].
  split.
  { split.
    - intros x' Hx'. rewrite Hx in Hx'. apply in_map_iff in Hx' as (x & <- & Hx').
      destruct (set_expense_status_identity (a_expense_id slot) rejected now x) as (-> & _).
      rewrite Hn. auto.
    - intros a' Ha'. rewrite Ha in Ha'. apply in_map_iff in Ha' as (a & <- & Ha').
      rewrite (proj1 (Hfields a)), Hn. auto. }
  split.
  { intros s' t' Hs' Ht' Hsame Hsequence. rewrite Ha in Hs', Ht'.
    apply in_map_iff in Hs' as (s & <- & Hs'). apply in_map_iff in Ht' as (t & <- & Ht').
    destruct (Hfields s) as [E1 E2]. destruct (Hfields t) as [E3 E4].
    f_equal. apply Hseq; congruence. }
  intros s' Hs' Hp. rewrite Ha in Hs'. apply in_map_iff in Hs' as (s & <- & Hin).
  destruct (Hleft s Hp) as [Hsame Hother]. rewrite Hsame in *.
  destruct (Hslots s Hin Hp) as (x & Hfind & Hpending).
  exists x. split; [|exact Hpending].
  unfold find_expense in *. rewrite Hx.
  rewrite (find_after_update e_id) by (intros r; apply set_expense_status_identity).
  rewrite Hfind. simpl. f_equal. apply set_expense_status_other.
  apply find_by_id in Hfind as [_ ->]. exact Hother.
Qed.

Lemma serve_settled state r :
  settled state.1 ->
  settled (serve toFixed2 parseFloat parseDate decimal_10_2 date_column expense_error
             coerce state r).1.
Proof.
  intros H. destruct r as [w now req|[now req|now req]]; simpl.
  - apply submit_settled. exact H.
  - apply approve_settled. exact H.
  - apply reject_settled. exact H.
Qed.

Lemma serve_all_settled rs state :
  settled state.1 ->
  settled (serve_all toFixed2 parseFloat parseDate decimal_10_2 date_column expense_error
             coerce rs state).1.
Proof.
  revert state. induction rs as [|r rs IH]; intros state H; simpl; [exact H|].
  apply IH. apply serve_settled. exact H.
Qed.

End RequestFacts.

(** X20.  No approver is left with a slot that cannot be decided.  Start
    from a database without expenses, whose rules satisfy the [CHECK]
    constraint of [rule_type]; after any series of submissions, approvals
    and rejections, every pending slot belongs to an expense that is
    pending, and no two slots of an expense have the same sequence.  So
    an expense that has been approved or rejected has no pending slot. *)
Theorem pending_slots_have_pending_expenses :
  forall toFixed2 parseFloat parseDate decimal_10_2 date_column expense_error coerce
         requests d cache,
    expenses d = [] -> approvals d = [] -> rules_checked d ->
    let d' := (serve_all toFixed2 parseFloat parseDate decimal_10_2 date_column
                 expense_error coerce requests (d, cache)).1 in
    slots_follow_expenses d' /\ chain_sequences d'
    /\ forall e s, find_expense d' (e_id e) = Some e -> e_status e <> pending ->
                   In s (approvals d') -> a_expense_id s = e_id e -> a_status s <> pending.
Proof.
  intros toFixed2 parseFloat parseDate decimal_10_2 date_column expense_error coerce
         requests d cache He Ha Hrules d'.
  assert (Hstart : settled (d, cache).1).
  { split; [exact Hrules|]. simpl.
    split; [split; intros x Hx; [rewrite He in Hx|rewrite Ha in Hx]; destruct Hx|].
    split; intros s; [intros t|]; rewrite Ha; intros []. }
  destruct (serve_all_settled toFixed2 parseFloat parseDate decimal_10_2 date_column
              expense_error coerce requests (d, cache) Hstart) as (_ & _ & Hseq & Hslots).
  fold d' in Hseq, Hslots.
  split; [exact Hslots|]. split; [exact Hseq|].
  intros e s Hfind Hdone Hs Hexp Hp.
  destruct (Hslots s Hs Hp) as (x & Hx & Hpending).
  rewrite Hexp, Hfind in Hx. injection Hx as <-. contradiction.
Qed.

(** The employee submits, the manager approves and Finance rejects. *)
Lemma pending_slots_have_pending_expenses_witness :
  let requests :=
    [Submit Scenario.offline 1 (Scenario.travel Scenario.E "USD");
     Decide (Approve 9 (Scenario.decision Scenario.M 1001 None));
     Decide (Reject 10 (Scenario.decision Scenario.Finance 1002 (Some "missing receipt")))] in
  let d' := (serve_all Runtime.toFixed2 Runtime.parseFloat Runtime.parseDate
               Runtime.decimal_10_2 Runtime.date_column Runtime.expense_error
               Runtime.coerce requests (Scenario.start Scenario.threeSlots [], ∅)).1 in
  slots_follow_expenses d' /\ chain_sequences d'
  /\ forall e s, find_expense d' (e_id e) = Some e -> e_status e <> pending ->
                 In s (approvals d') -> a_expense_id s = e_id e -> a_status s <> pending.
Proof.
  apply (pending_slots_have_pending_expenses Runtime.toFixed2 Runtime.parseFloat
           Runtime.parseDate Runtime.decimal_10_2 Runtime.date_column Runtime.expense_error
           Runtime.coerce
           [Submit Scenario.offline 1 (Scenario.travel Scenario.E "USD");
            Decide (Approve 9 (Scenario.decision Scenario.M 1001 None));
            Decide (Reject 10
                      (Scenario.decision Scenario.Finance 1002 (Some "missing receipt")))]
           (Scenario.start Scenario.threeSlots []) ∅).
  - reflexivity.
  - reflexivity.
  - constructor.
Defined.

(** The run of the witness ends with the expense rejected and no slot
    pending. *)
Example served_requests_scenario :
  let requests :=
    [Submit Scenario.offline 1 (Scenario.travel Scenario.E "USD");
     Decide (Approve 9 (Scenario.decision Scenario.M 1001 None));
     Decide (Reject 10 (Scenario.decision Scenario.Finance 1002 (Some "missing receipt")))] in
  let d' := (serve_all Runtime.toFixed2 Runtime.parseFloat Runtime.parseDate
               Runtime.decimal_10_2 Runtime.date_column Runtime.expense_error
               Runtime.coerce requests (Scenario.start Scenario.threeSlots [], ∅)).1 in
  map e_status (expenses d') = [rejected]
  /\ map a_status (approvals d') = [approved; rejected; rejected].
Proof. split; vm_compute; reflexivity. Qed.

Lemma deactivate_other id r : ap_id r <> id -> deactivate id r = r.
Proof. intros H. unfold deactivate. apply N.eqb_neq in H. rewrite H. reflexivity. Qed.

Lemma deactivate_row id r :
  ap_id r = id ->
  ap_is_active (deactivate id r) = false
  /\ ap_id (deactivate id r) = ap_id r /\ ap_company_id (deactivate id r) = ap_company_id r
  /\ ap_role_name (deactivate id r) = ap_role_name r
  /\ ap_sequence (deactivate id r) = ap_sequence r.
Proof. intros H. unfold deactivate. apply N.eqb_eq in H. rewrite H. auto. Qed.

(** What a removal answered with 200 has found and written. *)
Lemma removeApprover_200 req d :
  http_status (removeApprover req d).1 = 200 ->
  exists seat seatUser,
    approverResult d (rm_id req) (p_company_id (rm_user req)) = Some (seat, seatUser)
    /\ pendingCount d (ap_user_id seat) = 0%nat
    /\ (removeApprover req d).2
       = with_approvers d (map (deactivate (rm_id req)) (approvers d)).
Proof.
  unfold removeApprover.
  destruct (approverResult d _ _) as [[seat seatUser]|]; [|discriminate].
  destruct (pendingCount d (ap_user_id seat)) as [|n] eqn:Hcount; [|discriminate].
  intros _. exists seat, seatUser. auto.
Qed.

Section OrderByFilter.

Context {A : Type} (key : A -> Z) (p : A -> bool).

Lemma insert_by_filter x l :
  StronglySorted (ascending key) l ->
  List.filter p (insert_by key x l)
  = if p x then insert_by key x (List.filter p l) else List.filter p l.
Proof.
  induction 1 as [|y l Hsorted IH Hall]; simpl.
  - destruct (p x); reflexivity.
  - destruct (key x <? key y) eqn:Hlt; simpl.
    + destruct (p x) eqn:Hx; [|reflexivity].
      destruct (p y); simpl; [rewrite Hlt; reflexivity|].
      (* [y] is dropped: [x] goes before the rows that follow *)
      assert (Hhead : forall l', Forall (ascending key y) l' ->
                insert_by key x (List.filter p l') = x :: List.filter p l').
      { intros l' Hl'. destruct (List.filter p l') as [|z rest] eqn:Hf; [reflexivity|].
        simpl. replace (key x <? key z) with true; [reflexivity|].
        symmetry. apply Z.ltb_lt.
        assert (Hz : In z l') by (apply (filter_In p z l'); rewrite Hf; left; reflexivity).
        rewrite List.Forall_forall in Hl'. specialize (Hl' z Hz).
        apply Z.ltb_lt in Hlt. unfold ascending in Hl'. lia. }
      rewrite Hhead by exact Hall. reflexivity.
    + rewrite IH. destruct (p y); simpl; [rewrite Hlt|]; destruct (p x); reflexivity.
Qed.

(** A stable sort commutes with a filter. *)
Lemma order_by_filter l :
  order_by key (List.filter p l) = List.filter p (order_by key l).
Proof.
  induction l as [|x l IH]; simpl; [reflexivity|].
  rewrite insert_by_filter by apply order_by_sorted.
  destruct (p x); simpl; rewrite IH; reflexivity.
Qed.

End OrderByFilter.

Lemma additionalApprovers_deactivated d id companyId :
  additionalApprovers (with_approvers d (map (deactivate id) (approvers d))) companyId
  = List.filter (fun row : approver * user => negb (N.eqb (ap_id row.1) id))
      (additionalApprovers d companyId).
Proof.
  unfold additionalApprovers. rewrite <- order_by_filter. f_equal.
  cbn [approvers with_approvers]. unfold find_user. cbn [users with_approvers].
  induction (approvers d) as [|a rows IH]; simpl; [reflexivity|].
  rewrite IH, List.filter_app. f_equal.
  unfold deactivate.
  destruct (N.eqb_spec (ap_id a) id) as [Hid|Hid]; simpl.
  - rewrite andb_false_r.
    destruct (N.eqb (ap_company_id a) companyId && ap_is_active a); [|reflexivity].
    destruct (find _ (users d)); [|reflexivity].
    simpl. apply N.eqb_eq in Hid. rewrite Hid. reflexivity.
  - destruct (N.eqb (ap_company_id a) companyId && ap_is_active a); [|reflexivity].
    destruct (find _ (users d)); [|reflexivity].
    simpl. apply N.eqb_neq in Hid. rewrite Hid. reflexivity.
Qed.

(** X21.  A removal that is answered with 200 takes the seat out of the
    chains that are built afterwards: the approvers that a submission
    reads, for every company, are those of before without the rows of the
    removed identifier, in the same order.  The removed user had no
    pending slot; the row stays in the table, not active; the sequences of
    the active rows stay distinct; nothing else is written. *)
Theorem removed_seat_leaves_the_chain :
  forall req d,
    http_status (removeApprover req d).1 = 200 ->
    let d' := (removeApprover req d).2 in
    (forall companyId,
       additionalApprovers d' companyId
       = List.filter (fun row : approver * user => negb (N.eqb (ap_id row.1) (rm_id req)))
           (additionalApprovers d companyId))
    /\ (exists seat seatUser,
          approverResult d (rm_id req) (p_company_id (rm_user req)) = Some (seat, seatUser)
          /\ forall slot, In slot (approvals d) -> a_approver_id slot = ap_user_id seat ->
                          a_status slot <> pending)
    /\ map ap_id (approvers d') = map ap_id (approvers d)
    /\ (forall r, In r (approvers d') -> ap_id r = rm_id req -> ap_is_active r = false)
    /\ (distinct_sequences d -> distinct_sequences d')
    /\ users d' = users d /\ approvals d' = approvals d /\ expenses d' = expenses d.
Proof.
  intros req d H200 d'. subst d'.
  destruct (removeApprover_200 req d H200) as (seat & seatUser & Hseat & Hcount & ->).
  split; [intros companyId; apply additionalApprovers_deactivated|].
  split.
  { exists seat, seatUser. split; [exact Hseat|].
    intros slot Hslot Huser Hpending.
    destruct (removeApprover_busy req d seat seatUser slot Hseat Hslot Huser Hpending)
      as [H400 _].
    rewrite H200 in H400. discriminate. }
  cbn [approvers with_approvers users approvals expenses].
  split.
  { rewrite map_map. apply map_ext. intros r. unfold deactivate.
    destruct (N.eqb (ap_id r) (rm_id req)); reflexivity. }
  split.
  { intros r' Hr' Hid. apply in_map_iff in Hr' as (r & <- & Hr).
    unfold deactivate in *. destruct (N.eqb (ap_id r) (rm_id req)) eqn:Heq; [reflexivity|].
    apply N.eqb_neq in Heq. contradiction. }
  split; [|repeat split; reflexivity].
  intros Hdistinct a' b' Ha' Hb' Haa Hba Hc Hs.
  cbn [approvers with_approvers] in Ha', Hb'.
  apply in_map_iff in Ha' as (a & <- & Ha). apply in_map_iff in Hb' as (b & <- & Hb).
  assert (Hkeep : forall r, ap_is_active (deactivate (rm_id req) r) = true ->
                            deactivate (rm_id req) r = r).
  { intros r. unfold deactivate. destruct (N.eqb (ap_id r) (rm_id req)); [discriminate|auto]. }
  pose proof (Hkeep a Haa) as Ea. pose proof (Hkeep b Hba) as Eb.
  rewrite Ea, Eb in *. apply Hdistinct; auto.
Qed.

(** Bob is removed from the roster of Alice, Bob and Carol. *)
Lemma removed_seat_leaves_the_chain_witness :
  let d := Scenario.abc in
  let req := Sample.removes 32 in
  let d' := (removeApprover req d).2 in
  (forall companyId,
     additionalApprovers d' companyId
     = List.filter (fun row : approver * user => negb (ap_id row.1 =? rm_id req)%N)
                   (additionalApprovers d companyId))
  /\ (exists seat seatUser,
        approverResult d (rm_id req) (p_company_id (rm_user req)) = Some (seat, seatUser)
        /\ forall slot, In slot (approvals d) -> a_approver_id slot = ap_user_id seat ->
                        a_status slot <> pending)
  /\ map ap_id (approvers d') = map ap_id (approvers d)
  /\ (forall r, In r (approvers d') -> ap_id r = rm_id req -> ap_is_active r = false)
  /\ (distinct_sequences d -> distinct_sequences d')
  /\ users d' = users d
  /\ approvals d' = approvals d
  /\ expenses d' = expenses d.
Proof.
  apply (removed_seat_leaves_the_chain (Sample.removes 32) Scenario.abc).
  by_computing.
Defined.

(** X22.  A row of [approvers] that is not active still holds its place.
    While some row of the table, active or not, has a company, a role
    name and a sequence, no request adds an approver to that company with
    that role name (as a column of type [VARCHAR(50)] holds it) at that
    sequence: the constraint [UNIQUE(company_id, role_name, sequence)]
    counts the row, while the checks of [addApprover] look at active rows
    only.  Such a request is never answered with 201 and writes nothing.
    A removal answered with 200 leaves the removed row as such a row,
    with its company, role name and sequence.  The place is free again
    once the row has another sequence, which [updateApproverSequence]
    gives to a row that is not active: on the roster of Alice, Bob and
    Carol, after the removal of Bob, the request that adds Alice with
    the role name and sequence of Bob is answered with 500, and with 201
    after the row of Bob has been moved to the sequence 7. *)
Theorem removed_seat_cannot_be_refilled :
  (forall violation out_of_range now addition d row roleName,
     In row (approvers d) ->
     ap_company_id row = p_company_id (ar_user addition) ->
     ar_roleName addition = Some roleName ->
     varchar 50 roleName = Some (ap_role_name row) ->
     ar_sequence addition = Some (Some (ap_sequence row)) ->
     http_status (addApprover violation out_of_range now addition d).1 <> 201
     /\ (addApprover violation out_of_range now addition d).2 = d)
  /\ (forall removal d seat seatUser,
        approverResult d (rm_id removal) (p_company_id (rm_user removal))
        = Some (seat, seatUser) ->
        http_status (removeApprover removal d).1 = 200 ->
        exists row,
          In row (approvers (removeApprover removal d).2)
          /\ ap_id row = ap_id seat /\ ap_is_active row = false
          /\ ap_company_id row = p_company_id (rm_user removal)
          /\ ap_role_name row = ap_role_name seat
          /\ ap_sequence row = ap_sequence seat)
  /\ (let removed := removeApprover (Sample.removes 32) Scenario.abc in
      let refused := Sample.add 5 (Sample.adds 21 "B" 2) removed.2 in
      let moved := Sample.move (Sample.moves 32 7) removed.2 in
      let added := Sample.add 5 (Sample.adds 21 "B" 2) moved.2 in
      http_status removed.1 = 200
      /\ refused = (failure "Failed to add approver"
                      (Sample.duplicate_key approvers_key_name), removed.2)
      /\ http_status moved.1 = 200
      /\ http_status added.1 = 201).
Proof.
  split; [|split].
  - intros violation out_of_range now addition d row roleName Hin Hcompany Hrole Hstored Hseq.
    assert (Hunique : approvers_unique_violated d (p_company_id (ar_user addition))
                        (ap_role_name row) (ap_sequence row) = true).
    { unfold approvers_unique_violated. apply existsb_exists. exists row. split; [exact Hin|].
      rewrite Hcompany, N.eqb_refl, String.eqb_refl, Z.eqb_refl. reflexivity. }
    unfold addApprover. rewrite Hrole, Hseq.
    destruct (ar_userId addition) as [userId|]; [|split; [discriminate|reflexivity]].
    destruct (or_null (Some roleName)) as [name|] eqn:Hnull;
      [|split; [discriminate|reflexivity]].
    assert (name = roleName) as ->.
    { simpl in Hnull. destruct (String.eqb roleName ""); congruence. }
    destruct (ap_sequence row <? 1); [split; [discriminate|reflexivity]|].
    destruct (find _ (users d)) as [user|]; [|split; [discriminate|reflexivity]].
    destruct (negb (u_is_active user)); [split; [discriminate|reflexivity]|].
    destruct (negb (String.eqb (u_role user) "manager")
              && negb (String.eqb (u_role user) "admin"));
      [split; [discriminate|reflexivity]|].
    destruct (has_nul roleName); [split; [discriminate|reflexivity]|].
    destruct (existingApprover d _ _ _); [split; [discriminate|reflexivity]|].
    destruct (integer_max <? ap_sequence row); [split; [discriminate|reflexivity]|].
    destruct (sequenceConflict d _ _); [split; [discriminate|reflexivity]|].
    rewrite Hstored, Hunique. split; [discriminate|reflexivity].
  - intros removal d seat seatUser Hseat H200.
    destruct (removeApprover_200 removal d H200) as (seat' & seatUser' & Hseat' & _ & ->).
    rewrite Hseat in Hseat'. injection Hseat' as <- <-.
    destruct (approverResult_Some _ _ _ _ _ Hseat) as (Hin & Hid & Hc).
    exists (deactivate (rm_id removal) seat).
    destruct (deactivate_row (rm_id removal) seat Hid) as (-> & -> & -> & -> & ->).
    cbn [approvers with_approvers]. repeat split; auto. apply in_map. exact Hin.
  - vm_compute. repeat split; reflexivity.
Qed.

(** After the removal of Bob, Alice is added with the role name and sequence of Bob. *)
Lemma removed_seat_cannot_be_refilled_witness :
  let d' := (removeApprover (Sample.removes 32) Scenario.abc).2 in
  http_status (Sample.add 5 (Sample.adds 21 "B" 2) d').1 <> 201
  /\ (Sample.add 5 (Sample.adds 21 "B" 2) d').2 = d'.
Proof.
  apply (proj1 removed_seat_cannot_be_refilled Sample.duplicate_key Sample.out_of_range 5
           (Sample.adds 21 "B" 2) (removeApprover (Sample.removes 32) Scenario.abc).2
           (deactivate 32 (Scenario.seat 32 22 "B" 2)) "B").
  - vm_compute. auto.
  - by_computing.
  - by_computing.
  - by_computing.
  - by_computing.
Defined.

(** ** Approval rules *)

Lemma deactivate_rule_other id r : r_id r <> id -> deactivate_rule id r = r.
Proof. intros H. unfold deactivate_rule. apply N.eqb_neq in H. rewrite H. reflexivity. Qed.

Lemma deactivate_rule_active id r :
  r_is_active (deactivate_rule id r) = true -> deactivate_rule id r = r /\ r_id r <> id.
Proof.
  unfold deactivate_rule. destruct (N.eqb_spec (r_id r) id); [discriminate|auto].
Qed.

Lemma existingRule_In d companyId ruleType r :
  In r (existingRule d companyId ruleType)
  <-> In r (approval_rules d) /\ r_company_id r = companyId
      /\ r_rule_type r = ruleType /\ r_is_active r = true.
Proof.
  unfold existingRule.
  rewrite filter_In, !andb_true_iff, N.eqb_eq, String.eqb_eq. tauto.
Qed.

Section RuleFacts.

Variable coerce : json -> float.
Variable violation : string -> string.
Variable invalid_uuid : json -> string.

Local Abbreviation setRule := (setApprovalRule coerce violation invalid_uuid).

(** The outcomes of [setApprovalRule]: a refusal that writes nothing, or
    the old rule of the type made inactive and then the new rule either
    refused by the constraint or stored. *)
Lemma setApprovalRule_cases now req d :
  (http_status (setRule now req d).1 <> 201 /\ (setRule now req d).2 = d)
  \/ exists ruleType ruleConfig,
       rr_ruleType req = Some (JStr ruleType) /\ rr_ruleConfig req = Some ruleConfig
       /\ In ruleType validRuleTypes
       /\ check_rule_config coerce invalid_uuid d (p_company_id (rr_user req))
            ruleType ruleConfig = None
       /\ let d1 :=
            match existingRule d (p_company_id (rr_user req)) ruleType with
            | old :: _ =>
                with_rules d (map (deactivate_rule (r_id old)) (approval_rules d))
                  (next_uuid d)
            | [] => d
            end in
          if rule_type_check ruleType then
            http_status (setRule now req d).1 = 201
            /\ (setRule now req d).2
               = with_rules d1
                   (approval_rules d1
                    ++ [{| r_id := next_uuid d1; r_company_id := p_company_id (rr_user req);
                           r_rule_type := ruleType; r_rule_config := ruleConfig;
                           r_is_active := true |}])%list
                   (N.succ (next_uuid d1))
          else
            http_status (setRule now req d).1 = 500
            /\ field "error" (body (setRule now req d).1)
               = Some (JStr "Failed to set approval rule")
            /\ (setRule now req d).2 = d1.
Proof.
  unfold setApprovalRule.
  destruct (negb (truthy (rr_ruleType req)) || negb (truthy (rr_ruleConfig req)));
    [left; split; [discriminate|reflexivity]|].
  destruct (rr_ruleType req) as [[| | | |ruleType| | | |]|];
    try (left; split; [discriminate|reflexivity]).
  destruct (rr_ruleConfig req) as [ruleConfig|]; [|left; split; [discriminate|reflexivity]].
  destruct (existsb (String.eqb ruleType) validRuleTypes) eqn:Hvalid; simpl;
    [|left; split; [discriminate|reflexivity]].
  assert (Hin : In ruleType validRuleTypes).
  { apply existsb_exists in Hvalid as (t & Ht & Heq). apply String.eqb_eq in Heq.
    subst. exact Ht. }
  destruct ruleConfig as [| | | | | | | |fields];
    try (left; split; [discriminate|reflexivity]).
  destruct (check_rule_config coerce invalid_uuid d _ ruleType (JObj fields))
    as [refusal|] eqn:Hcheck.
  { left. split; [|reflexivity]. simpl.
    unfold check_rule_config, check_percentage_rule, check_rule_approver in Hcheck.
    repeat match type of Hcheck with
           | (if ?b then _ else _) = _ => destruct b
           | match ?x with _ => _ end = _ => destruct x
           end; try discriminate; injection Hcheck as <-; discriminate. }
  right. exists ruleType, (JObj fields).
  split; [reflexivity|]. split; [reflexivity|]. split; [exact Hin|].
  split; [exact Hcheck|].
  cbv zeta. destruct (rule_type_check ruleType); simpl; auto.
Qed.

(** A rule of a type that the [CHECK] constraint refuses is not stored,
    and on a table whose rows satisfy the constraint the request writes
    nothing. *)
Lemma unchecked_type_refused now req d ruleType :
  rr_ruleType req = Some (JStr ruleType) -> rule_type_check ruleType = false ->
  rules_checked d ->
  http_status (setRule now req d).1 <> 201 /\ (setRule now req d).2 = d.
Proof.
  intros Htype Hunchecked Hchecked.
  destruct (setApprovalRule_cases now req d)
    as [[Hnot ->]|(ruleType' & ruleConfig & Htype' & _ & _ & _ & Hout)]; [auto|].
  rewrite Htype in Htype'. injection Htype' as <-.
  cbv zeta in Hout. rewrite Hunchecked in Hout. destruct Hout as (H500 & _ & ->).
  split; [rewrite H500; discriminate|].
  destruct (existingRule d (p_company_id (rr_user req)) ruleType) as [|old rest] eqn:Hold;
    [reflexivity|].
  exfalso.
  assert (Hin : In old (existingRule d (p_company_id (rr_user req)) ruleType))
    by (rewrite Hold; left; reflexivity).
  apply existingRule_In in Hin as (Hin & _ & Hty & _).
  unfold rules_checked in Hchecked. rewrite List.Forall_forall in Hchecked.
  specialize (Hchecked old Hin). rewrite Hty, Hunchecked in Hchecked. discriminate.
Qed.

End RuleFacts.

(** C1.  A rule of type [percentage] is never in force.  On a table of
    rules whose rows satisfy the [CHECK] constraint of [rule_type], a
    request for such a rule is never answered with 201 and writes nothing:
    the constraint refuses the row that [setApprovalRule] has validated.
    The loop of [approveExpense], for its part, compares the share of
    approved slots, counted over the slots of the expense, with the field
    [required_percentage] of the configuration, and with 100 when there
    is none: the field [percentage], which [setApprovalRule] validates, is
    not read.  So, in a company with a roster of three and no rule, the
    administrator posts the rule [{percentage: 75, total_approvers: 4}]:
    the configuration passes the checks of the handler, the answer is 500
    and nothing is written.  The employee then submits, and the manager,
    Finance and the CEO approve in turn: the third approval brings the
    share to 75 and the expense stays pending; the fourth approval, of
    the Director, approves it. *)
Theorem percentage_rule_never_in_force :
  (forall coerce violation invalid_uuid now req d,
     rr_ruleType req = Some (JStr "percentage") ->
     rules_checked d ->
     let run := setApprovalRule coerce violation invalid_uuid now req d in
     http_status run.1 <> 201 /\ run.2 = d)
  /\ (forall coerce config,
        field "required_percentage" config = None ->
        requiredPercentage coerce config = 100%float)
  /\ (let roster := Scenario.fourSlots in
      let chain := Sample.chainUnder roster "percentage" Sample.percentageConfig in
      check_percentage_rule Runtime.coerce Sample.percentageConfig = None
      /\ Sample.configured roster "percentage" Sample.percentageConfig
         = (failure "Failed to set approval rule"
              (Sample.check_violation "approval_rules_rule_type_check"),
            Scenario.start roster [])
      /\ map (fun s => (a_sequence s, a_status s))
             (approvals_of (chain [Scenario.M; Scenario.Finance; Scenario.CEO]) 1000)
         = [(1, approved); (2, approved); (3, approved); (4, pending)]
      /\ approvedPercentage
           (approvals_of (chain [Scenario.M; Scenario.Finance; Scenario.CEO]) 1000)
         = 75%float
      /\ approval_rules (chain [Scenario.M; Scenario.Finance; Scenario.CEO]) = []
      /\ map e_status (expenses (chain [Scenario.M; Scenario.Finance; Scenario.CEO]))
         = [pending]
      /\ map e_status
           (expenses (chain [Scenario.M; Scenario.Finance; Scenario.CEO; Scenario.Director]))
         = [approved]).
Proof.
  split; [|split].
  - intros coerce violation invalid_uuid now req d Htype Hchecked run. subst run.
    apply (unchecked_type_refused coerce violation invalid_uuid now req d "percentage");
      auto.
  - intros. apply requiredPercentage_default. assumption.
  - cbv zeta. repeat split; by_running.
Qed.

(** The request of the administrator, on the company without rules. *)
Lemma percentage_rule_never_in_force_witness :
  let d := Scenario.start Scenario.fourSlots [] in
  let run := Sample.setRule 1 (Sample.asks "percentage" Sample.percentageConfig) d in
  http_status run.1 <> 201 /\ run.2 = d.
Proof.
  apply (proj1 percentage_rule_never_in_force Runtime.coerce Sample.check_violation
           Sample.not_a_uuid 1 (Sample.asks "percentage" Sample.percentageConfig)
           (Scenario.start Scenario.fourSlots [])).
  - reflexivity.
  - constructor.
Defined.

(** C2.  Rules of type [specific_approver] and [hybrid] are never in force
    either.  On a table of rules whose rows satisfy the [CHECK] constraint
    of [rule_type], a request for such a rule is never answered with 201
    and writes nothing; and the loop over the active rules in
    [approveExpense] gives effect to rules of type [percentage] only.  So,
    in a company without rules, the administrator posts a rule of type
    [specific_approver] for the manager: the configuration passes the
    checks of the handler and the answer is 500; after the submission, the
    approval of the manager leaves the expense pending.  Likewise for the
    [hybrid] rule of 50% with the manager as special approver: the expense
    is still pending when the manager and one more of four approvers have
    approved. *)
Theorem other_rule_types_never_in_force :
  (forall coerce violation invalid_uuid now req d ruleType,
     rr_ruleType req = Some (JStr ruleType) ->
     ruleType = "specific_approver" \/ ruleType = "hybrid" ->
     rules_checked d ->
     let run := setApprovalRule coerce violation invalid_uuid now req d in
     http_status run.1 <> 201 /\ run.2 = d)
  /\ (forall coerce rows rule,
        r_rule_type rule <> "percentage" -> rule_approves coerce rows rule = Some false)
  /\ (let roster := Scenario.threeSlots in
      let d := Sample.chainUnder roster "specific_approver" Sample.specificConfig
                 [Scenario.M] in
      check_rule_config Runtime.coerce Sample.not_a_uuid (Scenario.start roster []) 100
        "specific_approver" Sample.specificConfig = None
      /\ Sample.configured roster "specific_approver" Sample.specificConfig
         = (failure "Failed to set approval rule"
              (Sample.check_violation "approval_rules_rule_type_check"),
            Scenario.start roster [])
      /\ map (fun s => (a_approver_id s, a_status s)) (approvals_of d 1000)
         = [(2%N, approved); (3%N, pending); (4%N, pending)]
      /\ map e_status (expenses d) = [pending])
  /\ (let roster := Scenario.fourSlots in
      let d := Sample.chainUnder roster "hybrid" Sample.hybridConfig
                 [Scenario.M; Scenario.Finance] in
      check_rule_config Runtime.coerce Sample.not_a_uuid (Scenario.start roster []) 100
        "hybrid" Sample.hybridConfig = None
      /\ Sample.configured roster "hybrid" Sample.hybridConfig
         = (failure "Failed to set approval rule"
              (Sample.check_violation "approval_rules_rule_type_check"),
            Scenario.start roster [])
      /\ map (fun s => (a_approver_id s, a_status s)) (approvals_of d 1000)
         = [(2%N, approved); (3%N, approved); (4%N, pending); (6%N, pending)]
      /\ approvedPercentage (approvals_of d 1000) = 50%float
      /\ map e_status (expenses d) = [pending]).
Proof.
  split; [|split; [|split]].
  - intros coerce violation invalid_uuid now req d ruleType Htype Htwo Hchecked run.
    subst run.
    apply (unchecked_type_refused coerce violation invalid_uuid now req d ruleType); auto.
    destruct Htwo as [-> | ->]; reflexivity.
  - intros. apply rule_approves_other. assumption.
  - cbv zeta. repeat split; by_running.
  - cbv zeta. repeat split; by_running.
Qed.

(** The request of the administrator for the rule of the manager as
    specific approver, on the company without rules. *)
Lemma other_rule_types_never_in_force_witness :
  let d := Scenario.start Scenario.threeSlots [] in
  let run := Sample.setRule 1 (Sample.asks "specific_approver" Sample.specificConfig) d in
  http_status run.1 <> 201 /\ run.2 = d.
Proof.
  apply (proj1 other_rule_types_never_in_force Runtime.coerce Sample.check_violation
           Sample.not_a_uuid 1 (Sample.asks "specific_approver" Sample.specificConfig)
           (Scenario.start Scenario.threeSlots []) "specific_approver").
  - reflexivity.
  - left. reflexivity.
  - constructor.
Defined.



(** X24.  [setApprovalRule] keeps a company at no more than one active rule
    of each type, whatever is posted: if it holds before, it holds after.  A request answered with 201 has made
    the active rule of the type inactive, if there was one, and appended
    the new rule, active, with the configuration of the request; it is
    then the one active rule of its type in the company.  The rules of
    other types and of other companies stay as they were.  The primary
    key of [approval_rules] is assumed. *)
Theorem one_active_rule_per_type :
  forall coerce violation invalid_uuid now req d,
    rules_key d -> single_active_rules d ->
    let run := setApprovalRule coerce violation invalid_uuid now req d in
    single_active_rules run.2
    /\ (http_status run.1 = 201 ->
        exists rule before,
          approval_rules run.2 = (before ++ [rule])%list
          /\ rr_ruleType req = Some (JStr (r_rule_type rule))
          /\ rr_ruleConfig req = Some (r_rule_config rule)
          /\ r_company_id rule = p_company_id (rr_user req)
          /\ r_is_active rule = true
          /\ rule_type_check (r_rule_type rule) = true
          /\ (forall r, In r before -> r_company_id r = r_company_id rule ->
                        r_rule_type r = r_rule_type rule -> r_is_active r = false)
          /\ Forall2 (fun r r' => (r_company_id r <> r_company_id rule
                                   \/ r_rule_type r <> r_rule_type rule -> r' = r)
                                  /\ r_id r' = r_id r)
                     (approval_rules d) before).
Proof.
  intros coerce violation invalid_uuid now req d Hkey Hsingle run. subst run.
  destruct (setApprovalRule_cases coerce violation invalid_uuid now req d)
    as [[Hnot ->]|(ruleType & ruleConfig & Htype & Hconfig & _ & Hcheck & Hout)].
  { split; [exact Hsingle|]. intros H. contradiction. }
  cbv zeta in Hout.
  set (companyId := p_company_id (rr_user req)) in *.
  set (d1 := match existingRule d companyId ruleType with
             | old :: _ =>
                 with_rules d (map (deactivate_rule (r_id old)) (approval_rules d))
                   (next_uuid d)
             | [] => d
             end) in *.
  assert (Hd1 : exists f,
            approval_rules d1 = map f (approval_rules d)
            /\ (forall r, r_id (f r) = r_id r /\ r_company_id (f r) = r_company_id r
                          /\ r_rule_type (f r) = r_rule_type r)
            /\ (forall r, r_is_active (f r) = true -> f r = r)
            /\ (forall r, In r (approval_rules d) ->
                          r_company_id r <> companyId \/ r_rule_type r <> ruleType -> f r = r)
            /\ (forall r, In r (approval_rules d) -> r_company_id r = companyId ->
                          r_rule_type r = ruleType -> r_is_active (f r) = false)).
  { subst d1. destruct (existingRule d companyId ruleType) as [|old rest] eqn:Hold.
    - exists (fun r => r). rewrite map_id. repeat split; auto.
      intros r Hr Hc Ht. destruct (r_is_active r) eqn:Hactive; [|reflexivity].
      assert (Hin : In r (existingRule d companyId ruleType))
        by (apply existingRule_In; auto).
      rewrite Hold in Hin. destruct Hin.
    - assert (Hin : In old (existingRule d companyId ruleType))
        by (rewrite Hold; left; reflexivity).
      apply existingRule_In in Hin as (Hold_in & Hold_c & Hold_t & Hold_a).
      exists (deactivate_rule (r_id old)). split; [reflexivity|].
      split; [intros r; unfold deactivate_rule; destruct (N.eqb (r_id r) (r_id old)); auto|].
      split; [intros r Hr; apply deactivate_rule_active; exact Hr|].
      split.
      + intros r Hr Hother. apply deactivate_rule_other. intros Hid.
        assert (r = old) by (apply (same_id_same_row r_id (approval_rules d)); auto).
        subst r. destruct Hother; contradiction.
      + intros r Hr Hc Ht. unfold deactivate_rule.
        destruct (N.eqb_spec (r_id r) (r_id old)) as [Hid|Hid]; [reflexivity|].
        destruct (r_is_active r) eqn:Hactive; [|reflexivity].
        exfalso. apply Hid. f_equal. apply Hsingle; auto; congruence. }
  destruct Hd1 as (f & Hrows & Hsame & Hactive & Hother & Hreplaced).
  assert (Hsingle1 : single_active_rules d1).
  { unfold single_active_rules. rewrite Hrows.
    intros r r' Hr Hr' Ha Ha' Hc Ht.
    apply in_map_iff in Hr as (a & <- & Hin). apply in_map_iff in Hr' as (b & <- & Hin').
    pose proof (Hactive a Ha) as Ea. pose proof (Hactive b Ha') as Eb.
    rewrite Ea, Eb in *. apply Hsingle; auto. }
  destruct (rule_type_check ruleType) eqn:Hchecked.
  2:{ destruct Hout as (H500 & _ & ->). split; [exact Hsingle1|].
      rewrite H500. discriminate. }
  destruct Hout as (H201 & ->). cbn [approval_rules with_rules].
  set (rule := {| r_id := next_uuid d1; r_company_id := companyId; r_rule_type := ruleType;
                  r_rule_config := ruleConfig; r_is_active := true |}).
  assert (Hnone : forall r, In r (approval_rules d1) -> r_company_id r = companyId ->
                    r_rule_type r = ruleType -> r_is_active r = false).
  { intros r Hr Hc Ht. rewrite Hrows in Hr. apply in_map_iff in Hr as (a & <- & Hin).
    destruct (Hsame a) as (_ & Hca & Hta). apply Hreplaced; auto; congruence. }
  split.
  - intros r r' Hr Hr' Ha Ha' Hc Ht.
    apply in_app_or in Hr as [Hr|[<-|[]]]; apply in_app_or in Hr' as [Hr'|[<-|[]]].
    + apply Hsingle1; auto.
    + exfalso. rewrite (Hnone r Hr) in Ha; [discriminate|exact Hc|exact Ht].
    + exfalso. rewrite (Hnone r' Hr') in Ha'; [discriminate|symmetry; exact Hc|symmetry; exact Ht].
    + reflexivity.
  - intros _. exists rule, (approval_rules d1).
    split; [reflexivity|]. split; [exact Htype|]. split; [exact Hconfig|].
    split; [reflexivity|]. split; [reflexivity|]. split; [exact Hchecked|].
    split; [exact Hnone|].
    rewrite Hrows. apply Forall2_map_self. intros r Hr. split; [|apply Hsame].
    intros Hdiff. apply Hother; assumption.
Qed.

(** A second rule of type amount_threshold for the company. *)
Lemma one_active_rule_per_type_witness :
  let d := Sample.ruled in
  let req := Sample.asks "amount_threshold" (JObj [("threshold", JNum 500)]) in
  let run := Sample.setRule 5 req d in
  single_active_rules run.2
  /\ (http_status run.1 = 201 ->
      exists rule before,
        approval_rules run.2 = (before ++ [rule])%list
        /\ rr_ruleType req = Some (JStr (r_rule_type rule))
        /\ rr_ruleConfig req = Some (r_rule_config rule)
        /\ r_company_id rule = p_company_id (rr_user req)
        /\ r_is_active rule = true
        /\ rule_type_check (r_rule_type rule) = true
        /\ (forall r, In r before -> r_company_id r = r_company_id rule ->
                      r_rule_type r = r_rule_type rule -> r_is_active r = false)
        /\ Forall2 (fun r r' =>
                      (r_company_id r <> r_company_id rule
                       \/ r_rule_type r <> r_rule_type rule -> r' = r)
                      /\ r_id r' = r_id r)
                   (approval_rules d) before).
Proof.
  apply (one_active_rule_per_type Runtime.coerce Sample.check_violation Sample.not_a_uuid 5
           (Sample.asks "amount_threshold" (JObj [("threshold", JNum 500)])) Sample.ruled).
  - distinct_keys.
  - intros r r' Hr Hr' _ _ _ _. table_rows Hr; table_rows Hr'; reflexivity.
Defined.

(** X25.  On a table of rules whose rows satisfy the [CHECK] constraint of
    [rule_type], the loop over the rules in [approveExpense] has no effect:
    no active rule is of type [percentage], every rule leaves the expense
    as the chain has it, and the loop ends as it started. *)
Theorem schema_rules_never_fire :
  forall coerce rows d companyId start,
    rules_checked d ->
    apply_rules coerce rows (active_rules d companyId) start = Some start
    /\ forall r, In r (active_rules d companyId) ->
         r_rule_type r <> "percentage" /\ rule_approves coerce rows r = Some false.
Proof.
  intros coerce rows d companyId start Hchecked.
  assert (Hnone : forall r, In r (active_rules d companyId) -> r_rule_type r <> "percentage").
  { intros r Hr. unfold active_rules in Hr. apply filter_In in Hr as [Hr _].
    unfold rules_checked in Hchecked. rewrite List.Forall_forall in Hchecked.
    specialize (Hchecked r Hr). intros Ht. rewrite Ht in Hchecked. discriminate. }
  split; [apply apply_rules_inert; exact Hnone|].
  intros r Hr. split; [apply Hnone; exact Hr|].
  apply rule_approves_other, Hnone, Hr.
Qed.

(** The rule of the sample data, on the slots of a chain of four. *)
Lemma schema_rules_never_fire_witness :
  let rows := approvals Scenario.halfApproved in
  apply_rules Runtime.coerce rows (active_rules Sample.ruled 100) false = Some false
  /\ forall r, In r (active_rules Sample.ruled 100) ->
               r_rule_type r <> "percentage"
               /\ rule_approves Runtime.coerce rows r = Some false.
Proof.
  apply (schema_rules_never_fire Runtime.coerce (approvals Scenario.halfApproved)
           Sample.ruled 100 false).
  repeat constructor.
Defined.

(** ** A move without exchange, and a rejection out of turn *)

(** X26.  Moving an approver row to a sequence, of at least 1 and at most
    [integer_max], that no other active row of the company holds.  When
    no other row of the table, active or not, has the company and the
    role name of the row at that sequence, the move changes that row
    only: it takes the new sequence, every other row stays as it was, and
    the answer, with status 200, names no row as exchanged.  When such a
    row exists and the sequence is not that of the row already, the
    constraint [UNIQUE(company_id, role_name, sequence)] refuses the
    update: the answer has status 500 and nothing is written.  The
    primary key of [approvers] is assumed. *)
Theorem free_sequence_moves_one_row :
  forall violation out_of_range req d sequence row rowUser,
    approvers_key d ->
    sq_newSequence req = Some (Some sequence) ->
    1 <= sequence <= integer_max ->
    approverResult d (sq_id req) (p_company_id (sq_user req)) = Some (row, rowUser) ->
    (forall r, In r (approvers d) ->
               ~ occupies (p_company_id (sq_user req)) sequence (sq_id req) r) ->
    let run := updateApproverSequence violation out_of_range req d in
    (sequence_taken d row sequence = false ->
     http_status run.1 = 200
     /\ (ap_sequence row <> sequence -> field "swapped_with" (body run.1) = Some JNull)
     /\ Forall2 (fun r r' => (ap_id r = sq_id req -> r' = with_sequence r sequence)
                             /\ (ap_id r <> sq_id req -> r' = r))
                (approvers d) (approvers run.2)
     /\ exists row', In row' (approvers run.2)
                     /\ ap_id row' = sq_id req /\ ap_sequence row' = sequence)
    /\ (sequence_taken d row sequence = true -> ap_sequence row <> sequence ->
        run = (error_response 500 "Failed to update approver sequence"
                 (Some (violation approvers_key_name)), d)).
Proof.
  intros violation out_of_range req d sequence row rowUser Hkey Hreq [Hpos Hmax] Hrow Hfree run.
  subst run.
  assert (Hnone : conflictResult d (p_company_id (sq_user req)) sequence (sq_id req) = []).
  { apply nil_iff_no_member. intros r Hr. apply conflictResult_In in Hr as [Hin Hocc].
    apply (Hfree r Hin Hocc). }
  destruct (approverResult_Some _ _ _ _ _ Hrow) as (Hrow_in & Hrow_id & _).
  unfold updateApproverSequence. rewrite Hreq.
  replace (sequence <? 1) with false by (symmetry; apply Z.ltb_ge; lia).
  rewrite Hrow.
  replace (integer_max <? sequence) with false by (symmetry; apply Z.ltb_ge; lia).
  rewrite Hnone.
  destruct (Z.eqb_spec (ap_sequence row) sequence) as [Hsame|Hmove];
    (split; [intros Htaken|intros Htaken Hdiffer; try contradiction]).
  - simpl. split; [reflexivity|]. split; [intros H; contradiction|]. split.
    + rewrite <- (map_id (approvers d)) at 2. apply Forall2_map_self.
      intros r Hr. split; [|auto].
      intros Hid.
      assert (r = row) by (apply (same_id_same_row ap_id (approvers d)); auto; congruence).
      subst r. rewrite <- Hsame. symmetry. apply with_sequence_same.
    + exists row. auto.
  - rewrite Htaken. simpl. split; [reflexivity|]. split; [reflexivity|]. split.
    + apply Forall2_map_self. intros r Hr. split.
      * apply set_sequence_row.
      * apply set_sequence_other.
    + exists (set_sequence sequence (sq_id req) row). split; [apply in_map; exact Hrow_in|].
      rewrite (set_sequence_row _ _ _ Hrow_id). auto.
  - rewrite Htaken. reflexivity.
Qed.

(** Carol moves to the sequence 5, which nobody holds. *)
Lemma free_sequence_moves_one_row_witness :
  let d := Scenario.abc in
  let req := Sample.moves 33 5 in
  let row := Scenario.seat 33 23 "C" 3 in
  let run := Sample.move req d in
  http_status run.1 = 200
  /\ (ap_sequence row <> 5 -> field "swapped_with" (body run.1) = Some JNull)
  /\ Forall2 (fun r r' =>
                (ap_id r = sq_id req -> r' = with_sequence r 5)
                /\ (ap_id r <> sq_id req -> r' = r))
             (approvers d) (approvers run.2)
  /\ exists row',
       In row' (approvers run.2)
       /\ ap_id row' = sq_id req
       /\ ap_sequence row' = 5.
Proof.
  refine (proj1 (free_sequence_moves_one_row Sample.duplicate_key Sample.out_of_range
                   (Sample.moves 33 5) Scenario.abc 5 (Scenario.seat 33 23 "C" 3)
                   Scenario.Carol _ _ _ _ _) _).
  - distinct_keys.
  - reflexivity.
  - vm_compute. split; discriminate.
  - by_computing.
  - intros r Hr. table_rows Hr; vm_compute; intuition discriminate.
  - reflexivity.
Defined.

(** X27.  Rejections are not held to the order of the chain.  While a slot
    with a lower sequence is not approved, the assigned approver of a
    pending slot does not find it in the list of pending approvals and
    cannot approve it; a rejection of it, with a comment that is not
    blank after trimming and that the column can hold (a text without the
    character U+0000), is accepted all the same: the expense becomes
    rejected and no slot of it stays pending. *)
Theorem rejection_is_not_sequential :
  forall coerce now req d slot ex s comments,
    find_approval d (dr_id req) = Some slot ->
    find_expense d (a_expense_id slot) = Some ex ->
    a_approver_id slot = p_id (dr_user req) ->
    a_status slot = pending -> e_status ex = pending ->
    blocks d slot s ->
    dr_comments req = Some comments -> blank comments = false ->
    has_nul comments = false ->
    ~ In slot (map (fun row : approval * expense * user * company => row.1.1.1)
                   (availableApprovals d (dr_user req)))
    /\ http_status (approveExpense coerce now req d).1 = 400
    /\ (approveExpense coerce now req d).2 = d
    /\ (exists e', find_expense (rejectExpense now req d).2 (a_expense_id slot) = Some e'
                   /\ e_status e' = rejected)
    /\ (forall t, In t (approvals (rejectExpense now req d).2) ->
                  a_expense_id t = a_expense_id slot -> a_status t <> pending).
Proof.
  intros coerce now req d slot ex s comments Hs He Hme Hst Hex Hblock Hc Hb Hn.
  split; [|split; [|split; [|split]]].
  - intros Hin. apply in_map_iff in Hin as ([[[a e] u] c] & Heq & Hrow).
    simpl in Heq. subst a. apply filter_In in Hrow as [_ Hfree]. simpl in Hfree.
    apply Nat.eqb_eq, blocking_none in Hfree.
    apply unapprovedPrevious_In in Hblock. rewrite Hfree in Hblock. destruct Hblock.
  - destruct (approve_out_of_order coerce now req d slot ex Hs He s Hme Hst Hex Hblock)
      as (lowest & _ & _ & ->). reflexivity.
  - destruct (approve_out_of_order coerce now req d slot ex Hs He s Hme Hst Hex Hblock)
      as (lowest & _ & _ & ->). reflexivity.
  - destruct (reject_applied now req d slot ex Hs He Hme Hst Hex comments Hc Hb Hn)
      as (_ & (e' & Hfind & Hrejected & _) & _).
    eauto.
  - destruct (reject_tables now req d slot ex Hs He Hme Hst Hex comments Hc Hb Hn)
      as (Ha & _).
    cbv zeta in Ha. rewrite Ha. intros t Ht Hexp.
    apply in_map_iff in Ht as (r & <- & Hr).
    destruct (cascade_row_identity (a_expense_id slot) (dr_id req) now
                (decide_row (dr_id req) rejected (Some comments) now r))
      as (_ & Hce & _).
    destruct (decide_row_identity (dr_id req) rejected (Some comments) now r)
      as (_ & Hde & _).
    rewrite Hce, Hde in Hexp.
    unfold cascade_row, decide_row, is_pending.
    destruct (N.eqb_spec (a_id r) (dr_id req)) as [Hid|Hid]; simpl.
    + rewrite Hid, N.eqb_refl, andb_false_r. simpl. discriminate.
    + rewrite Hexp, N.eqb_refl. simpl.
      destruct (status_eqb (a_status r) pending) eqn:Hp; simpl.
      * apply N.eqb_neq in Hid. rewrite Hid. simpl. discriminate.
      * apply status_eqb_neq in Hp. exact Hp.
Qed.

(** The CEO rejects the third slot while the first two are pending. *)
Lemma rejection_is_not_sequential_witness :
  let d := Scenario.pendingChain in
  let req := Scenario.decision Scenario.CEO 1003 (Some "not this quarter") in
  let slot := Scenario.slot d 1003 in
  ~ In slot (map (fun row : approval * expense * user * company => row.1.1.1)
                 (availableApprovals d (dr_user req)))
  /\ http_status (approveExpense Runtime.coerce 9 req d).1 = 400
  /\ (approveExpense Runtime.coerce 9 req d).2 = d
  /\ (exists e', find_expense (rejectExpense 9 req d).2 (a_expense_id slot) = Some e'
                 /\ e_status e' = rejected)
  /\ forall t, In t (approvals (rejectExpense 9 req d).2) ->
               a_expense_id t = a_expense_id slot -> a_status t <> pending.
Proof.
  apply (rejection_is_not_sequential Runtime.coerce 9
           (Scenario.decision Scenario.CEO 1003 (Some "not this quarter"))
           Scenario.pendingChain (Scenario.slot Scenario.pendingChain 1003)
           (Scenario.expenseRow Scenario.pendingChain 1000)
           (Scenario.slot Scenario.pendingChain 1001) "not this quarter").
  - by_computing.
  - by_computing.
  - by_computing.
  - by_computing.
  - by_computing.
  - vm_compute. intuition (auto; discriminate).
  - reflexivity.
  - by_computing.
  - by_computing.
Defined.
